(** * Structured real-coefficient / complex-sample dot product (AVX512-F)

    Shallow embedding of [src/dotprod/src/dotprod_crcf.avx512f.c].

    - [float] values are elements of a carrier [F] with a zero, an addition
      and a multiplication ([FloatOps]); nothing is assumed about them
      unless a statement asks for [ExactArith] (exact arithmetic: addition
      is associative and commutative with unit 0, multiplication is
      commutative).  [Qc], the rationals, is the instance used to run the
      model.
    - [unsigned int] is a [Z] in [0, 2^32); every operation that the C code
      performs in that type is wrapped by [u32].
    - Memory is a finite map from block identifiers to blocks.  A block is
      either an array of floats (with the alignment of its base address) or
      one [struct dotprod_crcf_s].  A pointer to [liquid_float_complex] is
      a pointer to floats holding interleaved (real, imaginary) pairs,
      which is what the kernels' cast of [_x] to a pointer to [float]
      relies on.
    - A C function is a function in the monad [M]: it takes the machine
      state and yields either a value with the next state, or [Fault] when
      the C program has no defined behaviour (null or dangling dereference,
      access outside a block, misaligned aligned-load). *)

From Stdlib Require Import ZArith Lia Qcanon.
From stdpp Require Import base option list gmap.

Local Open Scope Z_scope.

(** ** Arithmetic of [float] *)

Class FloatOps (F : Type) := {
  f0 : F;
  fadd : F -> F -> F;
  fmul : F -> F -> F
}.

Class ExactArith (F : Type) `{FloatOps F} : Prop := {
  fadd_comm : forall a b : F, fadd a b = fadd b a;
  fadd_assoc : forall a b c : F, fadd a (fadd b c) = fadd (fadd a b) c;
  fadd_0_l : forall a : F, fadd f0 a = a;
  fmul_comm : forall a b : F, fmul a b = fmul b a
}.

#[global] Instance Qc_ops : FloatOps Qc :=
  {| f0 := 0%Qc; fadd := Qcplus; fmul := Qcmult |}.

(** ** Machine integers *)

Definition u32 (z : Z) : Z := z mod 2 ^ 32.

Definition sizeof_float : Z := 4.

(** Modelled from the spec: the status codes come from [liquid.h], which is
    not under src/; [LIQUID_OK] is success, [LIQUID_EICONFIG] the
    invalid-argument (configuration) error. *)
Definition LIQUID_OK : Z := 0.
Definition LIQUID_EICONFIG : Z := 3.

(** ** Memory *)

Abbreviation ptr := (option positive).

Definition NULL : ptr := None.

(** [struct dotprod_crcf_s { unsigned int n; float * h; }] *)
Record dotprod_crcf_s := { s_n : Z; s_h : ptr }.

Inductive block (F : Type) :=
| BFloats (align : Z) (data : list F)
| BObj (s : dotprod_crcf_s).
Arguments BFloats {F} align data.
Arguments BObj {F} s.

(** What [dotprod_crcf_print] writes on the standard output. *)
Inductive out_line (F : Type) :=
| OutHeader (n : Z)
| OutCoeff (i : Z) (v : F).
Arguments OutHeader {F} n.
Arguments OutCoeff {F} i v.

(** The machine state: the live blocks, the answers the allocator will give
    to the coming requests ([true]: the request is served; the list being
    exhausted, memory is), the errors reported so far and the lines
    printed so far. *)
Record state (F : Type) := {
  heap : gmap positive (block F);
  oracle : list bool;
  errlog : list Z;
  console : list (out_line F)
}.
Arguments heap {F} s.
Arguments oracle {F} s.
Arguments errlog {F} s.
Arguments console {F} s.

Inductive result (S A : Type) :=
| Ok (a : A) (st : S)
| Fault.
Arguments Ok {S A} a st.
Arguments Fault {S A}.

Section Model.
Context {F : Type} `{FloatOps F}.

Definition M (A : Type) : Type := state F -> result (state F) A.

Definition ret {A} (a : A) : M A := fun st => Ok a st.

Definition bind {A B} (m : M A) (k : A -> M B) : M B :=
  fun st => match m st with
            | Ok a st' => k a st'
            | Fault => Fault
            end.

Definition fault {A} : M A := fun _ => Fault.

Notation "x <- m ; k" := (bind m (fun x => k))
  (at level 20, m at level 100, k at level 200, only parsing).
Notation "' pat <- m ; k" := (bind m (fun x => match x with pat => k end))
  (at level 20, pat pattern, m at level 100, k at level 200, only parsing).

Definition set_heap (hp : gmap positive (block F)) (st : state F) : state F :=
  {| heap := hp; oracle := oracle st; errlog := errlog st;
     console := console st |}.

Definition set_oracle (o : list bool) (st : state F) : state F :=
  {| heap := heap st; oracle := o; errlog := errlog st;
     console := console st |}.

(** *** Floats in memory *)

Definition index {A} (l : list A) (i : Z) : option A :=
  if 0 <=? i then l !! Z.to_nat i else None.

Definition floats_at (st : state F) (p : ptr) : option (Z * list F) :=
  match p with
  | Some b => match heap st !! b with
              | Some (BFloats al data) => Some (al, data)
              | _ => None
              end
  | None => None
  end.

(** [p[i]] as an rvalue. *)
Definition load (p : ptr) (i : Z) : M F :=
  fun st => match floats_at st p with
            | Some (_, data) => match index data i with
                                | Some v => Ok v st
                                | None => Fault
                                end
            | None => Fault
            end.

(** [p[i] = v]. *)
Definition store (p : ptr) (i : Z) (v : F) : M unit :=
  fun st => match p, floats_at st p with
            | Some b, Some (al, data) =>
                match index data i with
                | Some _ =>
                    Ok tt (set_heap (<[b := BFloats al (<[Z.to_nat i := v]> data)]>
                                       (heap st)) st)
                | None => Fault
                end
            | _, _ => Fault
            end.

(** *** Complex values: [liquid_float_complex] is [float complex] *)

Definition liquid_float_complex : Type := (F * F)%type.

(** Modelled from the spec: [_FCOMPLEX_(re, im)] is a macro of the missing
    headers that builds the complex value [re + i im]. *)
Definition _FCOMPLEX_ (re im : F) : liquid_float_complex := (re, im).

(** [r + z] on complex values. *)
Definition cadd (r z : liquid_float_complex) : liquid_float_complex :=
  (fadd (fst r) (fst z), fadd (snd r) (snd z)).

(** [h * z] with [h] real and [z] complex: both parts are scaled. *)
Definition rcmul (h : F) (z : liquid_float_complex) : liquid_float_complex :=
  (fmul h (fst z), fmul h (snd z)).

(** [_FCmulcr(z, h)] of the Microsoft C library: the complex [z] times the
    real [h]. *)
Definition _FCmulcr (z : liquid_float_complex) (h : F) : liquid_float_complex :=
  (fmul (fst z) h, fmul (snd z) h).

(** [_x[i]] for [_x] a pointer to [liquid_float_complex]. *)
Definition load_complex (p : ptr) (i : Z) : M liquid_float_complex :=
  re <- load p (2 * i);
  im <- load p (2 * i + 1);
  ret (re, im).

(** [*_y = r].  The kernels end with [*_y = w[0] + _Complex_I*w[1]], the
    complex value whose parts are [w[0]] and [w[1]]. *)
Definition store_complex (p : ptr) (r : liquid_float_complex) : M unit :=
  _ <- store p 0 (fst r);
  store p 1 (snd r).

(** *** Objects in memory *)

(** Reading the fields of [*_q].  The functions below read the record
    once where the C code reads [q->n] or [q->h] again and again: a store
    of a [float] cannot change a record, so that every read gives the same
    fields. *)
Definition deref (q : ptr) : M dotprod_crcf_s :=
  fun st => match q with
            | Some b => match heap st !! b with
                        | Some (BObj s) => Ok s st
                        | _ => Fault
                        end
            | None => Fault
            end.

Definition update_obj (q : ptr) (f : dotprod_crcf_s -> dotprod_crcf_s) : M unit :=
  fun st => match q with
            | Some b => match heap st !! b with
                        | Some (BObj s) =>
                            Ok tt (set_heap (<[b := BObj (f s)]> (heap st)) st)
                        | _ => Fault
                        end
            | None => Fault
            end.

(** [q->n = v]. *)
Definition set_n (q : ptr) (v : Z) : M unit :=
  update_obj q (fun s => {| s_n := v; s_h := s_h s |}).

(** [q->h = p]. *)
Definition set_h (q : ptr) (p : ptr) : M unit :=
  update_obj q (fun s => {| s_n := s_n s; s_h := p |}).

(** *** Allocation *)

(** A request is served when the oracle says so, with a block that was not
    live before; otherwise the allocator returns [NULL]. *)
Definition alloc (blk : block F) : M ptr :=
  fun st => match oracle st with
            | true :: o =>
                let b := fresh (dom (heap st)) in
                Ok (Some b) (set_oracle o (set_heap (<[b := blk]> (heap st)) st))
            | false :: o => Ok NULL (set_oracle o st)
            | [] => Ok NULL st
            end.

(** [malloc(sizeof(struct dotprod_crcf_s))]: the fields are indeterminate
    until they are assigned; the model starts them at [0] and [NULL]. *)
Definition malloc_obj : M ptr :=
  alloc (BObj {| s_n := 0; s_h := NULL |}).

(** [_mm_malloc(size, align)], cast to a pointer to [float]: room for
    [size / sizeof(float)] floats at an address that is a multiple of
    [align].  The contents are indeterminate until written; the model
    starts them at zero. *)
Definition _mm_malloc (size align : Z) : M ptr :=
  alloc (BFloats align (replicate (Z.to_nat (size / sizeof_float)) f0)).

(** [free(q)] for an object record; [free(NULL)] does nothing. *)
Definition free (q : ptr) : M unit :=
  fun st => match q with
            | None => Ok tt st
            | Some b => match heap st !! b with
                        | Some (BObj _) => Ok tt (set_heap (delete b (heap st)) st)
                        | _ => Fault
                        end
            end.

(** [_mm_free(p)] for a float array; a null pointer is ignored. *)
Definition _mm_free (p : ptr) : M unit :=
  fun st => match p with
            | None => Ok tt st
            | Some b => match heap st !! b with
                        | Some (BFloats _ _) => Ok tt (set_heap (delete b (heap st)) st)
                        | _ => Fault
                        end
            end.

(** [memmove(dst, src, size)] between float arrays: the first
    [size / sizeof(float)] floats of [src] replace those of [dst].  Both
    pointers must be valid, whatever the size. *)
Definition memmove (dst src : ptr) (size : Z) : M unit :=
  fun st => match dst, floats_at st dst, floats_at st src with
            | Some b, Some (al, d), Some (_, s) =>
                let k := Z.to_nat (size / sizeof_float) in
                if decide (k <= length s /\ k <= length d)%nat
                then Ok tt (set_heap (<[b := BFloats al (take k s ++ drop k d)]>
                                        (heap st)) st)
                else Fault
            | _, _, _ => Fault
            end.

(** Modelled from the spec: [liquid_error_config] is declared in
    [liquid.internal.h], which is not under src/.  The call reports an
    invalid-argument error and evaluates to the null handle. *)
Definition liquid_error_config : M ptr :=
  fun st => Ok NULL {| heap := heap st; oracle := oracle st;
                       errlog := errlog st ++ [LIQUID_EICONFIG];
                       console := console st |}.

(** [printf] of one line. *)
Definition printf (l : out_line F) : M unit :=
  fun st => Ok tt {| heap := heap st; oracle := oracle st;
                     errlog := errlog st; console := console st ++ [l] |}.

(** *** Loops

    [for (i = lo; i < hi; i += step) a = body(i, a)], with [i] an
    [unsigned int].  The test [i < hi] is made before every iteration.
    [fuel] bounds the number of iterations; [for_loop] gives the number
    that is needed as long as the counter does not wrap around
    ([for_loop_iterate]).  A run in which the counter wraps around with
    the test still true is not followed further and counts as a [Fault];
    the loops of this file count up to a bound that the counter reaches
    exactly, so that this does not arise.  The loop yields the final value
    of the counter with the final value of [a]. *)
Fixpoint for_iter {A} (fuel : nat) (hi step : Z) (body : Z -> A -> M A)
    (i : Z) (a : A) : M (Z * A) :=
  if i <? hi then
    match fuel with
    | O => fault
    | S fuel' =>
        a' <- body i a;
        for_iter fuel' hi step body (u32 (i + step)) a'
    end
  else ret (i, a).

Definition trip_count (lo hi step : Z) : nat :=
  Z.to_nat ((hi - lo + step - 1) / step).

Definition for_loop {A} (lo hi step : Z) (body : Z -> A -> M A) (a : A)
  : M (Z * A) :=
  for_iter (trip_count lo hi step) hi step body lo a.

(** *** AVX512-F registers and intrinsics

    An [__m512] register holds sixteen floats; lane [j] is element [j] of
    the list.  The intrinsics follow the operation sections of the Intel
    Intrinsics Guide. *)

Definition __m512 : Type := list F.

Definition _mm512_setzero_ps : __m512 := replicate 16 f0.

(** Sixteen floats from [&p[i]], no alignment required. *)
Definition _mm512_loadu_ps (p : ptr) (i : Z) : M __m512 :=
  fun st => match floats_at st p with
            | Some (_, data) =>
                if decide (0 <= i /\ i + 16 <= Z.of_nat (length data))
                then Ok (take 16 (drop (Z.to_nat i) data)) st
                else Fault
            | None => Fault
            end.

(** Sixteen floats from [&p[i]], an address that must be a multiple of 64
    bytes: the allocation of the block guarantees it for the base, and
    the offset has to keep it. *)
Definition _mm512_load_ps (p : ptr) (i : Z) : M __m512 :=
  fun st => match floats_at st p with
            | Some (al, data) =>
                if decide (0 <= i /\ i + 16 <= Z.of_nat (length data) /\
                           al mod 64 = 0 /\ (sizeof_float * i) mod 64 = 0)
                then Ok (take 16 (drop (Z.to_nat i) data)) st
                else Fault
            | None => Fault
            end.

Definition _mm512_mul_ps (a b : __m512) : __m512 := zip_with fmul a b.

Definition _mm512_add_ps (a b : __m512) : __m512 := zip_with fadd a b.

(** One step of REDUCE_ADD: lane [j] becomes lane [j] plus lane
    [j + len/2], for the lower half of the lanes. *)
Definition reduce_step (src : list F) : list F :=
  let half := (length src / 2)%nat in
  zip_with fadd (take half src) (drop half src).

(** REDUCE_ADD(src, 16): halve three times, then add the two lanes left. *)
Definition reduce_add16 (src : list F) : F :=
  match reduce_step (reduce_step (reduce_step src)) with
  | [a; b] => fadd a b
  | _ => f0
  end.

(** The lanes whose bit is clear in the mask [k] count as zero. *)
Definition mask_lanes (k : Z) (a : __m512) : list F :=
  imap (fun j v => if Z.testbit k (Z.of_nat j) then v else f0) a.

Definition _mm512_mask_reduce_add_ps (k : Z) (a : __m512) : F :=
  reduce_add16 (mask_lanes k a).

(** ** The scalar routines *)

(** basic dot product (ordinal calculation).

    The body of the loop is under [#ifdef _MSC_VER] in the source.  This is
    the function without [_MSC_VER]: [r += _h[i] * _x[i]]. *)
Definition dotprod_crcf_run (_h _x : ptr) (_n : Z) (_y : ptr) : M Z :=
  '(_, r) <- for_loop 0 _n 1
               (fun i r =>
                  hi <- load _h i;
                  xi <- load_complex _x i;
                  ret (cadd r (rcmul hi xi)))
               (_FCOMPLEX_ f0 f0);
  _ <- store_complex _y r;
  ret LIQUID_OK.

(** The same function with the line under [_MSC_VER]:
    [r = _FCmulcr(_x[i], _h[i])].  [_FCmulcr] takes the structure
    [_Fcomplex]; were [liquid_float_complex] that structure, the
    initialisation [r = 0] and the operators [+=] and [*] of
    [dotprod_crcf_run4] and of the kernels, which are not under any
    directive, would not be C, so that no build of this file has this
    line.  It is modelled to tell what the line says. *)
Definition dotprod_crcf_run_msc (_h _x : ptr) (_n : Z) (_y : ptr) : M Z :=
  '(_, r) <- for_loop 0 _n 1
               (fun i (r : liquid_float_complex) =>
                  xi <- load_complex _x i;
                  hi <- load _h i;
                  ret (_FCmulcr xi hi))
               (_FCOMPLEX_ f0 f0);
  _ <- store_complex _y r;
  ret LIQUID_OK.

(** basic dot product (ordinal calculation) with loop unrolled *)
Definition dotprod_crcf_run4 (_h _x : ptr) (_n : Z) (_y : ptr) : M Z :=
  let r0 : liquid_float_complex := (f0, f0) in
  (* t = 4*(floor(_n/4)) *)
  let t := u32 (Z.shiftl (Z.shiftr _n 2) 2) in
  (* compute dotprod in groups of 4 *)
  '(i, r) <- for_loop 0 t 4
               (fun i r =>
                  h0 <- load _h i;
                  x0 <- load_complex _x i;
                  let r := cadd r (rcmul h0 x0) in
                  h1 <- load _h (u32 (i + 1));
                  x1 <- load_complex _x (u32 (i + 1));
                  let r := cadd r (rcmul h1 x1) in
                  h2 <- load _h (u32 (i + 2));
                  x2 <- load_complex _x (u32 (i + 2));
                  let r := cadd r (rcmul h2 x2) in
                  h3 <- load _h (u32 (i + 3));
                  x3 <- load_complex _x (u32 (i + 3));
                  ret (cadd r (rcmul h3 x3)))
               r0;
  (* clean up remaining *)
  '(_, r) <- for_loop i _n 1
               (fun i r =>
                  hi <- load _h i;
                  xi <- load_complex _x i;
                  ret (cadd r (rcmul hi xi)))
               r;
  _ <- store_complex _y r;
  ret LIQUID_OK.

(** ** The structured object *)

(** [dotprod_crcf] is a pointer to [struct dotprod_crcf_s]. *)

Definition dotprod_crcf_create_opt (_h : ptr) (_n : Z) (_rev : Z) : M ptr :=
  q <- malloc_obj;
  _ <- set_n q _n;
  s <- deref q;
  (* allocate memory for coefficients, 64-byte aligned *)
  hp <- _mm_malloc (u32 (2 * s_n s) * sizeof_float) 64;
  _ <- set_h q hp;
  (* set coefficients, repeated *)
  _ <- for_loop 0 (s_n s) 1
         (fun i (_ : unit) =>
            let k := if _rev =? 0 then i else u32 (u32 (s_n s - i) - 1) in
            v <- load _h k;
            _ <- store hp (u32 (2 * i + 0)) v;
            store hp (u32 (2 * i + 1)) v)
         tt;
  ret q.

Definition dotprod_crcf_create (_h : ptr) (_n : Z) : M ptr :=
  dotprod_crcf_create_opt _h _n 0.

Definition dotprod_crcf_create_rev (_h : ptr) (_n : Z) : M ptr :=
  dotprod_crcf_create_opt _h _n 1.

Definition dotprod_crcf_destroy (_q : ptr) : M Z :=
  s <- deref _q;
  _ <- _mm_free (s_h s);
  _ <- free _q;
  ret LIQUID_OK.

(** re-create the structured dotprod object *)
Definition dotprod_crcf_recreate (_q _h : ptr) (_n : Z) : M ptr :=
  (* completely destroy and re-create dotprod object *)
  _ <- dotprod_crcf_destroy _q;
  dotprod_crcf_create _h _n.

(** re-create the structured dotprod object, coefficients reversed *)
Definition dotprod_crcf_recreate_rev (_q _h : ptr) (_n : Z) : M ptr :=
  _ <- dotprod_crcf_destroy _q;
  dotprod_crcf_create_rev _h _n.

Definition dotprod_crcf_copy (q_orig : ptr) : M ptr :=
  (* validate input *)
  match q_orig with
  | None => liquid_error_config
  | Some _ =>
      q_copy <- malloc_obj;
      so <- deref q_orig;
      _ <- set_n q_copy (s_n so);
      sc <- deref q_copy;
      (* allocate memory for coefficients, 64-byte aligned (repeated) *)
      hp <- _mm_malloc (u32 (2 * s_n sc) * sizeof_float) 64;
      _ <- set_h q_copy hp;
      (* copy coefficients array (repeated) *)
      _ <- memmove hp (s_h so) (u32 (2 * s_n so) * sizeof_float);
      ret q_copy
  end.

Definition dotprod_crcf_print (_q : ptr) : M Z :=
  s <- deref _q;
  _ <- printf (OutHeader (s_n s));
  _ <- for_loop 0 (s_n s) 1
         (fun i (_ : unit) =>
            v <- load (s_h s) (u32 (2 * i));
            printf (OutCoeff i v))
         tt;
  ret LIQUID_OK.

(** ** The vector kernels *)

(** use AVX512-F extensions *)
Definition dotprod_crcf_execute_avx512f (_q _x _y : ptr) : M Z :=
  s <- deref _q;
  (* type cast input as floating point array *)
  let x := _x in
  (* double effective length *)
  let n := u32 (2 * s_n s) in
  let sum := _mm512_setzero_ps in
  (* t = 16*(floor(_n/16)) *)
  let t := u32 (Z.shiftl (Z.shiftr n 4) 4) in
  '(i, sum) <- for_loop 0 t 16
                 (fun i sum =>
                    (* load inputs into register (unaligned) *)
                    v <- _mm512_loadu_ps x i;
                    (* load coefficients into register (aligned) *)
                    h <- _mm512_load_ps (s_h s) i;
                    (* compute multiplication *)
                    let s := _mm512_mul_ps v h in
                    (* accumulate *)
                    ret (_mm512_add_ps sum s))
                 sum;
  (* fold down I/Q components into single value *)
  let w0 := _mm512_mask_reduce_add_ps 0x5555 sum in
  let w1 := _mm512_mask_reduce_add_ps 0xAAAA sum in
  (* cleanup (note: n _must_ be even) *)
  '(_, (w0, w1)) <- for_loop i n 2
                      (fun i '(w0, w1) =>
                         x0 <- load x i;
                         h0 <- load (s_h s) i;
                         x1 <- load x (u32 (i + 1));
                         h1 <- load (s_h s) (u32 (i + 1));
                         ret (fadd w0 (fmul x0 h0), fadd w1 (fmul x1 h1)))
                      (w0, w1);
  (* set return value *)
  _ <- store_complex _y (w0, w1);
  ret LIQUID_OK.

(** use AVX512-F extensions, four loads per iteration *)
Definition dotprod_crcf_execute_avx512f4 (_q _x _y : ptr) : M Z :=
  s <- deref _q;
  let x := _x in
  (* double effective length *)
  let n := u32 (2 * s_n s) in
  (* load zeros into sum registers *)
  let sum := _mm512_setzero_ps in
  (* r = 16*floor(n/64) *)
  let r := u32 (Z.shiftl (Z.shiftr n 6) 4) in
  '(_, sum) <- for_loop 0 r 16
                 (fun i sum =>
                    (* load inputs into register (unaligned) *)
                    v0 <- _mm512_loadu_ps x (u32 (4 * i + 0));
                    v1 <- _mm512_loadu_ps x (u32 (4 * i + 16));
                    v2 <- _mm512_loadu_ps x (u32 (4 * i + 32));
                    v3 <- _mm512_loadu_ps x (u32 (4 * i + 48));
                    (* load coefficients into register (aligned) *)
                    h0 <- _mm512_load_ps (s_h s) (u32 (4 * i + 0));
                    h1 <- _mm512_load_ps (s_h s) (u32 (4 * i + 16));
                    h2 <- _mm512_load_ps (s_h s) (u32 (4 * i + 32));
                    h3 <- _mm512_load_ps (s_h s) (u32 (4 * i + 48));
                    (* compute multiplication *)
                    let s0 := _mm512_mul_ps v0 h0 in
                    let s1 := _mm512_mul_ps v1 h1 in
                    let s2 := _mm512_mul_ps v2 h2 in
                    let s3 := _mm512_mul_ps v3 h3 in
                    (* parallel addition *)
                    let sum := _mm512_add_ps sum s0 in
                    let sum := _mm512_add_ps sum s1 in
                    let sum := _mm512_add_ps sum s2 in
                    let sum := _mm512_add_ps sum s3 in
                    ret sum)
                 sum;
  (* fold down I/Q components into single value *)
  let w0 := _mm512_mask_reduce_add_ps 0x5555 sum in
  let w1 := _mm512_mask_reduce_add_ps 0xAAAA sum in
  (* cleanup (note: n _must_ be even) *)
  '(_, (w0, w1)) <- for_loop (u32 (4 * r)) n 2
                      (fun i '(w0, w1) =>
                         x0 <- load x i;
                         h0 <- load (s_h s) i;
                         x1 <- load x (u32 (i + 1));
                         h1 <- load (s_h s) (u32 (i + 1));
                         ret (fadd w0 (fmul x0 h0), fadd w1 (fmul x1 h1)))
                      (w0, w1);
  (* set return value *)
  _ <- store_complex _y (w0, w1);
  ret LIQUID_OK.

(** The entry point: switch based on size. *)
Definition dotprod_crcf_execute (_q _x _y : ptr) : M Z :=
  s <- deref _q;
  if s_n s <? 128
  then dotprod_crcf_execute_avx512f _q _x _y
  else dotprod_crcf_execute_avx512f4 _q _x _y.

End Model.

Arguments M F A : clear implicits.

(** ** Specification-level definitions *)

Section Summaries.
Context {F : Type} `{FloatOps F}.

Notation "x <- m ; k" := (bind m (fun x => k))
  (at level 20, m at level 100, k at level 200, only parsing).

(** [k] iterations of a loop body, the counter going up by [step] without
    test and without wrap-around; [for_loop] is compared with it. *)
Fixpoint iterate {A} (k : nat) (step : Z) (body : Z -> A -> M F A)
    (i : Z) (a : A) : M F (Z * A) :=
  match k with
  | O => ret (i, a)
  | S k' => a' <- body i a; iterate k' step body (i + step) a'
  end.

(** The layout of the coefficient buffer: every coefficient twice. *)
Fixpoint dup (hs : list F) : list F :=
  match hs with
  | [] => []
  | c :: hs' => c :: c :: dup hs'
  end.

(** The coefficients in the order in which creation stores them. *)
Definition coeff_order (rev : Z) (hs : list F) : list F :=
  if rev =? 0 then hs else reverse hs.

(** Sample [i] of an array of interleaved (real, imaginary) pairs. *)
Definition sample (xs : list F) (i : nat) : liquid_float_complex :=
  (nth (2 * i) xs f0, nth (2 * i + 1) xs f0).

(** The dot product in the words of the specification: the sum over
    [i = 0 .. n-1] of [h[i] * x[i]], accumulated sequentially in index
    order, starting from [0 + 0i]. *)
Definition dot_seq (hs xs : list F) : liquid_float_complex :=
  fold_left (fun r i => cadd r (rcmul (nth i hs f0) (sample xs i)))
            (seq 0 (length hs)) (f0, f0).

(** The state in which the complex cell at the start of block [y] holds
    [r], everything else being as in [st]. *)
Definition with_result (y : positive) (r : liquid_float_complex)
    (st : state F) : state F :=
  match heap st !! y with
  | Some (BFloats al ys) =>
      set_heap (<[y := BFloats al (<[1%nat := snd r]> (<[0%nat := fst r]> ys))]>
                  (heap st)) st
  | _ => st
  end.

(** What the blocked loop of a kernel leaves in the accumulator after [k]
    blocks of sixteen lanes. *)
Fixpoint vec_acc (k : nat) (xs hs : list F) (sum : __m512) : __m512 :=
  match k with
  | O => sum
  | S k' =>
      vec_acc k' (drop 16 xs) (drop 16 hs)
        (_mm512_add_ps sum (_mm512_mul_ps (take 16 xs) (take 16 hs)))
  end.

(** What the cleanup loop of a kernel adds to the two running sums. *)
Fixpoint pair_acc (xs hs : list F) (w : F * F) : F * F :=
  match xs, hs with
  | x0 :: x1 :: xs', h0 :: h1 :: hs' =>
      pair_acc xs' hs' (fadd (fst w) (fmul x0 h0), fadd (snd w) (fmul x1 h1))
  | _, _ => w
  end.

(** A kernel that handles [k] blocks in the vector loop and the rest in the
    cleanup loop. *)
Definition kernel_fun (k : nat) (hs xs : list F) : liquid_float_complex :=
  let sum := vec_acc k xs hs _mm512_setzero_ps in
  pair_acc (drop (16 * k) xs) (drop (16 * k) hs)
    (_mm512_mask_reduce_add_ps 0x5555 sum,
     _mm512_mask_reduce_add_ps 0xAAAA sum).

(** Sum of a list, and the sums of its elements at even and at odd
    positions. *)
Definition sum_list (l : list F) : F := foldr fadd f0 l.

Fixpoint alt_sum (l : list F) : F * F :=
  match l with
  | a :: b :: l' => (fadd a (fst (alt_sum l')), fadd b (snd (alt_sum l')))
  | _ => (f0, f0)
  end.

(** A well-formed object at [q]: its record holds [n] and points to the
    64-byte aligned buffer [hb] of [2n] floats, [2n] being an
    [unsigned int]. *)
Definition dotprod_at (st : state F) (q : positive) (n : Z) (hb : positive)
    (buf : list F) : Prop :=
  heap st !! q = Some (BObj {| s_n := n; s_h := Some hb |}) /\
  heap st !! hb = Some (BFloats 64 buf) /\
  Z.of_nat (length buf) = 2 * n /\
  2 * n < 2 ^ 32.

(** An array of floats at [p]. *)
Definition floats_in (st : state F) (p : positive) (data : list F) : Prop :=
  exists al, heap st !! p = Some (BFloats al data).

(** Room for one complex value at [y]. *)
Definition cell_at (st : state F) (y : positive) : Prop :=
  exists al ys, heap st !! y = Some (BFloats al ys) /\ (2 <= length ys)%nat.

(** A failed operation in the sense of the specification: no object is
    returned and an error has been reported. *)
Definition reports_error (st : state F) (r : result (state F) ptr) : Prop :=
  exists st', r = Ok NULL st' /\ errlog st' <> errlog st.

(** The operations of the interface, and what calling one does. *)
Inductive api_call :=
| CallRun (_h _x : ptr) (_n : Z) (_y : ptr)
| CallRun4 (_h _x : ptr) (_n : Z) (_y : ptr)
| CallCreate (_h : ptr) (_n : Z)
| CallCreateRev (_h : ptr) (_n : Z)
| CallRecreate (_q _h : ptr) (_n : Z)
| CallRecreateRev (_q _h : ptr) (_n : Z)
| CallCopy (_q : ptr)
| CallDestroy (_q : ptr)
| CallPrint (_q : ptr)
| CallExecute (_q _x _y : ptr).

Definition perform (c : api_call) : M F unit :=
  match c with
  | CallRun _h _x _n _y => _ <- dotprod_crcf_run _h _x _n _y; ret tt
  | CallRun4 _h _x _n _y => _ <- dotprod_crcf_run4 _h _x _n _y; ret tt
  | CallCreate _h _n => _ <- dotprod_crcf_create _h _n; ret tt
  | CallCreateRev _h _n => _ <- dotprod_crcf_create_rev _h _n; ret tt
  | CallRecreate _q _h _n => _ <- dotprod_crcf_recreate _q _h _n; ret tt
  | CallRecreateRev _q _h _n => _ <- dotprod_crcf_recreate_rev _q _h _n; ret tt
  | CallCopy _q => _ <- dotprod_crcf_copy _q; ret tt
  | CallDestroy _q => _ <- dotprod_crcf_destroy _q; ret tt
  | CallPrint _q => _ <- dotprod_crcf_print _q; ret tt
  | CallExecute _q _x _y => _ <- dotprod_crcf_execute _q _x _y; ret tt
  end.

(** Destroy and the two recreate operations. *)
Definition destroys (c : api_call) : bool :=
  match c with
  | CallDestroy _ | CallRecreate _ _ _ | CallRecreateRev _ _ _ => true
  | _ => false
  end.

(** The place where a call stores its result, when it has one. *)
Definition output_of (c : api_call) : ptr :=
  match c with
  | CallRun _ _ _ _y | CallRun4 _ _ _ _y | CallExecute _ _ _y => _y
  | _ => NULL
  end.

End Summaries.

(** ** Loop bodies and other pieces of the functions, named

    The statements below refer to the loop bodies of the C functions; each
    is the body that appears in the function, under a name. *)

Section Pieces.
Context {F : Type} `{FloatOps F}.

(** The body of the loop of [dotprod_crcf_run]. *)
Definition run_body (_h _x : ptr)
  : Z -> liquid_float_complex -> M F liquid_float_complex :=
  fun i r =>
    bind (load _h i) (fun hi =>
    bind (load_complex _x i) (fun xi =>
    ret (cadd r (rcmul hi xi)))).

(** The body of the loop of [dotprod_crcf_run_msc]. *)
Definition run_msc_body (_h _x : ptr)
  : Z -> liquid_float_complex -> M F liquid_float_complex :=
  fun i (_ : F * F) =>
    bind (load_complex _x i) (fun xi =>
    bind (load _h i) (fun hi =>
    ret (_FCmulcr xi hi))).

(** The body of the unrolled loop of [dotprod_crcf_run4]. *)
Definition run4_body (_h _x : ptr)
  : Z -> liquid_float_complex -> M F liquid_float_complex :=
  fun i r =>
    bind (load _h i) (fun h0 =>
    bind (load_complex _x i) (fun x0 =>
    let r := cadd r (rcmul h0 x0) in
    bind (load _h (u32 (i + 1))) (fun h1 =>
    bind (load_complex _x (u32 (i + 1))) (fun x1 =>
    let r := cadd r (rcmul h1 x1) in
    bind (load _h (u32 (i + 2))) (fun h2 =>
    bind (load_complex _x (u32 (i + 2))) (fun x2 =>
    let r := cadd r (rcmul h2 x2) in
    bind (load _h (u32 (i + 3))) (fun h3 =>
    bind (load_complex _x (u32 (i + 3))) (fun x3 =>
    ret (cadd r (rcmul h3 x3)))))))))).

(** The end of every routine: [*_y = r; return LIQUID_OK;]. *)
Definition finish (_y : ptr) (r : liquid_float_complex) : M F Z :=
  bind (store_complex _y r) (fun _ => ret LIQUID_OK).

(** The body of the blocked loop of [dotprod_crcf_execute_avx512f]. *)
Definition avx_body (x hp : ptr) : Z -> __m512 -> M F __m512 :=
  fun i sum =>
    bind (_mm512_loadu_ps x i) (fun v =>
    bind (_mm512_load_ps hp i) (fun h =>
    let s := _mm512_mul_ps v h in
    ret (_mm512_add_ps sum s))).

(** The body of the blocked loop of [dotprod_crcf_execute_avx512f4]. *)
Definition avx4_body (x hp : ptr) : Z -> __m512 -> M F __m512 :=
  fun i sum =>
    bind (_mm512_loadu_ps x (u32 (4 * i + 0))) (fun v0 =>
    bind (_mm512_loadu_ps x (u32 (4 * i + 16))) (fun v1 =>
    bind (_mm512_loadu_ps x (u32 (4 * i + 32))) (fun v2 =>
    bind (_mm512_loadu_ps x (u32 (4 * i + 48))) (fun v3 =>
    bind (_mm512_load_ps hp (u32 (4 * i + 0))) (fun h0 =>
    bind (_mm512_load_ps hp (u32 (4 * i + 16))) (fun h1 =>
    bind (_mm512_load_ps hp (u32 (4 * i + 32))) (fun h2 =>
    bind (_mm512_load_ps hp (u32 (4 * i + 48))) (fun h3 =>
    let s0 := _mm512_mul_ps v0 h0 in
    let s1 := _mm512_mul_ps v1 h1 in
    let s2 := _mm512_mul_ps v2 h2 in
    let s3 := _mm512_mul_ps v3 h3 in
    let sum := _mm512_add_ps sum s0 in
    let sum := _mm512_add_ps sum s1 in
    let sum := _mm512_add_ps sum s2 in
    let sum := _mm512_add_ps sum s3 in
    ret sum)))))))).

(** The body of the cleanup loop of both kernels. *)
Definition cleanup_body (x hp : ptr) : Z -> F * F -> M F (F * F) :=
  fun i '(w0, w1) =>
    bind (load x i) (fun x0 =>
    bind (load hp i) (fun h0 =>
    bind (load x (u32 (i + 1))) (fun x1 =>
    bind (load hp (u32 (i + 1))) (fun h1 =>
    ret (fadd w0 (fmul x0 h0), fadd w1 (fmul x1 h1)))))).

(** The two masked reductions that follow the blocked loop. *)
Definition reduce_pair (sum : __m512) : F * F :=
  (_mm512_mask_reduce_add_ps 0x5555 sum, _mm512_mask_reduce_add_ps 0xAAAA sum).

(** The body of the loop of [dotprod_crcf_create_opt]. *)
Definition create_body (_h hp : ptr) (n _rev : Z) : Z -> unit -> M F unit :=
  fun i _ =>
    let k := if _rev =? 0 then i else u32 (u32 (n - i) - 1) in
    bind (load _h k) (fun v =>
    bind (store hp (u32 (2 * i + 0)) v) (fun _ =>
    store hp (u32 (2 * i + 1)) v)).

(** One step of [dot_seq]. *)
Definition dot_step (hs xs : list F) (r : liquid_float_complex) (i : nat)
  : liquid_float_complex :=
  cadd r (rcmul (nth i hs f0) (sample xs i)).

(** The number of sixteen-lane blocks that the kernel chosen by
    [dotprod_crcf_execute] handles in its vector loop. *)
Definition blocks_of (n : Z) : nat :=
  if n <? 128 then Z.to_nat (2 * n / 16) else (4 * Z.to_nat (2 * n / 64))%nat.

(** The blocks that the next two served allocations return, and the state
    after an object with [n] coefficients and buffer contents [buf] has
    been built in them. *)
Definition new_obj (st : state F) : positive := fresh (dom (heap st)).

Definition new_buf (st : state F) : positive :=
  fresh ({[new_obj st]} ∪ dom (heap st)).

Definition created (st : state F) (n : Z) (buf : list F) (o : list bool)
  : state F :=
  {| heap := <[new_buf st := BFloats 64 buf]>
               (<[new_obj st := BObj {| s_n := n; s_h := Some (new_buf st) |}]>
                  (heap st));
     oracle := o; errlog := errlog st; console := console st |}.

(** [keeps y st0 st]: every block of [st0] is still there with the same
    contents in [st], except possibly the array at [y]; and no error has
    been reported since [st0]. *)
Definition keeps (y : ptr) (st0 st : state F) : Prop :=
  (forall b blk, heap st0 !! b = Some blk ->
                 (Some b <> y \/ exists s, blk = BObj s) ->
                 heap st !! b = Some blk) /\
  errlog st = errlog st0.

(** A partial-correctness triple with [keeps y st0] as the invariant. *)
Definition triple {A} (y : ptr) (st0 : state F) (m : M F A) (Q : A -> Prop)
  : Prop :=
  forall st a st', keeps y st0 st -> m st = Ok a st' -> keeps y st0 st' /\ Q a.

(** Writes to an array are allowed at [y], and at blocks that were not live
    in [st0]. *)
Definition writable (y : ptr) (st0 : state F) (p : ptr) : Prop :=
  p = y \/ match p with Some b => heap st0 !! b = None | None => True end.

(** A sequence of calls, one after the other. *)
Fixpoint perform_all (cs : list api_call) : M F unit :=
  match cs with
  | [] => ret tt
  | c :: cs' => bind (perform c) (fun _ => perform_all cs')
  end.

(** The layout of the buffer [buf] of an object made from the
    coefficients [hs], in the words of the specification:
    [buf[2k] = buf[2k+1] = hs[k']] with [k' = k], or [k' = n-1-k] when the
    object is made in reverse. *)
Definition layout (reversed : bool) (hs buf : list F) : Prop :=
  forall k, (k < length hs)%nat ->
    let k' := if reversed then (length hs - 1 - k)%nat else k in
    buf !! (2 * k)%nat = hs !! k' /\ buf !! (2 * k + 1)%nat = hs !! k'.

(** The object at [q] stays what it is through every sequence of calls that
    are neither destroy nor recreate and that do not store their result
    into its buffer. *)
Definition stable (st : state F) (q : positive) (n : Z) (hb : positive)
    (buf : list F) : Prop :=
  forall cs u st',
    Forall (fun c => destroys c = false /\ output_of c <> Some hb) cs ->
    perform_all cs st = Ok u st' ->
    dotprod_at st' q n hb buf.

(** The body of the loop of [dotprod_crcf_print]. *)
Definition print_body (hp : ptr) : Z -> unit -> M F unit :=
  fun i _ => bind (load hp (u32 (2 * i))) (fun v => printf (OutCoeff i v)).


(** The state after the lines [ls] have been printed. *)
Definition printed (ls : list (out_line F)) (st : state F) : state F :=
  {| heap := heap st; oracle := oracle st; errlog := errlog st;
     console := console st ++ ls |}.

(** The state after the object at [q], with buffer [hb], has been
    destroyed. *)
Definition destroyed (q hb : positive) (st : state F) : state F :=
  set_heap (delete q (delete hb (heap st))) st.

End Pieces.

(** ** Concrete inputs

    The scenario of the specification: coefficients [1, 2, 3] and samples
    [(1,0), (0,1), (1,1)], over the rationals. *)

Definition qc (z : Z) : Qc := Q2Qc (QArith_base.inject_Z z).

Definition ex_h : list Qc := [qc 1; qc 2; qc 3].

Definition ex_x : list Qc := [qc 1; qc 0; qc 0; qc 1; qc 1; qc 1].

(** Block 1 holds the coefficients, block 2 the samples, block 3 is the
    cell for the result and block 4 holds the coefficients reversed. *)
Definition ex_heap : gmap positive (block Qc) :=
  <[1%positive := BFloats 4 ex_h]>
    (<[2%positive := BFloats 4 ex_x]>
       (<[3%positive := BFloats 4 [qc 0; qc 0]]>
          (<[4%positive := BFloats 4 (reverse ex_h)]> ∅))).

Definition ex_state (o : list bool) : state Qc :=
  {| heap := ex_heap; oracle := o; errlog := []; console := [] |}.

(** The same with an object for the coefficients at block 5, its buffer
    being block 6. *)
Definition ex_obj_state : state Qc :=
  {| heap := <[6%positive := BFloats 64 (dup ex_h)]>
               (<[5%positive := BObj {| s_n := 3; s_h := Some 6%positive |}]>
                  ex_heap);
     oracle := [true; true]; errlog := []; console := [] |}.

(** An object without coefficients, whose buffer pointer is null. *)
Definition ex_empty_state : state Qc :=
  {| heap := <[5%positive := BObj {| s_n := 0; s_h := NULL |}]> ex_heap;
     oracle := []; errlog := []; console := [] |}.

(** The second scenario of the specification: coefficients [1/2, 1/2] in
    block 1, samples [(2,0), (4,0)] in block 2, the result cell in
    block 3. *)
Definition half : Qc := Q2Qc (QArith_base.Qmake 1 2).

Definition ex_sym_state : state Qc :=
  {| heap := <[1%positive := BFloats 4 [half; half]]>
               (<[2%positive := BFloats 4 [qc 2; qc 0; qc 4; qc 0]]>
                  (<[3%positive := BFloats 4 [qc 0; qc 0]]> ∅));
     oracle := [true; true]; errlog := []; console := [] |}.

(** Longer inputs, which take the kernels through their blocked loops:
    coefficients [1, 2, ..., n] and samples [(0,1), (1,2), ...], laid out
    as in [ex_obj_state]. *)
Definition ramp_h (n : nat) : list Qc :=
  map (fun i => qc (Z.of_nat i + 1)) (seq 0 n).

Definition ramp_x (n : nat) : list Qc :=
  flat_map (fun i => [qc (Z.of_nat i); qc (Z.of_nat i + 1)]) (seq 0 n).

Definition ramp_state (n : nat) : state Qc :=
  {| heap := <[6%positive := BFloats 64 (dup (ramp_h n))]>
               (<[5%positive := BObj {| s_n := Z.of_nat n;
                                        s_h := Some 6%positive |}]>
                  (<[1%positive := BFloats 4 (ramp_h n)]>
                     (<[2%positive := BFloats 4 (ramp_x n)]>
                        (<[3%positive := BFloats 4 [qc 0; qc 0]]> ∅))));
     oracle := []; errlog := []; console := [] |}.

(** A register of sixteen lanes holding [0, 1, ..., 15]. *)
Definition ex_lanes : list Qc := map (fun i => qc (Z.of_nat i)) (seq 0 16).

(** The three ways to the dot product agree at [n] on these inputs. *)
Definition ramp_agree (n : nat) : Prop :=
  let st := ramp_state n in
  let reference :=
    dotprod_crcf_run (Some 1%positive) (Some 2%positive) (Z.of_nat n)
      (Some 3%positive) st in
  reference
  = Ok LIQUID_OK (with_result 3%positive (dot_seq (ramp_h n) (ramp_x n)) st) /\
  dotprod_crcf_run4 (Some 1%positive) (Some 2%positive) (Z.of_nat n)
    (Some 3%positive) st = reference /\
  dotprod_crcf_execute_avx512f (Some 5%positive) (Some 2%positive)
    (Some 3%positive) st = reference /\
  dotprod_crcf_execute_avx512f4 (Some 5%positive) (Some 2%positive)
    (Some 3%positive) st = reference /\
  dotprod_crcf_execute (Some 5%positive) (Some 2%positive)
    (Some 3%positive) st = reference.

(** * Proofs *)

Section Loops.
Context {F : Type} `{FloatOps F}.
Implicit Types (st : state F).

Lemma u32_small z : 0 <= z < 2 ^ 32 -> u32 z = z.
Proof. intros. unfold u32. apply Z.mod_small. lia. Qed.

Lemma trip_count_exact lo step k :
  0 < step -> trip_count lo (lo + Z.of_nat k * step) step = k.
Proof.
  intros Hs. unfold trip_count.
  replace (lo + Z.of_nat k * step - lo + step - 1)
    with (Z.of_nat k * step + (step - 1)) by lia.
  rewrite Z.div_add_l by lia.
  rewrite (Z.div_small (step - 1) step) by lia. lia.
Qed.

Lemma for_iter_iterate {A} (body : Z -> A -> M F A) step k :
  forall lo a st,
    0 < step -> 0 <= lo -> lo + Z.of_nat k * step < 2 ^ 32 ->
    for_iter k (lo + Z.of_nat k * step) step body lo a st
    = iterate k step body lo a st.
Proof.
  induction k as [|k IH]; intros lo a st Hs Hlo Hhi; simpl for_iter.
  - rewrite (proj2 (Z.ltb_ge _ _)) by lia. reflexivity.
  - rewrite (proj2 (Z.ltb_lt _ _)) by lia.
    simpl iterate. unfold bind. destruct (body lo a st) as [a' st'|]; [|reflexivity].
    rewrite u32_small by lia.
    replace (lo + Z.of_nat (S k) * step) with (lo + step + Z.of_nat k * step) by lia.
    apply IH; lia.
Qed.

Lemma for_loop_iterate {A} (body : Z -> A -> M F A) lo hi step k a st :
  0 < step -> 0 <= lo -> hi = lo + Z.of_nat k * step -> hi < 2 ^ 32 ->
  for_loop lo hi step body a st = iterate k step body lo a st.
Proof.
  intros Hs Hlo -> Hhi. unfold for_loop.
  rewrite trip_count_exact by assumption.
  apply for_iter_iterate; assumption.
Qed.

Lemma iterate_add {A} (body : Z -> A -> M F A) step k1 k2 :
  forall i a st,
    iterate (k1 + k2) step body i a st
    = match iterate k1 step body i a st with
      | Ok (i', a') st' => iterate k2 step body i' a' st'
      | Fault => Fault
      end.
Proof.
  induction k1 as [|k1 IH]; intros i a st; simpl.
  - reflexivity.
  - unfold bind. destruct (body i a st) as [a' st'|]; [apply IH|reflexivity].
Qed.

Lemma iterate_counter {A} (body : Z -> A -> M F A) step k :
  forall i a st i' a' st',
    iterate k step body i a st = Ok (i', a') st' ->
    i' = i + Z.of_nat k * step.
Proof.
  induction k as [|k IH]; intros i a st i' a' st'; simpl.
  - unfold ret. intros [= <- _ _]. lia.
  - unfold bind. destruct (body i a st) as [a1 st1|]; [|discriminate].
    intros Hk. apply IH in Hk. lia.
Qed.

(** An invariant of the state that every iteration keeps is kept by the
    loop. *)
Lemma for_iter_invariant {A} (I : state F -> Prop) (body : Z -> A -> M F A)
    hi step fuel :
  (forall i a st a' st', I st -> body i a st = Ok a' st' -> I st') ->
  forall i a st r st',
    I st -> for_iter fuel hi step body i a st = Ok r st' -> I st'.
Proof.
  intros Hbody. induction fuel as [|fuel IH]; intros i a st r st' HI; simpl.
  - destruct (i <? hi); [discriminate|]. unfold ret. intros [= _ <-]. exact HI.
  - destruct (i <? hi).
    + unfold bind. destruct (body i a st) as [a1 st1|] eqn:Hb; [|discriminate].
      apply IH. eapply Hbody; eassumption.
    + unfold ret. intros [= _ <-]. exact HI.
Qed.

End Loops.


Section Memory.
Context {F : Type} `{FloatOps F}.
Implicit Types (st : state F).

Lemma lookup_nth_lt {A} (l : list A) i d :
  (i < length l)%nat -> l !! i = Some (nth i l d).
Proof. intros Hi. destruct (nth_lookup_or_length l i d); [assumption|lia]. Qed.

Lemma index_nth {A} (l : list A) z d :
  0 <= z < Z.of_nat (length l) -> index l z = Some (nth (Z.to_nat z) l d).
Proof.
  intros Hz. unfold index. rewrite (proj2 (Z.leb_le _ _)) by lia.
  apply lookup_nth_lt. lia.
Qed.

Lemma load_in_range st b al data z :
  heap st !! b = Some (BFloats al data) ->
  0 <= z < Z.of_nat (length data) ->
  load (Some b) z st = Ok (nth (Z.to_nat z) data f0) st.
Proof.
  intros Hb Hz. unfold load, floats_at. rewrite Hb.
  rewrite (index_nth _ _ f0) by assumption. reflexivity.
Qed.

Lemma load_complex_in_range st b al data i :
  heap st !! b = Some (BFloats al data) ->
  (2 * i + 1 < length data)%nat ->
  load_complex (Some b) (Z.of_nat i) st = Ok (sample data i) st.
Proof.
  intros Hb Hi. unfold load_complex, bind.
  rewrite (load_in_range st b al data) by (assumption || lia).
  rewrite (load_in_range st b al data) by (assumption || lia).
  unfold ret, sample. do 3 f_equal; f_equal; lia.
Qed.

Lemma store_complex_cell st y r :
  cell_at st y ->
  store_complex (Some y) r st = Ok tt (with_result y r st).
Proof.
  intros (al & ys & Hy & Hlen). unfold store_complex, bind, store, floats_at, with_result.
  rewrite Hy. destruct ys as [|y0 [|y1 ys]]; simpl in Hlen; try lia.
  simpl. rewrite lookup_insert_eq. simpl.
  unfold set_heap; simpl. rewrite insert_insert_eq. reflexivity.
Qed.

Lemma heap_with_result_ne st y r b :
  b <> y -> heap (with_result y r st) !! b = heap st !! b.
Proof.
  intros Hne. unfold with_result.
  destruct (heap st !! y) as [[al ys|s]|]; try reflexivity.
  simpl. apply lookup_insert_ne. congruence.
Qed.

Lemma with_result_fields st y r :
  oracle (with_result y r st) = oracle st /\
  errlog (with_result y r st) = errlog st /\
  console (with_result y r st) = console st.
Proof.
  unfold with_result. destruct (heap st !! y) as [[al ys|s]|]; auto.
Qed.

End Memory.

Section Scalar.
Context {F : Type} `{FloatOps F}.
Implicit Types (st : state F).

Lemma run_loop st bh bx alh alx hs xs :
  heap st !! bh = Some (BFloats alh hs) ->
  heap st !! bx = Some (BFloats alx xs) ->
  length xs = (2 * length hs)%nat ->
  forall k i r,
    (i + k <= length hs)%nat ->
    iterate k 1 (run_body (Some bh) (Some bx)) (Z.of_nat i) r st
    = Ok (Z.of_nat (i + k),
          fold_left (fun r i => cadd r (rcmul (nth i hs f0) (sample xs i)))
                    (seq i k) r) st.
Proof.
  intros Hh Hx Hlen. induction k as [|k IH]; intros i r Hik; simpl.
  - unfold ret. do 3 f_equal. lia.
  - unfold bind at 1. unfold run_body at 1. unfold bind.
    rewrite (load_in_range st bh alh hs) by (assumption || lia).
    rewrite (load_complex_in_range st bx alx xs) by (assumption || lia).
    unfold ret. rewrite Nat2Z.id.
    replace (Z.of_nat i + 1) with (Z.of_nat (S i)) by lia.
    rewrite IH by lia. do 3 f_equal. lia.
Qed.

Theorem run_value st bh bx y n hs xs :
  floats_in st bh hs -> floats_in st bx xs -> cell_at st y ->
  Z.of_nat (length hs) = n -> length xs = (2 * length hs)%nat ->
  n < 2 ^ 32 ->
  dotprod_crcf_run (Some bh) (Some bx) n (Some y) st
  = Ok LIQUID_OK (with_result y (dot_seq hs xs) st).
Proof.
  intros [alh Hh] [alx Hx] Hy Hn Hlen Hrange.
  unfold dotprod_crcf_run. unfold bind at 1.
  rewrite (for_loop_iterate _ 0 n 1 (length hs)) by lia.
  change (iterate (length hs) 1 ?b 0 ?a st) with
    (iterate (length hs) 1 (run_body (Some bh) (Some bx)) (Z.of_nat 0) a st).
  rewrite (run_loop st bh bx alh alx hs xs Hh Hx Hlen) by lia.
  unfold bind. rewrite store_complex_cell by assumption. reflexivity.
Qed.

End Scalar.


Section Unrolled.
Context {F : Type} `{FloatOps F}.
Implicit Types (st : state F).

Lemma load_state p i st v st' : load p i st = Ok v st' -> st' = st.
Proof.
  unfold load. destruct (floats_at st p) as [[al d]|]; [|discriminate].
  destruct (index d i); [|discriminate]. congruence.
Qed.

Lemma load_complex_state p i st v st' :
  load_complex p i st = Ok v st' -> st' = st.
Proof.
  unfold load_complex, bind, ret.
  destruct (load p (2 * i) st) as [a st1|] eqn:E1; [|discriminate].
  apply load_state in E1 as ->.
  destruct (load p (2 * i + 1) st) as [b st2|] eqn:E2; [|discriminate].
  apply load_state in E2 as ->. congruence.
Qed.

Ltac read_step :=
  match goal with
  | |- context [load_complex ?p ?i ?st] =>
      let E := fresh "E" in
      destruct (load_complex p i st) as [? ?|] eqn:E;
      [apply load_complex_state in E as ->|try reflexivity]
  | |- context [load ?p ?i ?st] =>
      let E := fresh "E" in
      destruct (load p i st) as [? ?|] eqn:E;
      [apply load_state in E as ->|try reflexivity]
  end.

Lemma run4_body_unrolled _h _x k :
  forall i r st,
    0 <= i -> i + 4 * Z.of_nat k < 2 ^ 32 ->
    iterate k 4 (run4_body _h _x) i r st
    = iterate (4 * k) 1 (run_body _h _x) i r st.
Proof.
  induction k as [|k IH]; intros i r st Hi Hk; [reflexivity|].
  replace (4 * S k)%nat with (S (S (S (S (4 * k))))) by lia.
  simpl iterate. unfold bind at 1. unfold run4_body at 1.
  rewrite !u32_small by lia.
  unfold run_body. unfold bind, ret.
  replace (i + 1 + 1) with (i + 2) by lia.
  replace (i + 2 + 1) with (i + 3) by lia.
  replace (i + 3 + 1) with (i + 4) by lia.
  repeat read_step.
  apply IH; lia.
Qed.

Lemma shift_floor4 n : 0 <= n < 2 ^ 32 ->
  u32 (Z.shiftl (Z.shiftr n 2) 2) = 4 * (n / 4).
Proof.
  intros Hn. rewrite Z.shiftr_div_pow2, Z.shiftl_mul_pow2 by lia.
  change (2 ^ 2) with 4.
  pose proof (Z.div_mod n 4 ltac:(lia)). pose proof (Z.mod_pos_bound n 4 ltac:(lia)).
  rewrite u32_small by lia. lia.
Qed.

Lemma run_unfold _h _x n _y st :
  dotprod_crcf_run _h _x n _y st
  = match for_loop 0 n 1 (run_body _h _x) (f0, f0) st with
    | Ok (_, r) st' => finish _y r st'
    | Fault => Fault
    end.
Proof.
  unfold dotprod_crcf_run. unfold bind at 1.
  change (for_loop 0 n 1 _ _ st)
    with (for_loop 0 n 1 (run_body _h _x) (f0, f0) st).
  destruct (for_loop 0 n 1 (run_body _h _x) (f0, f0) st) as [[i r] st'|];
    reflexivity.
Qed.

Lemma run4_unfold _h _x n _y st :
  dotprod_crcf_run4 _h _x n _y st
  = match for_loop 0 (u32 (Z.shiftl (Z.shiftr n 2) 2)) 4 (run4_body _h _x)
            (f0, f0) st with
    | Ok (i, r) st' =>
        match for_loop i n 1 (run_body _h _x) r st' with
        | Ok (_, r) st'' => finish _y r st''
        | Fault => Fault
        end
    | Fault => Fault
    end.
Proof.
  unfold dotprod_crcf_run4. unfold bind at 1.
  change (for_loop 0 ?t 4 _ _ st)
    with (for_loop 0 t 4 (run4_body _h _x) (f0, f0) st).
  destruct (for_loop 0 _ 4 (run4_body _h _x) (f0, f0) st) as [[i r] st'|];
    [|reflexivity].
  unfold bind at 1.
  change (for_loop i n 1 _ r st')
    with (for_loop i n 1 (run_body _h _x) r st').
  destruct (for_loop i n 1 (run_body _h _x) r st') as [[j r'] st''|];
    reflexivity.
Qed.

Theorem run4_run _h _x n _y st :
  0 <= n < 2 ^ 32 ->
  dotprod_crcf_run4 _h _x n _y st = dotprod_crcf_run _h _x n _y st.
Proof.
  intros Hn.
  pose proof (Z.div_mod n 4 ltac:(lia)) as Hdm.
  pose proof (Z.mod_pos_bound n 4 ltac:(lia)) as Hm.
  rewrite run4_unfold, run_unfold.
  rewrite shift_floor4 by assumption.
  rewrite (for_loop_iterate _ 0 (4 * (n / 4)) 4 (Z.to_nat (n / 4))) by lia.
  rewrite (for_loop_iterate _ 0 n 1 (4 * Z.to_nat (n / 4) + Z.to_nat (n mod 4))) by lia.
  rewrite run4_body_unrolled by lia.
  rewrite iterate_add.
  destruct (iterate (4 * Z.to_nat (n / 4)) 1 (run_body _h _x) 0 (f0, f0) st)
    as [[i r] st1|] eqn:E; [|reflexivity].
  apply iterate_counter in E. subst i.
  rewrite (for_loop_iterate _ _ n 1 (Z.to_nat (n mod 4))) by lia.
  reflexivity.
Qed.

End Unrolled.


Section Kernels.
Context {F : Type} `{FloatOps F}.
Implicit Types (st : state F).

Lemma loadu_in_range st b al data i :
  heap st !! b = Some (BFloats al data) ->
  (i + 16 <= length data)%nat ->
  _mm512_loadu_ps (Some b) (Z.of_nat i) st = Ok (take 16 (drop i data)) st.
Proof.
  intros Hb Hi. unfold _mm512_loadu_ps, floats_at. rewrite Hb.
  rewrite decide_True by lia. rewrite Nat2Z.id. reflexivity.
Qed.

Lemma load_ps_in_range st b data j :
  heap st !! b = Some (BFloats 64 data) ->
  (16 * j + 16 <= length data)%nat ->
  _mm512_load_ps (Some b) (Z.of_nat (16 * j)) st
  = Ok (take 16 (drop (16 * j) data)) st.
Proof.
  intros Hb Hi. unfold _mm512_load_ps, floats_at. rewrite Hb.
  rewrite decide_True.
  - rewrite Nat2Z.id. reflexivity.
  - repeat split; try lia. unfold sizeof_float.
    replace (4 * Z.of_nat (16 * j)) with (Z.of_nat j * 64) by lia.
    apply Z.mod_mul. lia.
Qed.

Lemma vec_acc_add k1 : forall k2 xs hs sum,
  vec_acc (k1 + k2) xs hs sum
  = vec_acc k2 (drop (16 * k1) xs) (drop (16 * k1) hs) (vec_acc k1 xs hs sum).
Proof.
  induction k1 as [|k1 IH]; intros k2 xs hs sum.
  - reflexivity.
  - cbn [vec_acc Nat.add]. rewrite IH. rewrite !drop_drop.
    replace (16 + 16 * k1)%nat with (16 * S k1)%nat by lia. reflexivity.
Qed.

Section Loops.
Variables (st : state F) (bx hb : positive) (alx : Z) (xs buf : list F).
Hypothesis Hx : heap st !! bx = Some (BFloats alx xs).
Hypothesis Hh : heap st !! hb = Some (BFloats 64 buf).
Hypothesis Hlen : length buf = length xs.

Lemma avx_loop k : forall j sum,
  (16 * (j + k) <= length xs)%nat ->
  iterate k 16 (avx_body (Some bx) (Some hb)) (Z.of_nat (16 * j)) sum st
  = Ok (Z.of_nat (16 * (j + k)),
        vec_acc k (drop (16 * j) xs) (drop (16 * j) buf) sum) st.
Proof.
  induction k as [|k IH]; intros j sum Hk; cbn [iterate].
  - unfold ret. do 3 f_equal. lia.
  - unfold bind at 1. unfold avx_body at 1. unfold bind.
    rewrite (loadu_in_range st bx alx xs) by (assumption || lia).
    rewrite (load_ps_in_range st hb buf) by (assumption || lia).
    unfold ret.
    replace (Z.of_nat (16 * j) + 16) with (Z.of_nat (16 * S j)) by lia.
    rewrite IH by lia. cbn [vec_acc]. rewrite !drop_drop.
    replace (16 * j + 16)%nat with (16 * S j)%nat by lia.
    do 3 f_equal. lia.
Qed.

Lemma avx4_loop k : forall j sum,
  (64 * (j + k) <= length xs)%nat -> Z.of_nat (length xs) < 2 ^ 32 ->
  iterate k 16 (avx4_body (Some bx) (Some hb)) (Z.of_nat (16 * j)) sum st
  = Ok (Z.of_nat (16 * (j + k)),
        vec_acc (4 * k) (drop (64 * j) xs) (drop (64 * j) buf) sum) st.
Proof.
  induction k as [|k IH]; intros j sum Hk Hr; cbn [iterate].
  - unfold ret. do 3 f_equal. lia.
  - unfold bind at 1. unfold avx4_body at 1.
    rewrite !u32_small by lia.
    replace (4 * Z.of_nat (16 * j) + 0) with (Z.of_nat (16 * (4 * j))) by lia.
    replace (4 * Z.of_nat (16 * j) + 16) with (Z.of_nat (16 * (4 * j + 1))) by lia.
    replace (4 * Z.of_nat (16 * j) + 32) with (Z.of_nat (16 * (4 * j + 2))) by lia.
    replace (4 * Z.of_nat (16 * j) + 48) with (Z.of_nat (16 * (4 * j + 3))) by lia.
    unfold bind.
    rewrite !(loadu_in_range st bx alx xs) by (assumption || lia).
    rewrite !(load_ps_in_range st hb buf) by (assumption || lia).
    unfold ret.
    replace (Z.of_nat (16 * j) + 16) with (Z.of_nat (16 * S j)) by lia.
    rewrite IH by lia.
    replace (4 * S k)%nat with (4 + 4 * k)%nat by lia.
    rewrite vec_acc_add. cbn [vec_acc]. rewrite !drop_drop.
    replace (64 * j + 16 * 4)%nat with (64 * S j)%nat by lia.
    replace (64 * j + 16)%nat with (16 * (4 * j + 1))%nat by lia.
    replace (16 * (4 * j + 1) + 16)%nat with (16 * (4 * j + 2))%nat by lia.
    replace (16 * (4 * j + 2) + 16)%nat with (16 * (4 * j + 3))%nat by lia.
    replace (64 * j)%nat with (16 * (4 * j))%nat by lia.
    do 3 f_equal. lia.
Qed.

Lemma cleanup_loop m : forall i w,
  (i + 2 * m = length xs)%nat -> Z.of_nat (length xs) < 2 ^ 32 ->
  iterate m 2 (cleanup_body (Some bx) (Some hb)) (Z.of_nat i) w st
  = Ok (Z.of_nat (length xs), pair_acc (drop i xs) (drop i buf) w) st.
Proof.
  induction m as [|m IH]; intros i [w0 w1] Hm Hr; cbn [iterate].
  - unfold ret. rewrite !drop_ge by lia. simpl. do 3 f_equal. lia.
  - unfold bind at 1. unfold cleanup_body at 1.
    rewrite !u32_small by lia. unfold bind.
    rewrite (load_in_range st bx alx xs) by (assumption || lia).
    rewrite (load_in_range st hb 64 buf) by (assumption || lia).
    rewrite (load_in_range st bx alx xs) by (assumption || lia).
    rewrite (load_in_range st hb 64 buf) by (assumption || lia).
    unfold ret.
    replace (Z.of_nat i + 2) with (Z.of_nat (S (S i))) by lia.
    rewrite IH by lia.
    rewrite (drop_S xs (nth i xs f0) i) by (apply lookup_nth_lt; lia).
    rewrite (drop_S xs (nth (S i) xs f0) (S i)) by (apply lookup_nth_lt; lia).
    rewrite (drop_S buf (nth i buf f0) i) by (apply lookup_nth_lt; lia).
    rewrite (drop_S buf (nth (S i) buf f0) (S i)) by (apply lookup_nth_lt; lia).
    cbn [pair_acc]. rewrite Nat2Z.id.
    replace (Z.to_nat (Z.of_nat i + 1)) with (S i) by lia.
    reflexivity.
Qed.

End Loops.

End Kernels.


Section KernelFun.
Context {F : Type} `{FloatOps F}.
Implicit Types (st : state F).

Lemma deref_obj st q s :
  heap st !! q = Some (BObj s) -> deref (Some q) st = Ok s st.
Proof. intros Hq. unfold deref. rewrite Hq. reflexivity. Qed.

Lemma avx512f_unfold _q _x _y st :
  dotprod_crcf_execute_avx512f _q _x _y st
  = match deref _q st with
    | Ok s st1 =>
        let n := u32 (2 * s_n s) in
        match for_loop 0 (u32 (Z.shiftl (Z.shiftr n 4) 4)) 16
                (avx_body _x (s_h s)) _mm512_setzero_ps st1 with
        | Ok (i, sum) st2 =>
            match for_loop i n 2 (cleanup_body _x (s_h s)) (reduce_pair sum) st2 with
            | Ok (_, w) st3 => finish _y w st3
            | Fault => Fault
            end
        | Fault => Fault
        end
    | Fault => Fault
    end.
Proof.
  unfold dotprod_crcf_execute_avx512f. unfold bind at 1.
  destruct (deref _q st) as [s st1|]; [|reflexivity].
  cbv zeta. unfold bind at 1.
  change (for_loop 0 ?t 16 _ _ st1)
    with (for_loop 0 t 16 (avx_body _x (s_h s)) _mm512_setzero_ps st1).
  destruct (for_loop 0 _ 16 (avx_body _x (s_h s)) _mm512_setzero_ps st1)
    as [[i sum] st2|]; [|reflexivity].
  unfold bind at 1.
  change (for_loop i ?n 2 _ _ st2)
    with (for_loop i n 2 (cleanup_body _x (s_h s)) (reduce_pair sum) st2).
  destruct (for_loop i _ 2 (cleanup_body _x (s_h s)) (reduce_pair sum) st2)
    as [[j [w0 w1]] st3|]; reflexivity.
Qed.

Lemma avx512f4_unfold _q _x _y st :
  dotprod_crcf_execute_avx512f4 _q _x _y st
  = match deref _q st with
    | Ok s st1 =>
        let n := u32 (2 * s_n s) in
        let r := u32 (Z.shiftl (Z.shiftr n 6) 4) in
        match for_loop 0 r 16 (avx4_body _x (s_h s)) _mm512_setzero_ps st1 with
        | Ok (_, sum) st2 =>
            match for_loop (u32 (4 * r)) n 2 (cleanup_body _x (s_h s))
                    (reduce_pair sum) st2 with
            | Ok (_, w) st3 => finish _y w st3
            | Fault => Fault
            end
        | Fault => Fault
        end
    | Fault => Fault
    end.
Proof.
  unfold dotprod_crcf_execute_avx512f4. unfold bind at 1.
  destruct (deref _q st) as [s st1|]; [|reflexivity].
  cbv zeta. unfold bind at 1.
  change (for_loop 0 ?t 16 _ _ st1)
    with (for_loop 0 t 16 (avx4_body _x (s_h s)) _mm512_setzero_ps st1).
  destruct (for_loop 0 _ 16 (avx4_body _x (s_h s)) _mm512_setzero_ps st1)
    as [[i sum] st2|]; [|reflexivity].
  unfold bind at 1.
  change (for_loop ?i0 ?n 2 _ _ st2)
    with (for_loop i0 n 2 (cleanup_body _x (s_h s)) (reduce_pair sum) st2).
  destruct (for_loop _ _ 2 (cleanup_body _x (s_h s)) (reduce_pair sum) st2)
    as [[j [w0 w1]] st3|]; reflexivity.
Qed.

Lemma finish_cell st y r :
  cell_at st y -> finish (Some y) r st = Ok LIQUID_OK (with_result y r st).
Proof.
  intros Hy. unfold finish, bind. rewrite store_complex_cell by assumption.
  reflexivity.
Qed.

Lemma shift_floor n a b : 0 <= n -> 0 <= b <= a ->
  Z.shiftl (Z.shiftr n a) b = 2 ^ b * (n / 2 ^ a).
Proof.
  intros Hn Hab. rewrite Z.shiftr_div_pow2, Z.shiftl_mul_pow2 by lia. lia.
Qed.

Section Valid.
Variables (st : state F) (q hb bx y : positive) (n alx : Z) (buf xs : list F).
Hypothesis Hq : dotprod_at st q n hb buf.
Hypothesis Hx : heap st !! bx = Some (BFloats alx xs).
Hypothesis Hxlen : Z.of_nat (length xs) = 2 * n.
Hypothesis Hy : cell_at st y.

Lemma avx512f_fun :
  dotprod_crcf_execute_avx512f (Some q) (Some bx) (Some y) st
  = Ok LIQUID_OK
       (with_result y (kernel_fun (Z.to_nat (2 * n / 16)) buf xs) st).
Proof.
  destruct Hq as (Hobj & Hbuf & Hblen & Hrange).
  assert (Hn : 0 <= n) by lia.
  pose proof (Z.div_mod (2 * n) 16 ltac:(lia)) as Hdm.
  pose proof (Z.mod_pos_bound (2 * n) 16 ltac:(lia)) as Hm.
  assert (Hk : 0 <= 2 * n / 16) by (apply Z.div_pos; lia).
  rewrite avx512f_unfold, (deref_obj st q _ Hobj). cbn [s_n s_h]. cbv zeta.
  rewrite (u32_small (2 * n)) by lia.
  rewrite shift_floor by lia. change (2 ^ 4) with 16.
  rewrite (u32_small (16 * _)) by lia.
  rewrite (for_loop_iterate _ 0 _ 16 (Z.to_nat (2 * n / 16))) by lia.
  change 0 with (Z.of_nat (16 * 0)) at 1.
  rewrite (avx_loop st bx hb alx xs buf Hx Hbuf) by lia.
  rewrite (for_loop_iterate _ _ (2 * n) 2
             (Z.to_nat (n - 8 * (2 * n / 16)))) by lia.
  rewrite (cleanup_loop st bx hb alx xs buf Hx Hbuf) by lia.
  rewrite finish_cell by assumption.
  unfold kernel_fun, reduce_pair. rewrite !drop_0.
  replace (16 * (0 + Z.to_nat (2 * n / 16)))%nat
    with (16 * Z.to_nat (2 * n / 16))%nat by lia.
  reflexivity.
Qed.

Lemma avx512f4_fun :
  dotprod_crcf_execute_avx512f4 (Some q) (Some bx) (Some y) st
  = Ok LIQUID_OK
       (with_result y (kernel_fun (4 * Z.to_nat (2 * n / 64)) buf xs) st).
Proof.
  destruct Hq as (Hobj & Hbuf & Hblen & Hrange).
  assert (Hn : 0 <= n) by lia.
  pose proof (Z.div_mod (2 * n) 64 ltac:(lia)) as Hdm.
  pose proof (Z.mod_pos_bound (2 * n) 64 ltac:(lia)) as Hm.
  assert (Hk : 0 <= 2 * n / 64) by (apply Z.div_pos; lia).
  rewrite avx512f4_unfold, (deref_obj st q _ Hobj). cbn [s_n s_h]. cbv zeta.
  rewrite (u32_small (2 * n)) by lia.
  rewrite shift_floor by lia. change (2 ^ 4) with 16. change (2 ^ 6) with 64.
  rewrite (u32_small (16 * _)) by lia.
  rewrite (u32_small (4 * _)) by lia.
  rewrite (for_loop_iterate _ 0 _ 16 (Z.to_nat (2 * n / 64))) by lia.
  change 0 with (Z.of_nat (16 * 0)) at 1.
  rewrite (avx4_loop st bx hb alx xs buf Hx Hbuf) by lia.
  replace (4 * (16 * (2 * n / 64)))
    with (Z.of_nat (64 * Z.to_nat (2 * n / 64))) by lia.
  rewrite (for_loop_iterate _ _ (2 * n) 2
             (Z.to_nat (n - 32 * (2 * n / 64)))) by lia.
  rewrite (cleanup_loop st bx hb alx xs buf Hx Hbuf) by lia.
  rewrite finish_cell by assumption.
  unfold kernel_fun, reduce_pair. rewrite !drop_0.
  replace (16 * (4 * Z.to_nat (2 * n / 64)))%nat
    with (64 * Z.to_nat (2 * n / 64))%nat by lia.
  reflexivity.
Qed.

End Valid.
End KernelFun.


Section Algebra.
Context {F : Type} `{ExactArith F}.

Lemma fadd_0_r (a : F) : fadd a f0 = a.
Proof. rewrite fadd_comm. apply fadd_0_l. Qed.

Lemma fadd_swap (a b c d : F) :
  fadd (fadd a b) (fadd c d) = fadd (fadd a c) (fadd b d).
Proof.
  rewrite <- (fadd_assoc a b), (fadd_assoc b c d), (fadd_comm b c).
  rewrite <- (fadd_assoc c b d), (fadd_assoc a c). reflexivity.
Qed.

Lemma cadd_assoc (a b c : liquid_float_complex) :
  cadd a (cadd b c) = cadd (cadd a b) c.
Proof. unfold cadd; simpl. rewrite !fadd_assoc. reflexivity. Qed.

Lemma cadd_0_l (a : liquid_float_complex) : cadd (f0, f0) a = a.
Proof. destruct a. unfold cadd; simpl. rewrite !fadd_0_l. reflexivity. Qed.

Lemma cadd_0_r (a : liquid_float_complex) : cadd a (f0, f0) = a.
Proof. destruct a. unfold cadd; simpl. rewrite !fadd_0_r. reflexivity. Qed.

(** *** Sums of lists *)

Lemma sum_list_app (l1 l2 : list F) :
  sum_list (l1 ++ l2) = fadd (sum_list l1) (sum_list l2).
Proof.
  induction l1 as [|a l1 IH]; simpl.
  - symmetry. apply fadd_0_l.
  - unfold sum_list in *. simpl. rewrite IH. apply fadd_assoc.
Qed.

Lemma sum_list_zip_add (a : list F) : forall b,
  length a = length b ->
  sum_list (zip_with fadd a b) = fadd (sum_list a) (sum_list b).
Proof.
  induction a as [|x a IH]; intros [|y b] Hlen; simpl in Hlen; try lia.
  - symmetry. apply fadd_0_l.
  - unfold sum_list in *. simpl. rewrite IH by lia. apply fadd_swap.
Qed.

Lemma sum_list_reduce_step (l : list F) :
  Nat.even (length l) = true -> sum_list (reduce_step l) = sum_list l.
Proof.
  intros Hev. unfold reduce_step.
  apply Nat.even_spec in Hev as [m Hm].
  replace (length l / 2)%nat with m
    by (rewrite Hm, Nat.mul_comm, Nat.div_mul; lia).
  rewrite sum_list_zip_add by (rewrite length_take, length_drop; lia).
  rewrite <- sum_list_app, take_drop. reflexivity.
Qed.

Lemma length_reduce_step (l : list F) :
  Nat.even (length l) = true ->
  length (reduce_step l) = (length l / 2)%nat.
Proof.
  intros Hev. unfold reduce_step.
  apply Nat.even_spec in Hev as [m Hm].
  replace (length l / 2)%nat with m
    by (rewrite Hm, Nat.mul_comm, Nat.div_mul; lia).
  rewrite length_zip_with, length_take, length_drop. lia.
Qed.

Lemma reduce_add16_sum (l : list F) :
  length l = 16%nat -> reduce_add16 l = sum_list l.
Proof.
  intros Hlen. unfold reduce_add16.
  assert (H1 : length (reduce_step l) = 8%nat)
    by (rewrite length_reduce_step; rewrite Hlen; reflexivity).
  assert (H2 : length (reduce_step (reduce_step l)) = 4%nat)
    by (rewrite length_reduce_step; rewrite H1; reflexivity).
  assert (H3 : length (reduce_step (reduce_step (reduce_step l))) = 2%nat)
    by (rewrite length_reduce_step; rewrite H2; reflexivity).
  rewrite <- (sum_list_reduce_step l) by (rewrite Hlen; reflexivity).
  rewrite <- (sum_list_reduce_step (reduce_step l)) by (rewrite H1; reflexivity).
  rewrite <- (sum_list_reduce_step (reduce_step (reduce_step l)))
    by (rewrite H2; reflexivity).
  destruct (reduce_step (reduce_step (reduce_step l))) as [|a [|b [|c r]]];
    simpl in H3; try lia.
  unfold sum_list; simpl. rewrite fadd_0_r. reflexivity.
Qed.

Ltac explode16 l Hlen :=
  do 16 (destruct l as [|? l]; [simpl in Hlen; lia|]);
  destruct l; [|simpl in Hlen; lia]; clear Hlen.

Ltac eval_testbits :=
  repeat match goal with
         | |- context [Z.testbit ?k (Z.of_nat ?j)] =>
             let b := eval vm_compute in (Z.testbit k (Z.of_nat j)) in
             change (Z.testbit k (Z.of_nat j)) with b
         end;
  cbv iota.

Lemma reduce_pair_alt_sum (c : __m512) :
  length c = 16%nat -> reduce_pair c = alt_sum c.
Proof.
  intros Hlen. unfold reduce_pair, _mm512_mask_reduce_add_ps.
  rewrite !reduce_add16_sum by (unfold mask_lanes; rewrite length_imap; exact Hlen).
  explode16 c Hlen. unfold sum_list, mask_lanes. cbn.
  eval_testbits. rewrite !fadd_0_l. reflexivity.
Qed.

Lemma reduce_pair_add (a b : __m512) :
  length a = 16%nat -> length b = 16%nat ->
  reduce_pair (_mm512_add_ps a b) = cadd (reduce_pair a) (reduce_pair b).
Proof.
  intros Ha Hb. unfold reduce_pair, _mm512_mask_reduce_add_ps, _mm512_add_ps, cadd.
  cbn [fst snd].
  rewrite !reduce_add16_sum
    by (unfold mask_lanes; rewrite length_imap, ?length_zip_with; lia).
  rewrite <- !sum_list_zip_add
    by (unfold mask_lanes; rewrite !length_imap; lia).
  explode16 a Ha. explode16 b Hb. unfold mask_lanes. cbn.
  eval_testbits. rewrite !fadd_0_l. reflexivity.
Qed.

Lemma reduce_pair_zero : reduce_pair _mm512_setzero_ps = (f0, f0).
Proof.
  rewrite reduce_pair_alt_sum by reflexivity.
  cbn. rewrite !fadd_0_l. reflexivity.
Qed.

(** *** Sums over even and odd positions *)

Lemma pairs_ind {A} (P : list A -> Prop) :
  P [] -> (forall a, P [a]) -> (forall a b l, P l -> P (a :: b :: l)) ->
  forall l, P l.
Proof.
  intros Hnil Hone Hstep. fix IH 1.
  intros [|a [|b l]]; [exact Hnil|apply Hone|apply Hstep, IH].
Qed.

Lemma alt_sum_app (l1 l2 : list F) :
  Nat.even (length l1) = true ->
  alt_sum (l1 ++ l2) = cadd (alt_sum l1) (alt_sum l2).
Proof.
  induction l1 as [|a|a b l1 IH] using pairs_ind; intros Hev.
  - simpl. symmetry. apply cadd_0_l.
  - discriminate.
  - cbn [app alt_sum]. rewrite IH by exact Hev.
    unfold cadd; cbn [fst snd]. rewrite !fadd_assoc. reflexivity.
Qed.

Lemma pair_acc_alt_sum (xs : list F) : forall hs w,
  length hs = length xs ->
  pair_acc xs hs w = cadd w (alt_sum (zip_with fmul xs hs)).
Proof.
  induction xs as [|a|a b xs IH] using pairs_ind; intros hs w Hlen.
  - destruct hs; simpl. symmetry; apply cadd_0_r. discriminate.
  - destruct hs as [|c [|d hs]]; simpl in *; try lia. symmetry; apply cadd_0_r.
  - destruct hs as [|c [|d hs]]; simpl in Hlen; try lia.
    cbn [pair_acc zip_with alt_sum]. rewrite IH by lia.
    unfold cadd; cbn [fst snd]. rewrite !fadd_assoc. reflexivity.
Qed.

Lemma length_vec_acc k : forall (xs hs : list F) sum,
  length sum = 16%nat -> (16 * k <= length xs)%nat -> length hs = length xs ->
  length (vec_acc k xs hs sum) = 16%nat.
Proof.
  induction k as [|k IH]; intros xs hs sum Hs Hk Hlen; cbn [vec_acc].
  - exact Hs.
  - apply IH.
    + unfold _mm512_add_ps, _mm512_mul_ps.
      rewrite !length_zip_with, !length_take. lia.
    + rewrite length_drop. lia.
    + rewrite !length_drop. lia.
Qed.

Lemma vec_acc_alt_sum k : forall (xs hs : list F) sum,
  length sum = 16%nat -> (16 * k <= length xs)%nat -> length hs = length xs ->
  reduce_pair (vec_acc k xs hs sum)
  = cadd (reduce_pair sum) (alt_sum (take (16 * k) (zip_with fmul xs hs))).
Proof.
  induction k as [|k IH]; intros xs hs sum Hs Hk Hlen; cbn [vec_acc].
  - rewrite Nat.mul_0_r, take_0. cbn [alt_sum]. symmetry. apply cadd_0_r.
  - rewrite IH.
    + rewrite reduce_pair_add.
      * rewrite (reduce_pair_alt_sum (_mm512_mul_ps _ _)).
        -- unfold _mm512_mul_ps. rewrite <- zip_with_take, <- zip_with_drop.
           rewrite <- cadd_assoc, <- alt_sum_app.
           ++ rewrite take_take_drop.
              replace (16 + 16 * k)%nat with (16 * S k)%nat by lia. reflexivity.
           ++ rewrite length_take, length_zip_with.
              replace (16 `min` (length xs `min` length hs))%nat with 16%nat by lia.
              reflexivity.
        -- unfold _mm512_mul_ps. rewrite length_zip_with, !length_take. lia.
      * exact Hs.
      * unfold _mm512_mul_ps. rewrite length_zip_with, !length_take. lia.
    + unfold _mm512_add_ps, _mm512_mul_ps.
      rewrite !length_zip_with, !length_take. lia.
    + rewrite length_drop. lia.
    + rewrite !length_drop. lia.
Qed.

Lemma even_mul16 k : Nat.even (16 * k) = true.
Proof. rewrite Nat.even_mul. reflexivity. Qed.

Lemma kernel_fun_alt_sum k (hs xs : list F) :
  (16 * k <= length xs)%nat -> length hs = length xs ->
  kernel_fun k hs xs = alt_sum (zip_with fmul xs hs).
Proof.
  intros Hk Hlen. unfold kernel_fun.
  fold (reduce_pair (vec_acc k xs hs _mm512_setzero_ps)).
  rewrite pair_acc_alt_sum by (rewrite !length_drop; lia).
  rewrite vec_acc_alt_sum by (assumption || reflexivity).
  rewrite reduce_pair_zero, cadd_0_l.
  rewrite <- zip_with_drop, <- alt_sum_app.
  - rewrite take_drop. reflexivity.
  - rewrite length_take, length_zip_with.
    replace ((16 * k) `min` (length xs `min` length hs))%nat with (16 * k)%nat by lia.
    apply even_mul16.
Qed.

Lemma length_dup (hs : list F) : length (dup hs) = (2 * length hs)%nat.
Proof. induction hs as [|c hs IH]; simpl; lia. Qed.

Lemma dot_step_shift (c a b : F) hs xs n : forall i r,
  fold_left (dot_step (c :: hs) (a :: b :: xs)) (seq (S i) n) r
  = fold_left (dot_step hs xs) (seq i n) r.
Proof.
  induction n as [|n IH]; intros i r; [reflexivity|].
  cbn [seq fold_left]. rewrite IH. f_equal.
  unfold dot_step, sample.
  replace (2 * S i)%nat with (S (S (2 * i))) by lia. reflexivity.
Qed.

Lemma dot_seq_alt_sum (hs : list F) : forall xs r,
  length xs = (2 * length hs)%nat ->
  fold_left (dot_step hs xs) (seq 0 (length hs)) r
  = cadd r (alt_sum (zip_with fmul xs (dup hs))).
Proof.
  induction hs as [|c hs IH]; intros xs r Hlen.
  - destruct xs; [|discriminate]. simpl. symmetry. apply cadd_0_r.
  - destruct xs as [|a [|b xs]]; simpl in Hlen; try lia.
    cbn [length seq fold_left]. rewrite dot_step_shift, IH by lia.
    cbn [dup zip_with alt_sum].
    unfold dot_step, sample, cadd, rcmul. cbn [fst snd nth Nat.mul Nat.add].
    rewrite !fadd_assoc, (fmul_comm a c), (fmul_comm b c). reflexivity.
Qed.

Theorem kernel_fun_dot_seq k (hs xs : list F) :
  length xs = (2 * length hs)%nat -> (16 * k <= length xs)%nat ->
  kernel_fun k (dup hs) xs = dot_seq hs xs.
Proof.
  intros Hlen Hk.
  rewrite kernel_fun_alt_sum by (rewrite ?length_dup; lia).
  unfold dot_seq.
  change (fun r i => cadd r (rcmul (nth i hs f0) (sample xs i)))
    with (dot_step hs xs).
  rewrite dot_seq_alt_sum by assumption. symmetry. apply cadd_0_l.
Qed.

End Algebra.

#[global] Instance Qc_exact : ExactArith Qc.
Proof.
  split; intros; simpl; ring.
Qed.


Section Create.
Context {F : Type} `{FloatOps F}.
Implicit Types (st : state F).

Lemma new_obj_fresh st : heap st !! new_obj st = None.
Proof. unfold new_obj. apply not_elem_of_dom. exact (is_fresh (dom (heap st))). Qed.

Lemma new_buf_fresh st : heap st !! new_buf st = None /\ new_buf st <> new_obj st.
Proof.
  pose proof (is_fresh ({[new_obj st]} ∪ dom (heap st))) as Hf.
  fold (new_buf st) in Hf. split.
  - apply not_elem_of_dom. set_solver.
  - set_solver.
Qed.

Lemma live_not_new st b blk :
  heap st !! b = Some blk -> b <> new_obj st /\ b <> new_buf st.
Proof.
  intros Hb. pose proof (new_obj_fresh st). pose proof (new_buf_fresh st) as [? ?].
  split; congruence.
Qed.

Lemma heap_created_old st n buf o b blk :
  heap st !! b = Some blk -> heap (created st n buf o) !! b = Some blk.
Proof.
  intros Hb. destruct (live_not_new st b blk Hb) as [Hq Hh].
  unfold created; simpl. rewrite !lookup_insert_ne by congruence. exact Hb.
Qed.

Lemma heap_created_buf st n buf o :
  heap (created st n buf o) !! new_buf st = Some (BFloats 64 buf).
Proof. unfold created; simpl. apply lookup_insert_eq. Qed.

Lemma heap_created_obj st n buf o :
  heap (created st n buf o) !! new_obj st
  = Some (BObj {| s_n := n; s_h := Some (new_buf st) |}).
Proof.
  unfold created; simpl. destruct (new_buf_fresh st) as [_ Hne].
  rewrite lookup_insert_ne by congruence. apply lookup_insert_eq.
Qed.

Lemma created_set_buf st n buf buf' o :
  set_heap (<[new_buf st := BFloats 64 buf']> (heap (created st n buf o)))
           (created st n buf o)
  = created st n buf' o.
Proof. unfold created, set_heap; simpl. rewrite insert_insert_eq. reflexivity. Qed.

Lemma store_in_range st b al data z v :
  heap st !! b = Some (BFloats al data) ->
  0 <= z < Z.of_nat (length data) ->
  store (Some b) z v st
  = Ok tt (set_heap (<[b := BFloats al (<[Z.to_nat z := v]> data)]> (heap st)) st).
Proof.
  intros Hb Hz. unfold store, floats_at. rewrite Hb.
  rewrite (index_nth _ _ f0) by assumption. reflexivity.
Qed.

Lemma dup_app (l1 l2 : list F) : dup (l1 ++ l2) = dup l1 ++ dup l2.
Proof. induction l1 as [|c l1 IH]; simpl; [reflexivity|]. rewrite IH. reflexivity. Qed.

Lemma dup_fill_step (l : list F) j m :
  (j < length l)%nat ->
  <[(2 * j + 1)%nat := nth j l f0]>
    (<[(2 * j)%nat := nth j l f0]> (dup (take j l) ++ replicate (2 * S m) f0))
  = dup (take (S j) l) ++ replicate (2 * m) f0.
Proof.
  intros Hj.
  assert (Hlen : length (dup (take j l)) = (2 * j)%nat)
    by (rewrite length_dup, length_take; lia).
  rewrite (take_S_r l j (nth j l f0)) by (apply lookup_nth_lt; exact Hj).
  rewrite dup_app. cbn [dup]. rewrite <- app_assoc.
  rewrite !insert_app_r_alt by (rewrite ?length_insert; lia).
  rewrite Hlen. replace (2 * j - 2 * j)%nat with 0%nat by lia.
  replace (2 * j + 1 - 2 * j)%nat with 1%nat by lia.
  replace (2 * S m)%nat with (S (S (2 * m))) by lia. reflexivity.
Qed.

Lemma nth_coeff_order rev (hs : list F) j :
  (j < length hs)%nat ->
  nth j (coeff_order rev hs) f0
  = nth (Z.to_nat (if rev =? 0 then Z.of_nat j
                   else Z.of_nat (length hs) - Z.of_nat j - 1)) hs f0.
Proof.
  intros Hj. unfold coeff_order. destruct (rev =? 0).
  - rewrite Nat2Z.id. reflexivity.
  - rewrite !nth_lookup, reverse_lookup by exact Hj.
    do 2 f_equal. lia.
Qed.

Lemma length_coeff_order rev (hs : list F) :
  length (coeff_order rev hs) = length hs.
Proof. unfold coeff_order. destruct (rev =? 0); [reflexivity|apply length_reverse]. Qed.

Lemma create_loop st bh alh hs rev o :
  heap st !! bh = Some (BFloats alh hs) ->
  2 * Z.of_nat (length hs) < 2 ^ 32 ->
  forall k j,
    (j + k = length hs)%nat ->
    iterate k 1 (create_body (Some bh) (Some (new_buf st))
                   (Z.of_nat (length hs)) rev)
      (Z.of_nat j) tt
      (created st (Z.of_nat (length hs))
         (dup (take j (coeff_order rev hs)) ++ replicate (2 * k) f0) o)
    = Ok (Z.of_nat (length hs), tt)
         (created st (Z.of_nat (length hs)) (dup (coeff_order rev hs)) o).
Proof.
  intros Hh Hr. induction k as [|k IH]; intros j Hjk; cbn [iterate].
  - unfold ret. rewrite take_ge by (rewrite length_coeff_order; lia).
    cbn [replicate Nat.mul]. rewrite app_nil_r. do 3 f_equal. lia.
  - unfold bind at 1. unfold create_body at 1. unfold bind.
    assert (Hk : (if rev =? 0 then Z.of_nat j
                  else u32 (u32 (Z.of_nat (length hs) - Z.of_nat j) - 1))
                 = (if rev =? 0 then Z.of_nat j
                    else Z.of_nat (length hs) - Z.of_nat j - 1)).
    { destruct (rev =? 0); [reflexivity|].
      rewrite (u32_small (Z.of_nat (length hs) - Z.of_nat j)) by lia.
      apply u32_small. lia. }
    rewrite Hk.
    rewrite (load_in_range _ bh alh hs)
      by (try (apply heap_created_old; exact Hh); destruct (rev =? 0); lia).
    rewrite <- nth_coeff_order by lia.
    rewrite !u32_small by lia.
    assert (Hlen : length (dup (take j (coeff_order rev hs)) ++ replicate (2 * S k) f0)
                   = (2 * length hs)%nat).
    { rewrite length_app, length_dup, length_take, length_replicate,
        length_coeff_order. lia. }
    rewrite (store_in_range _ (new_buf st) 64 _ _ _ (heap_created_buf _ _ _ _))
      by lia.
    rewrite created_set_buf.
    rewrite (store_in_range _ (new_buf st) 64 _ _ _ (heap_created_buf _ _ _ _))
      by (rewrite length_insert; lia).
    rewrite created_set_buf.
    replace (Z.to_nat (2 * Z.of_nat j + 0)) with (2 * j)%nat by lia.
    replace (Z.to_nat (2 * Z.of_nat j + 1)) with (2 * j + 1)%nat by lia.
    rewrite dup_fill_step by (rewrite length_coeff_order; lia).
    replace (Z.of_nat j + 1) with (Z.of_nat (S j)) by lia.
    apply IH. lia.
Qed.

Lemma create_opt_unfold _h _n _rev st :
  dotprod_crcf_create_opt _h _n _rev st
  = match malloc_obj st with
    | Ok q st1 =>
        match set_n q _n st1 with
        | Ok _ st2 =>
            match deref q st2 with
            | Ok s st3 =>
                match _mm_malloc (u32 (2 * s_n s) * sizeof_float) 64 st3 with
                | Ok hp st4 =>
                    match set_h q hp st4 with
                    | Ok _ st5 =>
                        match for_loop 0 (s_n s) 1
                                (create_body _h hp (s_n s) _rev) tt st5 with
                        | Ok _ st6 => Ok q st6
                        | Fault => Fault
                        end
                    | Fault => Fault
                    end
                | Fault => Fault
                end
            | Fault => Fault
            end
        | Fault => Fault
        end
    | Fault => Fault
    end.
Proof. reflexivity. Qed.

Theorem create_opt_fun st bh alh hs n rev o :
  heap st !! bh = Some (BFloats alh hs) ->
  Z.of_nat (length hs) = n -> 2 * n < 2 ^ 32 ->
  oracle st = true :: true :: o ->
  dotprod_crcf_create_opt (Some bh) n rev st
  = Ok (Some (new_obj st)) (created st n (dup (coeff_order rev hs)) o).
Proof.
  intros Hh Hn Hr Ho. subst n.
  destruct (new_buf_fresh st) as [Hbf Hne].
  rewrite create_opt_unfold.
  unfold malloc_obj, alloc. rewrite Ho. fold (new_obj st).
  unfold set_n, update_obj. cbn [heap oracle errlog console set_oracle set_heap].
  rewrite lookup_insert_eq, insert_insert_eq.
  unfold deref. cbn [heap oracle errlog console set_oracle set_heap].
  rewrite lookup_insert_eq. cbn [s_n s_h].
  unfold _mm_malloc, alloc. cbn [heap oracle errlog console set_oracle set_heap].
  rewrite dom_insert_L. fold (new_buf st).
  unfold set_h. unfold update_obj.
  cbn [heap oracle errlog console set_oracle set_heap].
  rewrite lookup_insert_ne, lookup_insert_eq by congruence.
  cbn [s_n s_h].
  rewrite (for_loop_iterate _ 0 _ 1 (length hs)) by lia.
  rewrite u32_small by lia. unfold sizeof_float.
  rewrite Z.div_mul by lia.
  change 0 with (Z.of_nat 0) at 1.
  match goal with
  | |- context [iterate _ _ _ _ _ ?s] =>
      replace s with
        (created st (Z.of_nat (length hs))
           (dup (take 0 (coeff_order rev hs)) ++ replicate (2 * length hs) f0) o)
  end.
  - rewrite (create_loop st bh alh hs rev o Hh Hr) by lia. reflexivity.
  - unfold created. f_equal.
    rewrite take_0. cbn [dup app].
    rewrite (insert_insert_ne _ (new_obj st) (new_buf st)) by congruence.
    rewrite insert_insert_eq.
    replace (Z.to_nat (2 * Z.of_nat (length hs))) with (2 * length hs)%nat by lia.
    reflexivity.
Qed.

End Create.


Section Copy.
Context {F : Type} `{FloatOps F}.
Implicit Types (st : state F).

Lemma copy_unfold q st :
  dotprod_crcf_copy (Some q) st
  = match malloc_obj st with
    | Ok q_copy st1 =>
        match deref (Some q) st1 with
        | Ok so st2 =>
            match set_n q_copy (s_n so) st2 with
            | Ok _ st3 =>
                match deref q_copy st3 with
                | Ok sc st4 =>
                    match _mm_malloc (u32 (2 * s_n sc) * sizeof_float) 64 st4 with
                    | Ok hp st5 =>
                        match set_h q_copy hp st5 with
                        | Ok _ st6 =>
                            match memmove hp (s_h so)
                                    (u32 (2 * s_n so) * sizeof_float) st6 with
                            | Ok _ st7 => Ok q_copy st7
                            | Fault => Fault
                            end
                        | Fault => Fault
                        end
                    | Fault => Fault
                    end
                | Fault => Fault
                end
            | Fault => Fault
            end
        | Fault => Fault
        end
    | Fault => Fault
    end.
Proof. reflexivity. Qed.

Theorem copy_fun st q n hb buf o :
  dotprod_at st q n hb buf ->
  oracle st = true :: true :: o ->
  dotprod_crcf_copy (Some q) st
  = Ok (Some (new_obj st)) (created st n buf o).
Proof.
  intros (Hobj & Hbuf & Hlen & Hr) Ho.
  destruct (new_buf_fresh st) as [Hbf Hne].
  destruct (live_not_new st q _ Hobj) as [Hq1 Hq2].
  destruct (live_not_new st hb _ Hbuf) as [Hb1 Hb2].
  rewrite copy_unfold.
  unfold malloc_obj, alloc. rewrite Ho. fold (new_obj st).
  unfold deref at 1. cbn [heap oracle errlog console set_oracle set_heap].
  rewrite lookup_insert_ne, Hobj by congruence. cbn [s_n s_h].
  unfold set_n, update_obj. cbn [heap oracle errlog console set_oracle set_heap].
  rewrite lookup_insert_eq, insert_insert_eq.
  unfold deref. cbn [heap oracle errlog console set_oracle set_heap].
  rewrite lookup_insert_eq. cbn [s_n s_h].
  unfold _mm_malloc, alloc. cbn [heap oracle errlog console set_oracle set_heap].
  rewrite dom_insert_L. fold (new_buf st).
  unfold set_h. unfold update_obj.
  cbn [heap oracle errlog console set_oracle set_heap].
  rewrite lookup_insert_ne, lookup_insert_eq by congruence.
  cbn [s_n s_h].
  unfold memmove, floats_at. cbn [heap oracle errlog console set_oracle set_heap].
  rewrite lookup_insert_ne, lookup_insert_eq by congruence.
  rewrite !lookup_insert_ne, Hbuf by congruence.
  rewrite u32_small by lia. unfold sizeof_float. rewrite Z.div_mul by lia.
  rewrite decide_True by (rewrite length_replicate; lia).
  rewrite take_ge, drop_ge, app_nil_r by (rewrite ?length_replicate; lia).
  unfold created, set_heap, set_oracle.
  cbn [heap oracle errlog console]. do 2 f_equal.
  apply map_eq. intros i.
  destruct (decide (i = new_buf st)) as [->|Hi1];
    [rewrite !lookup_insert_eq; reflexivity|].
  rewrite !(lookup_insert_ne _ (new_buf st)) by congruence.
  destruct (decide (i = new_obj st)) as [->|Hi2];
    [rewrite !lookup_insert_eq; reflexivity|].
  rewrite !(lookup_insert_ne _ (new_obj st)) by congruence.
  rewrite !(lookup_insert_ne _ (new_buf st)) by congruence.
  rewrite !(lookup_insert_ne _ (new_obj st)) by congruence.
  reflexivity.
Qed.

Lemma dotprod_at_created st n buf o :
  Z.of_nat (length buf) = 2 * n -> 2 * n < 2 ^ 32 ->
  dotprod_at (created st n buf o) (new_obj st) n (new_buf st) buf.
Proof.
  intros Hlen Hr. repeat split; try assumption.
  - apply heap_created_obj.
  - apply heap_created_buf.
Qed.

Lemma dotprod_at_created_old st n buf o q' n' hb' buf' :
  dotprod_at st q' n' hb' buf' ->
  dotprod_at (created st n buf o) q' n' hb' buf'.
Proof.
  intros (Hobj & Hbuf & Hlen & Hr). repeat split; try assumption.
  - apply heap_created_old. exact Hobj.
  - apply heap_created_old. exact Hbuf.
Qed.

Lemma cell_at_created st n buf o y :
  cell_at st y -> cell_at (created st n buf o) y.
Proof.
  intros (al & ys & Hy & Hlen). exists al, ys. split; [|exact Hlen].
  apply heap_created_old. exact Hy.
Qed.

(** Destroying an object that was just created gives back the heap. *)
Lemma destroy_created st n buf o :
  dotprod_crcf_destroy (Some (new_obj st)) (created st n buf o)
  = Ok LIQUID_OK (set_oracle o st).
Proof.
  destruct (new_buf_fresh st) as [Hbf Hne]. pose proof (new_obj_fresh st) as Hof.
  unfold dotprod_crcf_destroy, bind.
  rewrite (deref_obj _ _ _ (heap_created_obj st n buf o)). cbn [s_h].
  unfold _mm_free. rewrite heap_created_buf.
  unfold free. cbn [heap set_heap created].
  rewrite delete_insert_eq.
  rewrite lookup_delete_ne, lookup_insert_eq by congruence.
  unfold ret. f_equal. unfold set_heap, set_oracle.
  cbn [heap oracle errlog console]. f_equal.
  rewrite (delete_id _ (new_buf st))
    by (rewrite lookup_insert_ne by congruence; exact Hbf).
  rewrite delete_insert_eq. apply delete_id. exact Hof.
Qed.

End Copy.


Section Frame.
Context {F : Type} `{FloatOps F}.
Implicit Types (st : state F).

Lemma keeps_refl y st : keeps y st st.
Proof. split; auto. Qed.

Lemma triple_ret {A} y st0 (a : A) (Q : A -> Prop) :
  Q a -> triple y st0 (ret a) Q.
Proof. intros HQ st a' st' HI [= <- <-]. auto. Qed.

Lemma triple_bind {A B} y st0 (m : M F A) (k : A -> M F B) P Q :
  triple y st0 m P -> (forall a, P a -> triple y st0 (k a) Q) ->
  triple y st0 (bind m k) Q.
Proof.
  intros Hm Hk st b st' HI. unfold bind.
  destruct (m st) as [a st1|] eqn:E; [|discriminate].
  destruct (Hm _ _ _ HI E) as [HI1 HP]. apply (Hk a HP). exact HI1.
Qed.

Lemma triple_weaken {A} y st0 (m : M F A) (P Q : A -> Prop) :
  triple y st0 m P -> (forall a, P a -> Q a) -> triple y st0 m Q.
Proof. intros Hm HPQ st a st' HI E. destruct (Hm _ _ _ HI E). auto. Qed.

Lemma triple_for_loop {A} y st0 lo hi step (body : Z -> A -> M F A) a :
  (forall i a, triple y st0 (body i a) (fun _ => True)) ->
  triple y st0 (for_loop lo hi step body a) (fun _ => True).
Proof.
  intros Hbody st r st' HI E. split; [|exact I].
  unfold for_loop in E.
  eapply (for_iter_invariant (keeps y st0)); [|exact HI|exact E].
  intros i a0 st1 a1 st2 HI1 E1. apply (Hbody i a0 _ _ _ HI1 E1).
Qed.

(** Reads. *)
Lemma triple_read {A} y st0 (m : M F A) :
  (forall st a st', m st = Ok a st' -> st' = st) ->
  triple y st0 m (fun _ => True).
Proof. intros Hm st a st' HI E. apply Hm in E as ->. auto. Qed.

Lemma deref_state q st s st' : deref q st = Ok s st' -> st' = st.
Proof.
  unfold deref. destruct q as [b|]; [|discriminate].
  destruct (heap st !! b) as [[al d|s0]|]; congruence.
Qed.

Lemma loadu_state p i st v st' : _mm512_loadu_ps p i st = Ok v st' -> st' = st.
Proof.
  unfold _mm512_loadu_ps. destruct (floats_at st p) as [[al d]|]; [|discriminate].
  case_decide; congruence.
Qed.

Lemma load_ps_state p i st v st' : _mm512_load_ps p i st = Ok v st' -> st' = st.
Proof.
  unfold _mm512_load_ps. destruct (floats_at st p) as [[al d]|]; [|discriminate].
  case_decide; congruence.
Qed.

Lemma triple_load y st0 p i : triple y st0 (load p i) (fun _ => True).
Proof. apply triple_read, load_state. Qed.

Lemma triple_load_complex y st0 p i :
  triple y st0 (load_complex p i) (fun _ => True).
Proof. apply triple_read, load_complex_state. Qed.

Lemma triple_deref y st0 q : triple y st0 (deref q) (fun _ => True).
Proof. apply triple_read, deref_state. Qed.

Lemma triple_loadu y st0 p i : triple y st0 (_mm512_loadu_ps p i) (fun _ => True).
Proof. apply triple_read, loadu_state. Qed.

Lemma triple_load_ps y st0 p i : triple y st0 (_mm512_load_ps p i) (fun _ => True).
Proof. apply triple_read, load_ps_state. Qed.

Lemma triple_printf y st0 l : triple y st0 (printf l) (fun _ => True).
Proof. intros st a st' HI [= _ <-]. split; [exact HI|exact I]. Qed.

Lemma keeps_insert_floats y st0 st b al d d' :
  keeps y st0 st -> writable y st0 (Some b) ->
  heap st !! b = Some (BFloats al d) ->
  keeps y st0 (set_heap (<[b := BFloats al d']> (heap st)) st).
Proof.
  intros [HK HE] Hw Hb. split; [|exact HE].
  intros b' blk Hb' Hq. cbn [heap set_heap].
  rewrite lookup_insert_ne; [apply HK; assumption|].
  intros ->. destruct Hw as [Hw|Hw].
  - destruct Hq as [Hq|[s ->]]; [congruence|].
    specialize (HK b' _ Hb' (or_intror (ex_intro _ s eq_refl))). congruence.
  - congruence.
Qed.

Lemma triple_store y st0 p i v :
  writable y st0 p -> triple y st0 (store p i v) (fun _ => True).
Proof.
  intros Hw st a st' HI. unfold store, floats_at.
  destruct p as [b|]; [|discriminate].
  destruct (heap st !! b) as [[al d|s]|] eqn:Hb; try discriminate.
  destruct (index d i); [|discriminate]. intros [= <- <-].
  split; [|exact I]. eapply keeps_insert_floats; eassumption.
Qed.

Lemma triple_store_complex y st0 p r :
  writable y st0 p -> triple y st0 (store_complex p r) (fun _ => True).
Proof.
  intros Hw. unfold store_complex.
  eapply triple_bind; [apply triple_store; exact Hw|].
  intros _ _. apply triple_store; exact Hw.
Qed.

Lemma triple_memmove y st0 dst src size :
  writable y st0 dst -> triple y st0 (memmove dst src size) (fun _ => True).
Proof.
  intros Hw st a st' HI. unfold memmove, floats_at.
  destruct dst as [b|]; [|discriminate].
  destruct (heap st !! b) as [[al d|s]|] eqn:Hb; try discriminate.
  destruct src as [b2|]; [|discriminate].
  destruct (heap st !! b2) as [[al2 d2|s2]|]; try discriminate.
  case_decide; [|discriminate]. intros [= <- <-].
  split; [|exact I]. eapply keeps_insert_floats; eassumption.
Qed.

(** Writes to an object record: only to records that were not live in
    [st0]. *)
Lemma triple_update_obj y st0 q f :
  match q with Some b => heap st0 !! b = None | None => True end ->
  triple y st0 (update_obj q f) (fun _ => q <> NULL).
Proof.
  intros Hw st a st' [HK HE]. unfold update_obj.
  destruct q as [b|]; [|discriminate].
  destruct (heap st !! b) as [[al d|s]|] eqn:Hb; try discriminate.
  intros [= <- <-]. split; [|discriminate]. split; [|exact HE].
  intros b' blk Hb' Hq. cbn [heap set_heap].
  rewrite lookup_insert_ne by congruence. apply HK; assumption.
Qed.

(** Allocation, when everything is kept ([y] is [NULL]). *)
Lemma triple_alloc st0 blk :
  triple NULL st0 (alloc blk)
    (fun p => match p with Some b => heap st0 !! b = None | None => True end).
Proof.
  intros st p st' HI. pose proof HI as [HK HE]. unfold alloc.
  destruct (oracle st) as [|[|] o].
  - intros [= <- <-]. split; [exact HI|exact I].
  - intros [= <- <-].
    assert (Hf : heap st !! fresh (dom (heap st)) = None)
      by (apply not_elem_of_dom; exact (is_fresh (dom (heap st)))).
    assert (Hf0 : heap st0 !! fresh (dom (heap st)) = None).
    { destruct (heap st0 !! fresh (dom (heap st))) as [blk0|] eqn:E; [|reflexivity].
      assert (Hq : Some (fresh (dom (heap st))) <> NULL \/
                   exists s, blk0 = BObj s) by (left; discriminate).
      pose proof (HK _ _ E Hq) as Hl. congruence. }
    split; [|exact Hf0]. split; [|exact HE].
    intros b' blk' Hb' Hq. cbn [heap set_heap set_oracle].
    rewrite lookup_insert_ne by congruence. apply HK; assumption.
  - intros [= <- <-]. split; [|exact I]. split; [exact HK|exact HE].
Qed.

End Frame.


Section FrameOps.
Context {F : Type} `{FloatOps F}.
Implicit Types (st : state F).

Lemma writable_self y st0 : writable y st0 y.
Proof. left. reflexivity. Qed.

Lemma writable_fresh y st0 (p : ptr) :
  match p with Some b => heap st0 !! b = None | None => True end ->
  writable y st0 p.
Proof. intros Hp. right. exact Hp. Qed.

Create HintDb frame.
#[local] Hint Resolve writable_self writable_fresh : frame.

Ltac triple_prim :=
  first [ apply triple_load | apply triple_load_complex | apply triple_deref
        | apply triple_loadu | apply triple_load_ps | apply triple_printf
        | apply triple_store; solve [auto with frame]
        | apply triple_store_complex; solve [auto with frame]
        | apply triple_memmove; solve [auto with frame]
        | apply triple_alloc
        | apply triple_update_obj; solve [auto]
        | apply triple_ret; solve [auto] ].

Ltac triple_go :=
  repeat first
    [ triple_prim
    | apply triple_for_loop; intros ? ?
    | eapply triple_bind; [triple_prim|intros ? ?]
    | eapply triple_bind;
      [apply triple_for_loop; intros ? ?|intros ? ?]
    | match goal with
      | |- triple _ _ (match ?a with _ => _ end) _ => destruct a
      | |- triple _ _ (let _ := _ in _) _ => cbv zeta
      end ].

Lemma triple_run y st0 _h _x _n :
  triple y st0 (dotprod_crcf_run _h _x _n y) (fun _ => True).
Proof. unfold dotprod_crcf_run. triple_go. Qed.

Lemma triple_run4 y st0 _h _x _n :
  triple y st0 (dotprod_crcf_run4 _h _x _n y) (fun _ => True).
Proof. unfold dotprod_crcf_run4. triple_go. Qed.

Lemma triple_avx512f y st0 _q _x :
  triple y st0 (dotprod_crcf_execute_avx512f _q _x y) (fun _ => True).
Proof. unfold dotprod_crcf_execute_avx512f. triple_go. Qed.

Lemma triple_avx512f4 y st0 _q _x :
  triple y st0 (dotprod_crcf_execute_avx512f4 _q _x y) (fun _ => True).
Proof. unfold dotprod_crcf_execute_avx512f4. triple_go. Qed.

Lemma triple_execute y st0 _q _x :
  triple y st0 (dotprod_crcf_execute _q _x y) (fun _ => True).
Proof.
  unfold dotprod_crcf_execute. eapply triple_bind; [apply triple_deref|].
  intros s _. destruct (s_n s <? 128);
    [apply triple_avx512f|apply triple_avx512f4].
Qed.

Lemma triple_print st0 _q :
  triple NULL st0 (dotprod_crcf_print _q) (fun _ => True).
Proof. unfold dotprod_crcf_print. triple_go. Qed.

Lemma triple_create_opt st0 _h _n _rev :
  triple NULL st0 (dotprod_crcf_create_opt _h _n _rev) (fun q => q <> NULL).
Proof.
  unfold dotprod_crcf_create_opt, malloc_obj, _mm_malloc, set_n, set_h.
  triple_go.
Qed.

Lemma triple_copy st0 q :
  triple NULL st0 (dotprod_crcf_copy (Some q)) (fun q' => q' <> NULL).
Proof.
  unfold dotprod_crcf_copy, malloc_obj, _mm_malloc, set_n, set_h.
  triple_go.
Qed.

End FrameOps.


Section Execute.
Context {F : Type} `{FloatOps F}.
Implicit Types (st : state F).

Lemma execute_unfold q x y st s :
  heap st !! q = Some (BObj s) ->
  dotprod_crcf_execute (Some q) x y st
  = if s_n s <? 128 then dotprod_crcf_execute_avx512f (Some q) x y st
    else dotprod_crcf_execute_avx512f4 (Some q) x y st.
Proof.
  intros Hq. unfold dotprod_crcf_execute, bind.
  rewrite (deref_obj st q s Hq). destruct (s_n s <? 128); reflexivity.
Qed.

Lemma execute_fun st q hb bx y n alx buf xs :
  dotprod_at st q n hb buf ->
  heap st !! bx = Some (BFloats alx xs) ->
  Z.of_nat (length xs) = 2 * n ->
  cell_at st y ->
  dotprod_crcf_execute (Some q) (Some bx) (Some y) st
  = Ok LIQUID_OK (with_result y (kernel_fun (blocks_of n) buf xs) st).
Proof.
  intros Hq Hx Hlen Hy. rewrite (execute_unfold q _ _ st _ (proj1 Hq)).
  cbn [s_n]. unfold blocks_of. destruct (n <? 128).
  - eapply avx512f_fun; eassumption.
  - eapply avx512f4_fun; eassumption.
Qed.

Lemma blocks_of_le n : 0 <= n -> (16 * blocks_of n <= Z.to_nat (2 * n))%nat.
Proof.
  intros Hn. unfold blocks_of. destruct (n <? 128).
  - pose proof (Z.div_mod (2 * n) 16 ltac:(lia)).
    pose proof (Z.mod_pos_bound (2 * n) 16 ltac:(lia)).
    assert (0 <= 2 * n / 16) by (apply Z.div_pos; lia). lia.
  - pose proof (Z.div_mod (2 * n) 64 ltac:(lia)).
    pose proof (Z.mod_pos_bound (2 * n) 64 ltac:(lia)).
    assert (0 <= 2 * n / 64) by (apply Z.div_pos; lia). lia.
Qed.

Lemma dup_lookup (l : list F) k :
  dup l !! (2 * k)%nat = l !! k /\ dup l !! (2 * k + 1)%nat = l !! k.
Proof.
  revert k. induction l as [|c l IH]; intros k.
  - split; reflexivity.
  - destruct k as [|k].
    + split; reflexivity.
    + cbn [dup]. replace (2 * S k)%nat with (S (S (2 * k))) by lia.
      replace (S (S (2 * k)) + 1)%nat with (S (S (2 * k + 1))) by lia.
      cbn [dup lookup]. apply IH.
Qed.

End Execute.

(** * The claims *)

(** C4.  For every [n >= 0] (an [unsigned int]), every array [h] of [n]
    real coefficients and every array [x] of [n] complex samples,
    [dotprod_crcf_run] stores into its output exactly the sum over
    [i = 0 .. n-1] of [h[i] * x[i]], accumulated sequentially in index
    order from [0 + 0i], and returns success.  No law of arithmetic is
    used.  This is the function of every build of the file: the line
    under [_MSC_VER] is typed only with [liquid_float_complex] a
    structure, and then the complex arithmetic of [dotprod_crcf_run4] and
    of the kernels, which no directive guards, is not C. *)
Theorem run_sequential_sum {F : Type} {ops : FloatOps F}
    (st : state F) (bh bx y : positive) (n : Z) (hs xs : list F) :
  floats_in st bh hs -> floats_in st bx xs -> cell_at st y ->
  Z.of_nat (length hs) = n -> length xs = (2 * length hs)%nat ->
  n < 2 ^ 32 ->
  dotprod_crcf_run (Some bh) (Some bx) n (Some y) st
  = Ok LIQUID_OK (with_result y (dot_seq hs xs) st).
Proof. apply run_value. Qed.

Lemma run_sequential_sum_witness :
  dotprod_crcf_run (Some 1%positive) (Some 2%positive) 3 (Some 3%positive)
    (ex_state [])
  = Ok LIQUID_OK (with_result 3%positive (dot_seq ex_h ex_x) (ex_state [])).
Proof.
  apply (run_sequential_sum (ex_state []) 1 2 3 3 ex_h ex_x).
  - exists 4. reflexivity.
  - exists 4. reflexivity.
  - exists 4, [qc 0; qc 0]. split; [reflexivity|simpl; lia].
  - reflexivity.
  - reflexivity.
  - lia.
Defined.

(** The same function as it is compiled with [_MSC_VER]: the loop assigns
    each product to [r], so what is stored is the last product alone. *)
Lemma run_msc_loop {F : Type} {ops : FloatOps F}
    (st : state F) (bh bx : positive) (alh alx : Z) (hs xs : list F) :
  heap st !! bh = Some (BFloats alh hs) ->
  heap st !! bx = Some (BFloats alx xs) ->
  length xs = (2 * length hs)%nat ->
  forall k i r,
    (i + S k <= length hs)%nat ->
    iterate (S k) 1 (run_msc_body (Some bh) (Some bx)) (Z.of_nat i) r st
    = Ok (Z.of_nat (i + S k),
          _FCmulcr (sample xs (i + k)) (nth (i + k) hs f0)) st.
Proof.
  intros Hh Hx Hlen. induction k as [|k IH]; intros i r Hik.
  - cbn [iterate]. unfold bind at 1. unfold run_msc_body at 1. unfold bind.
    rewrite (load_complex_in_range st bx alx xs) by (assumption || lia).
    rewrite (load_in_range st bh alh hs) by (assumption || lia).
    unfold ret. rewrite Nat2Z.id, Nat.add_0_r. do 3 f_equal. lia.
  - change (iterate (S (S k)) 1 ?b ?j r st)
      with (bind (b j r) (fun a' => iterate (S k) 1 b (j + 1) a') st).
    unfold bind at 1. unfold run_msc_body at 1. unfold bind.
    rewrite (load_complex_in_range st bx alx xs) by (assumption || lia).
    rewrite (load_in_range st bh alh hs) by (assumption || lia).
    unfold ret. replace (Z.of_nat i + 1) with (Z.of_nat (S i)) by lia.
    rewrite IH by lia.
    replace (S i + k)%nat with (i + S k)%nat by lia.
    do 3 f_equal. lia.
Qed.

Lemma run_msc_value {F : Type} {ops : FloatOps F}
    (st : state F) (bh bx y : positive) (k : nat) (hs xs : list F) :
  floats_in st bh hs -> floats_in st bx xs -> cell_at st y ->
  length hs = S k -> length xs = (2 * length hs)%nat ->
  Z.of_nat (length hs) < 2 ^ 32 ->
  dotprod_crcf_run_msc (Some bh) (Some bx) (Z.of_nat (S k)) (Some y) st
  = Ok LIQUID_OK (with_result y (_FCmulcr (sample xs k) (nth k hs f0)) st).
Proof.
  intros [alh Hh] [alx Hx] Hy Hk Hlen Hr.
  unfold dotprod_crcf_run_msc. unfold bind at 1.
  rewrite (for_loop_iterate _ 0 _ 1 (S k)) by lia.
  change (iterate (S k) 1 ?b 0 ?a st) with
    (iterate (S k) 1 (run_msc_body (Some bh) (Some bx)) (Z.of_nat 0) a st).
  rewrite (run_msc_loop st bh bx alh alx hs xs Hh Hx Hlen) by lia.
  cbn [Nat.add]. unfold bind. rewrite store_complex_cell by assumption.
  reflexivity.
Qed.

(** The two branches on the scenario of the specification.  With the
    line under [_MSC_VER], on [h = [1, 2, 3]] and
    [x = [(1,0), (0,1), (1,1)]], the loop would leave [3 * (1,1) = (3,3)],
    the last product; the line under [#else] leaves the sum [(4,5)]. *)
Theorem run_msc_drops_sum :
  dotprod_crcf_run_msc (Some 1%positive) (Some 2%positive) 3 (Some 3%positive)
    (ex_state [])
  = Ok LIQUID_OK (with_result 3%positive (qc 3, qc 3) (ex_state [])) /\
  dotprod_crcf_run (Some 1%positive) (Some 2%positive) 3 (Some 3%positive)
    (ex_state [])
  = Ok LIQUID_OK (with_result 3%positive (qc 4, qc 5) (ex_state [])) /\
  dot_seq ex_h ex_x = (qc 4, qc 5) /\
  dotprod_crcf_run_msc (Some 1%positive) (Some 2%positive) 3 (Some 3%positive)
    (ex_state [])
  <> Ok LIQUID_OK (with_result 3%positive (dot_seq ex_h ex_x) (ex_state [])).
Proof.
  split; [vm_compute; reflexivity|].
  split; [vm_compute; reflexivity|].
  split; [vm_compute; reflexivity|].
  vm_compute. intros E. discriminate E.
Qed.

(** C5.  For every [n], [h] and [x], the unrolled routine
    [dotprod_crcf_run4], which makes [floor(n/4)] passes over groups of
    four terms and then handles the remaining [n mod 4] terms one at a
    time, has the same outcome as the plain loop [dotprod_crcf_run]: the
    same value stored, the same status, and a fault in the one whenever
    there is a fault in the other.  The additions are made in the same
    order, so no law of arithmetic is used.  On well-formed arguments the
    outcome is the sequential sum. *)
Theorem run4_equals_run {F : Type} {ops : FloatOps F}
    (st : state F) (_h _x _y : ptr) (n : Z) :
  0 <= n < 2 ^ 32 ->
  dotprod_crcf_run4 _h _x n _y st = dotprod_crcf_run _h _x n _y st /\
  dotprod_crcf_run4 _h _x n _y st
  = match iterate (Z.to_nat (n / 4)) 4 (run4_body _h _x) 0 (f0, f0) st with
    | Ok (i, r) st' =>
        match iterate (Z.to_nat (n mod 4)) 1 (run_body _h _x) i r st' with
        | Ok (_, r') st'' => finish _y r' st''
        | Fault => Fault
        end
    | Fault => Fault
    end /\
  (forall bh bx y hs xs,
      _h = Some bh -> _x = Some bx -> _y = Some y ->
      floats_in st bh hs -> floats_in st bx xs -> cell_at st y ->
      Z.of_nat (length hs) = n -> length xs = (2 * length hs)%nat ->
      dotprod_crcf_run4 _h _x n _y st
      = Ok LIQUID_OK (with_result y (dot_seq hs xs) st)).
Proof.
  intros Hn. split; [apply run4_run; exact Hn|]. split.
  - pose proof (Z.div_mod n 4 ltac:(lia)) as Hdm.
    pose proof (Z.mod_pos_bound n 4 ltac:(lia)) as Hm.
    rewrite run4_unfold, shift_floor4 by exact Hn.
    rewrite (for_loop_iterate _ 0 (4 * (n / 4)) 4 (Z.to_nat (n / 4))) by lia.
    destruct (iterate (Z.to_nat (n / 4)) 4 (run4_body _h _x) 0 (f0, f0) st)
      as [[i r] st1|] eqn:E; [|reflexivity].
    apply iterate_counter in E. subst i.
    rewrite (for_loop_iterate _ _ n 1 (Z.to_nat (n mod 4))) by lia.
    reflexivity.
  - intros bh bx y hs xs -> -> -> Hh Hx Hy Hlen Hxlen.
    rewrite run4_run by exact Hn. apply run_value; try assumption. lia.
Qed.

Lemma run4_equals_run_witness :
  dotprod_crcf_run4 (Some 1%positive) (Some 2%positive) 3 (Some 3%positive)
    (ex_state [])
  = dotprod_crcf_run (Some 1%positive) (Some 2%positive) 3 (Some 3%positive)
      (ex_state []).
Proof.
  apply (run4_equals_run (ex_state []) (Some 1%positive) (Some 2%positive)
           (Some 3%positive) 3).
  lia.
Defined.

Lemma length_of_dup {F : Type} {ops : FloatOps F} (hs : list F) (n : Z) :
  Z.of_nat (length (dup hs)) = 2 * n -> Z.of_nat (length hs) = n.
Proof. rewrite length_dup. lia. Qed.

(** The value that both kernels store, over exact arithmetic. *)
Lemma kernels_value {F : Type} {ops : FloatOps F} {exact : ExactArith F}
    (st : state F) (q hb bx y : positive) (n : Z) (hs xs : list F) :
  dotprod_at st q n hb (dup hs) -> floats_in st bx xs ->
  Z.of_nat (length xs) = 2 * n -> cell_at st y ->
  dotprod_crcf_execute_avx512f (Some q) (Some bx) (Some y) st
  = Ok LIQUID_OK (with_result y (dot_seq hs xs) st) /\
  dotprod_crcf_execute_avx512f4 (Some q) (Some bx) (Some y) st
  = Ok LIQUID_OK (with_result y (dot_seq hs xs) st).
Proof.
  intros Hq [alx Hx] Hxlen Hy.
  pose proof Hq as (_ & _ & Hblen & Hr).
  apply length_of_dup in Hblen.
  assert (Hn : 0 <= n) by lia.
  pose proof (Z.div_mod (2 * n) 16 ltac:(lia)).
  pose proof (Z.mod_pos_bound (2 * n) 16 ltac:(lia)).
  assert (0 <= 2 * n / 16) by (apply Z.div_pos; lia).
  pose proof (Z.div_mod (2 * n) 64 ltac:(lia)).
  pose proof (Z.mod_pos_bound (2 * n) 64 ltac:(lia)).
  assert (0 <= 2 * n / 64) by (apply Z.div_pos; lia).
  split.
  - rewrite (avx512f_fun st q hb bx y n alx (dup hs) xs) by assumption.
    rewrite kernel_fun_dot_seq by lia. reflexivity.
  - rewrite (avx512f4_fun st q hb bx y n alx (dup hs) xs) by assumption.
    rewrite kernel_fun_dot_seq by lia. reflexivity.
Qed.

(** C1.  For every object with [n] coefficients and every array [x] of [n]
    complex samples, the narrow kernel [dotprod_crcf_execute_avx512f] and
    the wide kernel [dotprod_crcf_execute_avx512f4] have the outcome of the
    scalar reference [dotprod_crcf_run] applied to the un-duplicated
    coefficients and [x], over exact arithmetic: the three calls succeed
    and leave the same value in the output. *)
Theorem kernels_agree_with_run {F : Type} {ops : FloatOps F}
    {exact : ExactArith F}
    (st : state F) (q hb bh bx y : positive) (n : Z) (hs xs : list F) :
  dotprod_at st q n hb (dup hs) ->
  floats_in st bh hs -> floats_in st bx xs ->
  Z.of_nat (length xs) = 2 * n -> cell_at st y ->
  dotprod_crcf_execute_avx512f (Some q) (Some bx) (Some y) st
  = dotprod_crcf_run (Some bh) (Some bx) n (Some y) st /\
  dotprod_crcf_execute_avx512f4 (Some q) (Some bx) (Some y) st
  = dotprod_crcf_run (Some bh) (Some bx) n (Some y) st /\
  dotprod_crcf_run (Some bh) (Some bx) n (Some y) st
  = Ok LIQUID_OK (with_result y (dot_seq hs xs) st).
Proof.
  intros Hq Hh Hx Hxlen Hy.
  pose proof Hq as (_ & _ & Hblen & Hr). apply length_of_dup in Hblen.
  destruct (kernels_value st q hb bx y n hs xs Hq Hx Hxlen Hy) as [E1 E2].
  assert (E : dotprod_crcf_run (Some bh) (Some bx) n (Some y) st
              = Ok LIQUID_OK (with_result y (dot_seq hs xs) st))
    by (apply run_value; try assumption; lia).
  rewrite E1, E2, E. auto.
Qed.

Lemma kernels_agree_with_run_witness :
  dotprod_crcf_execute_avx512f (Some 5%positive) (Some 2%positive)
    (Some 3%positive) ex_obj_state
  = dotprod_crcf_run (Some 1%positive) (Some 2%positive) 3 (Some 3%positive)
      ex_obj_state.
Proof.
  apply (kernels_agree_with_run ex_obj_state 5 6 1 2 3 3 ex_h ex_x).
  - repeat split; reflexivity.
  - exists 4. reflexivity.
  - exists 4. reflexivity.
  - reflexivity.
  - exists 4, [qc 0; qc 0]. split; [reflexivity|simpl; lia].
Defined.

(** C3.  The dispatcher [dotprod_crcf_execute] is the narrow kernel when
    [n < 128] and the wide kernel when [n >= 128]; over exact arithmetic
    the two kernels have the same outcome on every object and every sample
    array, so the choice does not change the result. *)
Theorem execute_dispatch {F : Type} {ops : FloatOps F}
    (st : state F) (q hb bx y : positive) (n : Z) (hs xs : list F) :
  dotprod_at st q n hb (dup hs) -> floats_in st bx xs ->
  Z.of_nat (length xs) = 2 * n -> cell_at st y ->
  (n < 128 ->
   dotprod_crcf_execute (Some q) (Some bx) (Some y) st
   = dotprod_crcf_execute_avx512f (Some q) (Some bx) (Some y) st) /\
  (128 <= n ->
   dotprod_crcf_execute (Some q) (Some bx) (Some y) st
   = dotprod_crcf_execute_avx512f4 (Some q) (Some bx) (Some y) st) /\
  (ExactArith F ->
   dotprod_crcf_execute_avx512f (Some q) (Some bx) (Some y) st
   = dotprod_crcf_execute_avx512f4 (Some q) (Some bx) (Some y) st /\
   dotprod_crcf_execute (Some q) (Some bx) (Some y) st
   = Ok LIQUID_OK (with_result y (dot_seq hs xs) st)).
Proof.
  intros Hq Hx Hxlen Hy.
  pose proof (execute_unfold q (Some bx) (Some y) st _ (proj1 Hq)) as E.
  cbn [s_n] in E.
  split; [|split].
  - intros Hn. rewrite E. rewrite (proj2 (Z.ltb_lt _ _)) by lia. reflexivity.
  - intros Hn. rewrite E. rewrite (proj2 (Z.ltb_ge _ _)) by lia. reflexivity.
  - intros exact.
    destruct (kernels_value st q hb bx y n hs xs Hq Hx Hxlen Hy) as [E1 E2].
    split; [congruence|]. rewrite E. destruct (n <? 128); assumption.
Qed.

Lemma execute_dispatch_witness :
  dotprod_crcf_execute (Some 5%positive) (Some 2%positive) (Some 3%positive)
    ex_obj_state
  = dotprod_crcf_execute_avx512f (Some 5%positive) (Some 2%positive)
      (Some 3%positive) ex_obj_state.
Proof.
  refine (proj1 (execute_dispatch ex_obj_state 5 6 2 3 3 ex_h ex_x _ _ _ _) _).
  - repeat split; reflexivity.
  - exists 4. reflexivity.
  - reflexivity.
  - exists 4, [qc 0; qc 0]. split; [reflexivity|simpl; lia].
  - lia.
Defined.

(** The kernels on an object without coefficients. *)
Lemma for_loop_empty {F : Type} {A : Type} (step : Z)
    (body : Z -> A -> M F A) (a : A) (st : state F) :
  for_loop 0 0 step body a st = Ok (0, a) st.
Proof.
  unfold for_loop. destruct (trip_count 0 0 step); reflexivity.
Qed.

(** The reduction of the zero register needs [0 + 0 = 0] and nothing
    else. *)
Lemma reduce_pair_zero_plain {F : Type} {ops : FloatOps F} :
  fadd f0 f0 = f0 -> reduce_pair (_mm512_setzero_ps (F := F)) = (f0, f0).
Proof.
  intros Hz.
  cbv - [f0 fadd fmul]. rewrite !Hz. reflexivity.
Qed.

Lemma kernels_zero_length {F : Type} {ops : FloatOps F}
    (st : state F) (q y : positive) (hp x : ptr) :
  fadd f0 f0 = f0 ->
  heap st !! q = Some (BObj {| s_n := 0; s_h := hp |}) -> cell_at st y ->
  dotprod_crcf_execute_avx512f (Some q) x (Some y) st
  = Ok LIQUID_OK (with_result y (f0, f0) st) /\
  dotprod_crcf_execute_avx512f4 (Some q) x (Some y) st
  = Ok LIQUID_OK (with_result y (f0, f0) st).
Proof.
  intros Hz Hq Hy. split.
  - rewrite avx512f_unfold, (deref_obj st q _ Hq). cbn [s_n s_h]. cbv zeta.
    change (u32 (2 * 0)) with 0.
    change (u32 (Z.shiftl (Z.shiftr 0 4) 4)) with 0.
    rewrite for_loop_empty, for_loop_empty, (reduce_pair_zero_plain Hz).
    apply finish_cell. exact Hy.
  - rewrite avx512f4_unfold, (deref_obj st q _ Hq). cbn [s_n s_h]. cbv zeta.
    change (u32 (2 * 0)) with 0.
    change (u32 (Z.shiftl (Z.shiftr 0 6) 4)) with 0.
    change (u32 (4 * 0)) with 0.
    rewrite for_loop_empty, for_loop_empty, (reduce_pair_zero_plain Hz).
    apply finish_cell. exact Hy.
Qed.

(** C7.  For an object with [n = 0], [dotprod_crcf_execute] and both
    kernels succeed and store [0 + 0i]: the blocked loops and the cleanup
    loops make no iteration, the reduction of the zero accumulator gives
    zero for both sums, and no element of the samples or of the
    coefficients is read, since the calls succeed whatever the sample
    pointer [x] and the buffer pointer of the object are, null included.
    Of the arithmetic, only [0 + 0 = 0] is used, which holds of [float];
    addition need be neither associative nor commutative. *)
Theorem execute_zero_length {F : Type} {ops : FloatOps F}
    (st : state F) (q y : positive) (hp x : ptr) :
  fadd f0 f0 = f0 ->
  heap st !! q = Some (BObj {| s_n := 0; s_h := hp |}) -> cell_at st y ->
  dotprod_crcf_execute (Some q) x (Some y) st
  = Ok LIQUID_OK (with_result y (f0, f0) st) /\
  dotprod_crcf_execute_avx512f (Some q) x (Some y) st
  = Ok LIQUID_OK (with_result y (f0, f0) st) /\
  dotprod_crcf_execute_avx512f4 (Some q) x (Some y) st
  = Ok LIQUID_OK (with_result y (f0, f0) st) /\
  trip_count 0 (u32 (Z.shiftl (Z.shiftr (u32 (2 * 0)) 4) 4)) 16 = 0%nat /\
  trip_count 0 (u32 (Z.shiftl (Z.shiftr (u32 (2 * 0)) 6) 4)) 16 = 0%nat /\
  trip_count 0 (u32 (2 * 0)) 2 = 0%nat /\
  reduce_pair (_mm512_setzero_ps (F := F)) = (f0, f0).
Proof.
  intros Hz Hq Hy.
  destruct (kernels_zero_length st q y hp x Hz Hq Hy) as [E1 E2].
  repeat split; try assumption; try reflexivity.
  - rewrite (execute_unfold q x (Some y) st _ Hq). exact E1.
  - apply reduce_pair_zero_plain. exact Hz.
Qed.

Lemma execute_zero_length_witness :
  dotprod_crcf_execute (Some 5%positive) NULL (Some 3%positive) ex_empty_state
  = Ok LIQUID_OK (with_result 3%positive (f0, f0) ex_empty_state).
Proof.
  apply (execute_zero_length ex_empty_state 5 3 NULL NULL).
  - reflexivity.
  - reflexivity.
  - exists 4, [qc 0; qc 0]. split; [reflexivity|simpl; lia].
Defined.

Lemma with_result_frame {F : Type} {ops : FloatOps F}
    (st : state F) (y : positive) (r : liquid_float_complex) :
  (forall b, b <> y -> heap (with_result y r st) !! b = heap st !! b) /\
  oracle (with_result y r st) = oracle st /\
  errlog (with_result y r st) = errlog st /\
  console (with_result y r st) = console st.
Proof.
  split; [intros b Hb; apply heap_with_result_ne; exact Hb|].
  apply with_result_fields.
Qed.

(** C10, as the code has it.  For every object [q] and every array [x] of
    [q.n] samples, a call to [dotprod_crcf_execute], or to either kernel,
    with a result cell that is not in the coefficient buffer, succeeds and
    leaves the record of [q] and every element of its buffer as they
    were; the only block of memory that can differ afterwards is the one
    that holds the result cell, and the allocator, the error log and the
    output are untouched.  The samples are only read as long as the
    result cell is not among them.  When [_y] points to [x] itself, the
    result, computed from the samples as they were, replaces the first
    sample of [x], the other samples staying as they were. *)
Theorem execute_frame {F : Type} {ops : FloatOps F}
    (st : state F) (q hb bx y : positive) (n : Z) (buf xs : list F)
    (f : ptr -> ptr -> ptr -> M F Z) :
  dotprod_at st q n hb buf -> floats_in st bx xs ->
  Z.of_nat (length xs) = 2 * n -> cell_at st y ->
  y <> hb ->
  f = dotprod_crcf_execute \/ f = dotprod_crcf_execute_avx512f \/
  f = dotprod_crcf_execute_avx512f4 ->
  exists k st',
    f (Some q) (Some bx) (Some y) st = Ok LIQUID_OK st' /\
    st' = with_result y (kernel_fun k buf xs) st /\
    dotprod_at st' q n hb buf /\
    heap st' !! q = heap st !! q /\
    heap st' !! hb = heap st !! hb /\
    (y <> bx -> heap st' !! bx = heap st !! bx) /\
    (y = bx ->
     exists alx,
       heap st !! bx = Some (BFloats alx xs) /\
       heap st' !! bx
       = Some (BFloats alx
                 (<[1%nat := snd (kernel_fun k buf xs)]>
                    (<[0%nat := fst (kernel_fun k buf xs)]> xs)))) /\
    (forall b, b <> y -> heap st' !! b = heap st !! b) /\
    oracle st' = oracle st /\ errlog st' = errlog st /\
    console st' = console st.
Proof.
  intros Hq [alx Hx] Hxlen Hy Hyh Hf.
  assert (Hyq : q <> y).
  { destruct Hy as (al & ys & Hy & _). destruct Hq as (Hobj & _). congruence. }
  assert (Hframe : forall r,
    dotprod_at (with_result y r st) q n hb buf /\
    heap (with_result y r st) !! q = heap st !! q /\
    heap (with_result y r st) !! hb = heap st !! hb /\
    (y <> bx -> heap (with_result y r st) !! bx = heap st !! bx) /\
    (y = bx ->
     exists alx,
       heap st !! bx = Some (BFloats alx xs) /\
       heap (with_result y r st) !! bx
       = Some (BFloats alx (<[1%nat := snd r]> (<[0%nat := fst r]> xs)))) /\
    (forall b, b <> y -> heap (with_result y r st) !! b = heap st !! b) /\
    oracle (with_result y r st) = oracle st /\
    errlog (with_result y r st) = errlog st /\
    console (with_result y r st) = console st).
  { intros r. destruct (with_result_frame st y r) as (Hne & Ho & He & Hc).
    destruct Hq as (Hobj & Hbuf & Hlen & Hr).
    split; [|split; [|split; [|split; [|split; [|split]]]]].
    - repeat split; try assumption.
      + rewrite Hne by congruence. exact Hobj.
      + rewrite Hne by congruence. exact Hbuf.
    - apply Hne. congruence.
    - apply Hne. congruence.
    - intros Hyx. apply Hne. congruence.
    - intros ->. exists alx. split; [exact Hx|].
      unfold with_result. rewrite Hx. cbn [heap set_heap].
      apply lookup_insert_eq.
    - exact Hne.
    - auto. }
  destruct Hf as [->|[->| ->]].
  - exists (blocks_of n). eexists.
    split; [eapply execute_fun; eassumption|]. split; [reflexivity|].
    apply Hframe.
  - exists (Z.to_nat (2 * n / 16)). eexists.
    split; [eapply avx512f_fun; eassumption|]. split; [reflexivity|].
    apply Hframe.
  - exists (4 * Z.to_nat (2 * n / 64))%nat. eexists.
    split; [eapply avx512f4_fun; eassumption|]. split; [reflexivity|].
    apply Hframe.
Qed.

Lemma execute_frame_witness :
  exists st',
    dotprod_crcf_execute (Some 5%positive) (Some 2%positive) (Some 3%positive)
      ex_obj_state = Ok LIQUID_OK st' /\
    dotprod_at st' 5%positive 3 6%positive (dup ex_h) /\
    heap st' !! 2%positive = heap ex_obj_state !! 2%positive.
Proof.
  destruct (execute_frame ex_obj_state 5 6 2 3 3 (dup ex_h) ex_x
              dotprod_crcf_execute) as (k & st' & E & _ & Hq & _ & _ & Hx & _).
  - repeat split; reflexivity.
  - exists 4. reflexivity.
  - reflexivity.
  - exists 4, [qc 0; qc 0]. split; [reflexivity|simpl; lia].
  - lia.
  - left. reflexivity.
  - exists st'. split; [exact E|]. split; [exact Hq|]. apply Hx. lia.
Defined.

(** C10 as it is stated does not hold of every call: with the object and
    the samples of the scenario and [_y] pointing to the samples,
    [dotprod_crcf_execute] succeeds and the first sample, which was
    [(1,0)], is [(4,5)] afterwards: the array [x] has been written. *)
Lemma execute_writes_overlapping_samples :
  dotprod_at ex_obj_state 5%positive 3 6%positive (dup ex_h) /\
  heap ex_obj_state !! 2%positive = Some (BFloats 4 ex_x) /\
  dotprod_crcf_execute (Some 5%positive) (Some 2%positive) (Some 2%positive)
    ex_obj_state
  = Ok LIQUID_OK (with_result 2%positive (qc 4, qc 5) ex_obj_state) /\
  heap (with_result 2%positive (qc 4, qc 5) ex_obj_state) !! 2%positive
  = Some (BFloats 4 [qc 4; qc 5; qc 0; qc 1; qc 1; qc 1]) /\
  heap (with_result 2%positive (qc 4, qc 5) ex_obj_state) !! 2%positive
  <> heap ex_obj_state !! 2%positive.
Proof.
  split; [repeat split; reflexivity|].
  split; [reflexivity|].
  split; [vm_compute; reflexivity|].
  split; [vm_compute; reflexivity|].
  vm_compute. intros E. discriminate E.
Qed.

Lemma coeff_order_rev {F : Type} (hs : list F) :
  coeff_order 1 hs = reverse hs /\ coeff_order 0 (reverse hs) = reverse hs.
Proof. split; reflexivity. Qed.

(** C6.  For every array [h] of [n] coefficients and every array [x] of [n]
    samples, executing an object created by [dotprod_crcf_create_rev] from
    [h] stores the same value as executing an object created by
    [dotprod_crcf_create] from an array that holds [h] reversed.  No law
    of arithmetic is used; over exact arithmetic the value is the dot
    product of the reversed coefficients with [x]. *)
Theorem create_rev_is_create_of_reverse {F : Type} {ops : FloatOps F}
    (st : state F) (bh bh' bx y : positive) (n : Z) (hs xs : list F)
    (o : list bool) :
  floats_in st bh hs -> floats_in st bh' (reverse hs) ->
  Z.of_nat (length hs) = n -> 2 * n < 2 ^ 32 ->
  oracle st = true :: true :: o ->
  floats_in st bx xs -> Z.of_nat (length xs) = 2 * n -> cell_at st y ->
  exists q1 st1 q2 st2 r,
    dotprod_crcf_create_rev (Some bh) n st = Ok (Some q1) st1 /\
    dotprod_crcf_create (Some bh') n st = Ok (Some q2) st2 /\
    dotprod_crcf_execute (Some q1) (Some bx) (Some y) st1
    = Ok LIQUID_OK (with_result y r st1) /\
    dotprod_crcf_execute (Some q2) (Some bx) (Some y) st2
    = Ok LIQUID_OK (with_result y r st2) /\
    (ExactArith F -> r = dot_seq (reverse hs) xs).
Proof.
  intros [al1 Hh] [al2 Hh'] Hn Hr Ho [alx Hx] Hxlen Hy.
  assert (Hlen : Z.of_nat (length (dup (reverse hs))) = 2 * n)
    by (rewrite length_dup, length_reverse; lia).
  exists (new_obj st), (created st n (dup (reverse hs)) o),
         (new_obj st), (created st n (dup (reverse hs)) o),
         (kernel_fun (blocks_of n) (dup (reverse hs)) xs).
  split; [|split; [|split; [|split]]].
  - unfold dotprod_crcf_create_rev.
    rewrite (create_opt_fun st bh al1 hs n 1 o) by assumption. reflexivity.
  - unfold dotprod_crcf_create.
    rewrite (create_opt_fun st bh' al2 (reverse hs) n 0 o)
      by (rewrite ?length_reverse; assumption).
    reflexivity.
  - eapply execute_fun.
    + apply dotprod_at_created; assumption.
    + apply heap_created_old. exact Hx.
    + exact Hxlen.
    + apply cell_at_created. exact Hy.
  - eapply execute_fun.
    + apply dotprod_at_created; assumption.
    + apply heap_created_old. exact Hx.
    + exact Hxlen.
    + apply cell_at_created. exact Hy.
  - intros exact. apply kernel_fun_dot_seq.
    + rewrite length_reverse. lia.
    + pose proof (blocks_of_le n ltac:(lia)). lia.
Qed.

Lemma create_rev_is_create_of_reverse_witness :
  exists q1 st1 q2 st2,
    dotprod_crcf_create_rev (Some 1%positive) 3 (ex_state [true; true])
    = Ok (Some q1) st1 /\
    dotprod_crcf_create (Some 4%positive) 3 (ex_state [true; true])
    = Ok (Some q2) st2.
Proof.
  destruct (create_rev_is_create_of_reverse (ex_state [true; true])
              1 4 2 3 3 ex_h ex_x [])
    as (q1 & st1 & q2 & st2 & r & E1 & E2 & _).
  - exists 4. reflexivity.
  - exists 4. reflexivity.
  - reflexivity.
  - lia.
  - reflexivity.
  - exists 4. reflexivity.
  - reflexivity.
  - exists 4, [qc 0; qc 0]. split; [reflexivity|simpl; lia].
  - exists q1, st1, q2, st2. split; assumption.
Defined.

Lemma snoc_ne {A : Type} (l : list A) (x : A) : l ++ [x] <> l.
Proof.
  intros E. apply (f_equal length) in E. rewrite length_app in E.
  simpl in E. lia.
Qed.

Lemma copy_null_reports {F : Type} {ops : FloatOps F} (st : state F) :
  reports_error st (dotprod_crcf_copy NULL st).
Proof.
  eexists. split; [reflexivity|]. simpl. apply snoc_ne.
Qed.

Lemma copy_non_null_quiet {F : Type} {ops : FloatOps F} (st : state F)
    (q : positive) :
  ~ reports_error st (dotprod_crcf_copy (Some q) st).
Proof.
  intros (st' & E & _).
  destruct (triple_copy st q st NULL st' (keeps_refl NULL st) E) as [_ Hq].
  apply Hq. reflexivity.
Qed.

(** C8.  [dotprod_crcf_copy] fails with the invalid-argument error exactly
    when the handle is null.  Otherwise, the object being well formed and
    the two allocations being served, it returns a new object with the
    same [n] and a buffer with the same [2n] reals, both in storage that
    was not live before (so the original is as it was, and destroying the
    copy gives back the memory that was there before the copy without
    touching the original); [dotprod_crcf_execute] on the copy and on the
    original store the same value for every sample array. *)
Theorem copy_spec {F : Type} {ops : FloatOps F} :
  (forall (h : ptr) (st : state F),
      reports_error st (dotprod_crcf_copy h st) <-> h = NULL) /\
  (forall st : state F,
      exists st', dotprod_crcf_copy NULL st = Ok NULL st' /\
                  errlog st' = errlog st ++ [LIQUID_EICONFIG] /\
                  heap st' = heap st) /\
  (forall (st : state F) q n hb buf o,
      dotprod_at st q n hb buf -> oracle st = true :: true :: o ->
      exists q' hb' st',
        dotprod_crcf_copy (Some q) st = Ok (Some q') st' /\
        heap st !! q' = None /\ heap st !! hb' = None /\ q' <> hb' /\
        dotprod_at st' q' n hb' buf /\
        dotprod_at st' q n hb buf /\
        errlog st' = errlog st /\
        (forall bx xs y,
            floats_in st' bx xs -> Z.of_nat (length xs) = 2 * n ->
            cell_at st' y ->
            exists r,
              dotprod_crcf_execute (Some q') (Some bx) (Some y) st'
              = Ok LIQUID_OK (with_result y r st') /\
              dotprod_crcf_execute (Some q) (Some bx) (Some y) st'
              = Ok LIQUID_OK (with_result y r st')) /\
        dotprod_crcf_destroy (Some q') st' = Ok LIQUID_OK (set_oracle o st)).
Proof.
  split; [|split].
  - intros [q|] st; split.
    + intros Hr. exfalso. exact (copy_non_null_quiet st q Hr).
    + discriminate.
    + reflexivity.
    + intros _. apply copy_null_reports.
  - intros st. eexists. split; [reflexivity|]. split; reflexivity.
  - intros st q n hb buf o Hq Ho.
    pose proof Hq as (Hobj & Hbuf & Hlen & Hr).
    destruct (new_buf_fresh st) as [Hbf Hne].
    exists (new_obj st), (new_buf st), (created st n buf o).
    split; [apply (copy_fun st q n hb buf o); assumption|].
    split; [apply new_obj_fresh|]. split; [exact Hbf|].
    split; [congruence|].
    split; [apply dotprod_at_created; assumption|].
    split; [apply dotprod_at_created_old; assumption|].
    split; [reflexivity|]. split.
    + intros bx xs y [alx Hx] Hxlen Hy.
      exists (kernel_fun (blocks_of n) buf xs). split.
      * apply (execute_fun _ _ (new_buf st) bx y n alx buf xs);
          try assumption.
        apply dotprod_at_created; assumption.
      * apply (execute_fun _ _ hb bx y n alx buf xs); try assumption.
        apply dotprod_at_created_old; assumption.
    + apply destroy_created.
Qed.

Lemma copy_spec_witness :
  exists q' hb' st',
    dotprod_crcf_copy (Some 5%positive) ex_obj_state = Ok (Some q') st' /\
    dotprod_at st' q' 3 hb' (dup ex_h).
Proof.
  destruct (@copy_spec Qc _) as (_ & _ & Hcopy).
  destruct (Hcopy ex_obj_state 5%positive 3 6%positive (dup ex_h) [])
    as (q' & hb' & st' & E & _ & _ & _ & Hq' & _).
  - repeat split; reflexivity.
  - reflexivity.
  - exists q', hb', st'. split; assumption.
Defined.

(** What [dotprod_crcf_create_opt] does when an allocation is refused. *)
Lemma create_opt_no_record {F : Type} {ops : FloatOps F}
    (st : state F) (_h : ptr) (_n _rev : Z) :
  (forall o, oracle st <> true :: o) ->
  dotprod_crcf_create_opt _h _n _rev st = Fault.
Proof.
  intros Ho. rewrite create_opt_unfold. unfold malloc_obj, alloc.
  destruct (oracle st) as [|[|] o]; [reflexivity| |reflexivity].
  exfalso. apply (Ho o). reflexivity.
Qed.

Lemma create_opt_no_buffer {F : Type} {ops : FloatOps F}
    (st : state F) (_h : ptr) (_n _rev : Z) (o1 : list bool) :
  oracle st = true :: o1 -> (forall o, o1 <> true :: o) ->
  (0 < _n -> dotprod_crcf_create_opt _h _n _rev st = Fault) /\
  (_n = 0 ->
   exists st',
     dotprod_crcf_create_opt _h _n _rev st = Ok (Some (new_obj st)) st' /\
     heap st' !! new_obj st = Some (BObj {| s_n := 0; s_h := NULL |}) /\
     errlog st' = errlog st).
Proof.
  intros Ho Ho1.
  assert (E : exists st5,
    heap st5 !! new_obj st = Some (BObj {| s_n := _n; s_h := NULL |}) /\
    errlog st5 = errlog st /\
    dotprod_crcf_create_opt _h _n _rev st
    = match for_loop 0 _n 1 (create_body _h NULL _n _rev) tt st5 with
      | Ok _ st6 => Ok (Some (new_obj st)) st6
      | Fault => Fault
      end).
  { rewrite create_opt_unfold.
    unfold malloc_obj, alloc. rewrite Ho. fold (new_obj st).
    unfold set_n, update_obj.
    cbn [heap oracle errlog console set_oracle set_heap].
    rewrite lookup_insert_eq, insert_insert_eq.
    unfold deref. cbn [heap oracle errlog console set_oracle set_heap].
    rewrite lookup_insert_eq. cbn [s_n s_h].
    unfold _mm_malloc, alloc.
    cbn [heap oracle errlog console set_oracle set_heap].
    destruct o1 as [|[|] o1]; [|exfalso; apply (Ho1 o1); reflexivity|].
    - unfold set_h, update_obj.
      cbn [heap oracle errlog console set_oracle set_heap].
      rewrite lookup_insert_eq, insert_insert_eq. cbn [s_n s_h].
      eexists. split; [|split; [|reflexivity]].
      + cbn [heap]. apply lookup_insert_eq.
      + reflexivity.
    - unfold set_h, update_obj.
      cbn [heap oracle errlog console set_oracle set_heap].
      rewrite lookup_insert_eq, insert_insert_eq. cbn [s_n s_h].
      eexists. split; [|split; [|reflexivity]].
      + cbn [heap]. apply lookup_insert_eq.
      + reflexivity. }
  destruct E as (st5 & Hobj & Herr & E). split.
  - intros Hn. rewrite E. unfold for_loop, trip_count.
    replace (Z.to_nat ((_n - 0 + 1 - 1) / 1)) with (S (Z.to_nat (_n - 1)))
      by (rewrite Z.div_1_r; lia).
    cbn [for_iter]. rewrite (proj2 (Z.ltb_lt 0 _n)) by exact Hn.
    unfold bind at 1. unfold create_body at 1. unfold bind.
    destruct (load _h _ st5) as [v st'|]; reflexivity.
  - intros ->. rewrite E, for_loop_empty. exists st5. auto.
Qed.

(** ** Every object that creation returns is well formed

    [dotprod_at] asks for [2n] to be an [unsigned int].  This is not an
    assumption on the caller: for a larger [n] the buffer that is
    allocated has [2n - 2^32] floats, and the loop of
    [dotprod_crcf_create_opt] writes outside it. *)

Lemma for_iter_hits {F : Type} {A : Type} (I : state F -> Prop)
    (body : Z -> A -> M F A) (hi j0 : Z) :
  (forall j a st a' st', I st -> body j a st = Ok a' st' -> I st') ->
  (forall a st, I st -> body j0 a st = Fault) ->
  j0 < hi -> hi <= 2 ^ 32 ->
  forall fuel i a st r st',
    I st -> 0 <= i <= j0 ->
    for_iter fuel hi 1 body i a st <> Ok r st'.
Proof.
  intros Hkeep Hhit Hj0 Hhi. induction fuel as [|fuel IH];
    intros i a st r st' HI Hi; cbn [for_iter];
    rewrite (proj2 (Z.ltb_lt i hi)) by lia.
  - discriminate.
  - unfold bind. destruct (Z.eq_dec i j0) as [->|Hne].
    + rewrite Hhit by exact HI. discriminate.
    + destruct (body i a st) as [a1 st1|] eqn:E; [|discriminate].
      rewrite u32_small by lia. apply IH; [|lia].
      eapply Hkeep; eassumption.
Qed.

Lemma store_length {F : Type} (p : ptr) (i : Z) (v : F) (st st' : state F)
    (u : unit) (b : positive) (al : Z) (d : list F) :
  heap st !! b = Some (BFloats al d) ->
  store p i v st = Ok u st' ->
  exists d', heap st' !! b = Some (BFloats al d') /\ length d' = length d.
Proof.
  intros Hb. unfold store, floats_at. destruct p as [b'|]; [|discriminate].
  destruct (heap st !! b') as [[al' d'|s]|] eqn:Hb'; try discriminate.
  destruct (index d' i); [|discriminate]. intros [= _ <-]. cbn [heap set_heap].
  destruct (decide (b' = b)) as [->|Hne].
  - rewrite lookup_insert_eq. rewrite Hb in Hb'. injection Hb' as <- <-.
    eexists. split; [reflexivity|]. apply length_insert.
  - rewrite lookup_insert_ne by exact Hne. exists d. auto.
Qed.

Lemma store_object {F : Type} (p : ptr) (i : Z) (v : F) (st st' : state F)
    (u : unit) (q : positive) (s : dotprod_crcf_s) :
  heap st !! q = Some (BObj s) ->
  store p i v st = Ok u st' -> heap st' !! q = Some (BObj s).
Proof.
  intros Hq. unfold store, floats_at. destruct p as [b'|]; [|discriminate].
  destruct (heap st !! b') as [[al' d'|s']|] eqn:Hb'; try discriminate.
  destruct (index d' i); [|discriminate]. intros [= _ <-]. cbn [heap set_heap].
  rewrite lookup_insert_ne by congruence. exact Hq.
Qed.

Lemma create_opt_returns {F : Type} {ops : FloatOps F}
    (st : state F) (_h : ptr) (_n _rev : Z) (v : ptr) (st' : state F) :
  0 <= _n < 2 ^ 32 ->
  dotprod_crcf_create_opt _h _n _rev st = Ok v st' ->
  v = Some (new_obj st) /\
  ((exists buf, dotprod_at st' (new_obj st) _n (new_buf st) buf) \/
   (_n = 0 /\
    heap st' !! new_obj st = Some (BObj {| s_n := 0; s_h := NULL |}))).
Proof.
  intros Hn E.
  destruct (oracle st) as [|[|] o1] eqn:Ho.
  - rewrite create_opt_no_record in E by (rewrite Ho; discriminate).
    discriminate.
  - destruct (new_buf_fresh st) as [Hbf Hne].
    destruct o1 as [|[|] o] eqn:Ho1.
    + destruct (create_opt_no_buffer st _h _n _rev [] Ho ltac:(discriminate))
        as [Hpos Hzero].
      destruct (Z.eq_dec _n 0) as [Hz|Hz].
      * destruct (Hzero Hz) as (st1 & E1 & Hobj & _).
        rewrite E1 in E. injection E as <- <-. auto.
      * rewrite Hpos in E by lia. discriminate.
    + rewrite create_opt_unfold in E. revert E.
      unfold malloc_obj, alloc. rewrite Ho. fold (new_obj st).
      unfold set_n, update_obj.
      cbn [heap oracle errlog console set_oracle set_heap].
      rewrite lookup_insert_eq, insert_insert_eq.
      unfold deref. cbn [heap oracle errlog console set_oracle set_heap].
      rewrite lookup_insert_eq. cbn [s_n s_h].
      unfold _mm_malloc, alloc.
      cbn [heap oracle errlog console set_oracle set_heap].
      rewrite dom_insert_L. fold (new_buf st).
      unfold set_h, update_obj.
      cbn [heap oracle errlog console set_oracle set_heap].
      rewrite lookup_insert_ne, lookup_insert_eq by congruence. cbn [s_n s_h].
      unfold sizeof_float. rewrite Z.div_mul by lia.
      set (I := fun s : state F =>
                  heap s !! new_obj st
                  = Some (BObj {| s_n := _n; s_h := Some (new_buf st) |}) /\
                  exists d, heap s !! new_buf st = Some (BFloats 64 d) /\
                            length d = Z.to_nat (u32 (2 * _n))).
      match goal with
      | |- context [for_loop 0 _n 1 ?b tt ?s] =>
          set (body := b); set (st5 := s)
      end.
      assert (HI5 : I st5).
      { subst I st5. cbn [heap set_heap set_oracle]. split.
        - apply lookup_insert_eq.
        - eexists. split.
          + rewrite lookup_insert_ne by congruence. apply lookup_insert_eq.
          + apply length_replicate. }
      assert (Hkeep : forall j a s a' s', I s -> body j a s = Ok a' s' -> I s').
      { intros j a s a' s' [Hobj (d & Hd & Hlen)] Eb. subst body.
        unfold create_body in Eb. cbv beta zeta in Eb. unfold bind in Eb.
        match type of Eb with
        | context [load _h ?k s] =>
            destruct (load _h k s) as [c s1|] eqn:El; [|discriminate]
        end.
        apply load_state in El as ->.
        match type of Eb with
        | context [store ?p ?k c s] =>
            destruct (store p k c s) as [u1 s2|] eqn:Es1; [|discriminate]
        end.
        destruct (store_length _ _ _ _ _ _ _ _ _ Hd Es1) as (d1 & Hd1 & Hl1).
        pose proof (store_object _ _ _ _ _ _ _ _ Hobj Es1) as Hobj1.
        destruct (store_length _ _ _ _ _ _ _ _ _ Hd1 Eb) as (d2 & Hd2 & Hl2).
        pose proof (store_object _ _ _ _ _ _ _ _ Hobj1 Eb) as Hobj2.
        split; [exact Hobj2|]. exists d2. split; [exact Hd2|]. lia. }
      destruct (for_loop 0 _n 1 body tt st5) as [r st6|] eqn:El; [|discriminate].
      intros [= <- <-]. split; [reflexivity|]. left.
      assert (Hsmall : 2 * _n < 2 ^ 32).
      { destruct (Z_lt_le_dec (2 * _n) (2 ^ 32)) as [Hlt|Hge]; [exact Hlt|].
        exfalso. unfold for_loop in El. revert El.
        apply (for_iter_hits I body _n (_n - 2 ^ 31) Hkeep); try lia;
          [|exact HI5].
        intros a s [Hobj (d & Hd & Hlen)]. subst body.
        unfold create_body. cbv beta zeta. unfold bind.
        match goal with
        | |- context [load _h ?k s] =>
            destruct (load _h k s) as [c s1|] eqn:El'; [|reflexivity]
        end.
        apply load_state in El' as ->.
        assert (Hu : u32 (2 * _n) = 2 * _n - 2 ^ 32).
        { unfold u32. symmetry. apply (Z.mod_unique _ _ 1); lia. }
        unfold store, floats_at. rewrite Hd.
        rewrite (u32_small (2 * (_n - 2 ^ 31) + 0)) by lia.
        unfold index. rewrite (proj2 (Z.leb_le _ _)) by lia.
        rewrite (proj2 (lookup_ge_None d _)) by lia. reflexivity. }
      assert (HI6 : I st6).
      { unfold for_loop in El.
        exact (for_iter_invariant I body _n 1 _ Hkeep _ _ _ _ _ HI5 El). }
      destruct HI6 as [Hobj (d & Hd & Hlen)].
      exists d. repeat split; try assumption.
      rewrite u32_small in Hlen by lia. lia.
    + destruct (create_opt_no_buffer st _h _n _rev (false :: o) Ho
                  ltac:(discriminate)) as [Hpos Hzero].
      destruct (Z.eq_dec _n 0) as [Hz|Hz].
      * destruct (Hzero Hz) as (st1 & E1 & Hobj & _).
        rewrite E1 in E. injection E as <- <-. auto.
      * rewrite Hpos in E by lia. discriminate.
  - rewrite create_opt_no_record in E by (rewrite Ho; discriminate).
    discriminate.
Qed.

Lemma keeps_object {F : Type} {ops : FloatOps F} (y : ptr)
    (st st' : state F) (q hb : positive) (n : Z) (buf : list F) :
  keeps y st st' -> y <> Some hb ->
  dotprod_at st q n hb buf -> dotprod_at st' q n hb buf.
Proof.
  intros [HK _] Hy (Hobj & Hbuf & Hlen & Hr). repeat split; try assumption.
  - apply HK; [exact Hobj|]. right. eexists. reflexivity.
  - apply HK; [exact Hbuf|]. left. congruence.
Qed.

Lemma triple_then_unit {F : Type} {ops : FloatOps F} {A : Type} (y : ptr)
    (st0 : state F) (m : M F A) (Q : A -> Prop) :
  triple y st0 m Q -> triple y st0 (bind m (fun _ => ret tt)) (fun _ => True).
Proof.
  intros Hm. eapply triple_bind; [exact Hm|].
  intros a _. apply triple_ret. exact I.
Qed.

Lemma perform_stable {F : Type} {ops : FloatOps F} (c : api_call)
    (st st' : state F) (u : unit) (q hb : positive) (n : Z) (buf : list F) :
  destroys c = false -> output_of c <> Some hb ->
  dotprod_at st q n hb buf -> perform c st = Ok u st' ->
  dotprod_at st' q n hb buf.
Proof.
  intros Hd Hy Hq E.
  assert (Hkeep : triple (output_of c) st (perform c) (fun _ => True) ->
                  dotprod_at st' q n hb buf).
  { intros Ht. destruct (Ht st u st' (keeps_refl _ st) E) as [HK _].
    eapply keeps_object; eassumption. }
  destruct c as [h x k y|h x k y|h k|h k|q0 h k|q0 h k|[q0|]|q0|q0|q0 x y];
    cbn [destroys] in Hd; try discriminate; cbn [perform output_of] in *.
  - apply Hkeep. eapply triple_then_unit. apply triple_run.
  - apply Hkeep. eapply triple_then_unit. apply triple_run4.
  - apply Hkeep. eapply triple_then_unit. apply triple_create_opt.
  - apply Hkeep. eapply triple_then_unit. apply triple_create_opt.
  - apply Hkeep. eapply triple_then_unit. apply triple_copy.
  - injection E as _ <-. exact Hq.
  - apply Hkeep. eapply triple_then_unit. apply triple_print.
  - apply Hkeep. eapply triple_then_unit. apply triple_execute.
Qed.

Lemma perform_all_stable {F : Type} {ops : FloatOps F}
    (st : state F) (q hb : positive) (n : Z) (buf : list F) :
  dotprod_at st q n hb buf -> stable st q n hb buf.
Proof.
  intros Hq cs. revert st Hq.
  induction cs as [|c cs IH]; intros st Hq u st' Hcs E.
  - injection E as _ <-. exact Hq.
  - apply Forall_cons in Hcs as [[Hd Hy] Hcs].
    cbn [perform_all] in E. unfold bind in E.
    destruct (perform c st) as [u1 st1|] eqn:E1; [|discriminate].
    eapply IH; [|exact Hcs|exact E].
    eapply perform_stable; eassumption.
Qed.

Lemma layout_dup {F : Type} {ops : FloatOps F} (hs : list F) :
  layout false hs (dup hs) /\ layout true hs (dup (reverse hs)).
Proof.
  split; intros k Hk; cbv zeta.
  - apply dup_lookup.
  - destruct (dup_lookup (reverse hs) k) as [E1 E2]. rewrite E1, E2.
    rewrite reverse_lookup by exact Hk.
    replace (length hs - S k)%nat with (length hs - 1 - k)%nat by lia.
    split; reflexivity.
Qed.

(** C2.  After [dotprod_crcf_create], or [dotprod_crcf_create_rev], from an
    array [h] of [n] coefficients ([2n] being an [unsigned int] and the two
    allocations being served), the object owns a buffer with
    [buffer[2k] = buffer[2k+1] = h[k']] for all [0 <= k < n], where
    [k' = k] for the forward creation and [k' = n-1-k] for the reversed
    one; and through every later sequence of operations other than destroy
    and recreate, [n] and the buffer stay what they are. *)
Theorem create_layout_invariant {F : Type} {ops : FloatOps F}
    (st : state F) (bh : positive) (n : Z) (hs : list F) (o : list bool) :
  floats_in st bh hs -> Z.of_nat (length hs) = n -> 2 * n < 2 ^ 32 ->
  oracle st = true :: true :: o ->
  (exists q hb buf st',
      dotprod_crcf_create (Some bh) n st = Ok (Some q) st' /\
      dotprod_at st' q n hb buf /\ layout false hs buf /\
      stable st' q n hb buf) /\
  (exists q hb buf st',
      dotprod_crcf_create_rev (Some bh) n st = Ok (Some q) st' /\
      dotprod_at st' q n hb buf /\ layout true hs buf /\
      stable st' q n hb buf).
Proof.
  intros [al Hh] Hn Hr Ho. destruct (layout_dup hs) as [Lf Lr]. split.
  - assert (Hq : dotprod_at (created st n (dup hs) o) (new_obj st) n
                   (new_buf st) (dup hs))
      by (apply dotprod_at_created; [rewrite length_dup; lia|exact Hr]).
    exists (new_obj st), (new_buf st), (dup hs), (created st n (dup hs) o).
    split; [apply (create_opt_fun st bh al hs n 0 o); assumption|].
    split; [exact Hq|]. split; [exact Lf|].
    apply perform_all_stable. exact Hq.
  - assert (Hq : dotprod_at (created st n (dup (reverse hs)) o) (new_obj st) n
                   (new_buf st) (dup (reverse hs)))
      by (apply dotprod_at_created;
          [rewrite length_dup, length_reverse; lia|exact Hr]).
    exists (new_obj st), (new_buf st), (dup (reverse hs)),
           (created st n (dup (reverse hs)) o).
    split; [apply (create_opt_fun st bh al hs n 1 o); assumption|].
    split; [exact Hq|]. split; [exact Lr|].
    apply perform_all_stable. exact Hq.
Qed.

Lemma create_layout_invariant_witness :
  exists q hb buf st',
    dotprod_crcf_create (Some 1%positive) 3 (ex_state [true; true])
    = Ok (Some q) st' /\
    dotprod_at st' q 3 hb buf /\ layout false ex_h buf.
Proof.
  destruct (create_layout_invariant (ex_state [true; true]) 1 3 ex_h [])
    as [(q & hb & buf & st' & E & Hq & Hl & _) _].
  - exists 4. reflexivity.
  - reflexivity.
  - lia.
  - reflexivity.
  - exists q, hb, buf, st'. split; [exact E|split; [exact Hq|exact Hl]].
Defined.

(** C9, as the code has it.  [dotprod_crcf_create_opt] (hence
    [dotprod_crcf_create] and [dotprod_crcf_create_rev]) does not test what
    the allocator returns and never reports an allocation error: whenever
    it returns, the handle is not null and no error has been reported.
    When the allocation of the object record is refused the null pointer
    is dereferenced, which is a fault; when only the allocation of the
    buffer is refused, the first coefficient is written through the null
    pointer, a fault again, if [n > 0], and if [n = 0] the call returns an
    object whose buffer pointer is null. *)
Theorem create_unchecked_allocation {F : Type} {ops : FloatOps F}
    (st : state F) (_h : ptr) (_n _rev : Z) :
  (forall v st', dotprod_crcf_create_opt _h _n _rev st = Ok v st' ->
                 v <> NULL /\ errlog st' = errlog st) /\
  ~ reports_error st (dotprod_crcf_create_opt _h _n _rev st) /\
  ((forall o, oracle st <> true :: o) ->
   dotprod_crcf_create_opt _h _n _rev st = Fault) /\
  (forall o1, oracle st = true :: o1 -> (forall o, o1 <> true :: o) ->
              0 < _n -> dotprod_crcf_create_opt _h _n _rev st = Fault) /\
  (forall o1, oracle st = true :: o1 -> (forall o, o1 <> true :: o) ->
              _n = 0 ->
              exists st',
                dotprod_crcf_create_opt _h _n _rev st
                = Ok (Some (new_obj st)) st' /\
                heap st' !! new_obj st
                = Some (BObj {| s_n := 0; s_h := NULL |}) /\
                errlog st' = errlog st).
Proof.
  assert (Hok : forall v st',
             dotprod_crcf_create_opt _h _n _rev st = Ok v st' ->
             v <> NULL /\ errlog st' = errlog st).
  { intros v st' E.
    destruct (triple_create_opt st _h _n _rev st v st' (keeps_refl NULL st) E)
      as [[_ He] Hv].
    split; assumption. }
  split; [exact Hok|]. split; [|split; [|split]].
  - intros (st' & E & _). destruct (Hok _ _ E) as [Hv _]. apply Hv. reflexivity.
  - apply create_opt_no_record.
  - intros o1 Ho Ho1. apply (create_opt_no_buffer st _h _n _rev o1 Ho Ho1).
  - intros o1 Ho Ho1. apply (create_opt_no_buffer st _h _n _rev o1 Ho Ho1).
Qed.

(** C9 as it is stated does not hold: with the coefficients of the
    scenario and an allocator that refuses the object record,
    [dotprod_crcf_create] faults and [dotprod_crcf_create_rev] too, and
    neither returns an error; and with an allocator that refuses only the
    buffer, creation with [n = 0] returns an object, not an error. *)
Lemma create_allocation_failure_unreported :
  dotprod_crcf_create (Some 1%positive) 3 (ex_state [false]) = Fault /\
  dotprod_crcf_create_rev (Some 1%positive) 3 (ex_state [false]) = Fault /\
  ~ reports_error (ex_state [false])
      (dotprod_crcf_create (Some 1%positive) 3 (ex_state [false])) /\
  ~ reports_error (ex_state [false])
      (dotprod_crcf_create_rev (Some 1%positive) 3 (ex_state [false])) /\
  dotprod_crcf_create (Some 1%positive) 3 (ex_state [true; false]) = Fault /\
  ~ reports_error (ex_state [true; false])
      (dotprod_crcf_create (Some 1%positive) 0 (ex_state [true; false])).
Proof.
  assert (E1 : dotprod_crcf_create (Some 1%positive) 3 (ex_state [false])
               = Fault) by reflexivity.
  assert (E2 : dotprod_crcf_create_rev (Some 1%positive) 3 (ex_state [false])
               = Fault) by reflexivity.
  assert (E3 : dotprod_crcf_create (Some 1%positive) 3
                 (ex_state [true; false]) = Fault) by (vm_compute; reflexivity).
  assert (E4 : exists q st',
             dotprod_crcf_create (Some 1%positive) 0 (ex_state [true; false])
             = Ok (Some q) st').
  { vm_compute. eexists. eexists. reflexivity. }
  split; [exact E1|]. split; [exact E2|].
  split; [rewrite E1; intros (st' & E & _); discriminate|].
  split; [rewrite E2; intros (st' & E & _); discriminate|].
  split; [exact E3|].
  destruct E4 as (q & st1 & E4). rewrite E4. intros (st' & E & _). discriminate.
Qed.

(** * The scenarios of the specification, run on the model *)

(** [h = [1, 2, 3]] and [x = [(1,0), (0,1), (1,1)]] give [(4,5)] on every
    path. *)
Example scenario_4_5 :
  let expected := Ok LIQUID_OK (with_result 3%positive (qc 4, qc 5) ex_obj_state) in
  dotprod_crcf_run (Some 1%positive) (Some 2%positive) 3 (Some 3%positive)
    ex_obj_state = expected /\
  dotprod_crcf_run4 (Some 1%positive) (Some 2%positive) 3 (Some 3%positive)
    ex_obj_state = expected /\
  dotprod_crcf_execute_avx512f (Some 5%positive) (Some 2%positive)
    (Some 3%positive) ex_obj_state = expected /\
  dotprod_crcf_execute_avx512f4 (Some 5%positive) (Some 2%positive)
    (Some 3%positive) ex_obj_state = expected /\
  dotprod_crcf_execute (Some 5%positive) (Some 2%positive)
    (Some 3%positive) ex_obj_state = expected.
Proof. vm_compute. repeat split; reflexivity. Qed.

(** [h = [1/2, 1/2]], created reversed, and [x = [(2,0), (4,0)]] give
    [(3,0)]. *)
Example scenario_3_0 :
  match dotprod_crcf_create_rev (Some 1%positive) 2 ex_sym_state with
  | Ok q st =>
      dotprod_crcf_execute q (Some 2%positive) (Some 3%positive) st
      = Ok LIQUID_OK (with_result 3%positive (qc 3, qc 0) st)
  | Fault => False
  end.
Proof. vm_compute. reflexivity. Qed.

(** Lengths around the block sizes (8 and 32 complex samples) and around
    the threshold of the dispatcher. *)
Example scenario_blocks :
  Forall ramp_agree [0; 1; 7; 8; 9; 31; 32; 33; 40; 127; 128; 129; 200]%nat.
Proof.
  repeat apply Forall_cons_2; try apply Forall_nil_2;
    vm_compute; repeat split; reflexivity.
Qed.

(** * Further properties of the code

    The life cycle of the object (destroy, recreate, print, and what
    creation and copy do besides), the scalar routines and the kernels. *)

(** ** Destroy *)

Lemma destroy_fun {F : Type} {ops : FloatOps F}
    (st : state F) (q hb : positive) (n : Z) (buf : list F) :
  dotprod_at st q n hb buf ->
  dotprod_crcf_destroy (Some q) st
  = Ok LIQUID_OK (set_heap (delete q (delete hb (heap st))) st).
Proof.
  intros (Hobj & Hbuf & _).
  assert (Hne : q <> hb) by congruence.
  unfold dotprod_crcf_destroy, bind.
  rewrite (deref_obj st q _ Hobj). cbn [s_h].
  unfold _mm_free. rewrite Hbuf.
  unfold free. cbn [heap set_heap].
  rewrite lookup_delete_ne, Hobj by congruence.
  reflexivity.
Qed.

Lemma destroy_inv {F : Type} {ops : FloatOps F}
    (_q : ptr) (st : state F) (v : Z) (st' : state F) :
  dotprod_crcf_destroy _q st = Ok v st' ->
  exists q s, _q = Some q /\ heap st !! q = Some (BObj s) /\
              heap st' !! q = None /\ v = LIQUID_OK.
Proof.
  unfold dotprod_crcf_destroy, bind, deref.
  destruct _q as [q|]; [|discriminate].
  destruct (heap st !! q) as [[al d|s]|] eqn:Hq; try discriminate.
  intros E. exists q, s. split; [reflexivity|]. split; [exact Hq|].
  destruct (_mm_free (s_h s) st) as [u st1|] eqn:E1; [|discriminate].
  unfold free in E.
  destruct (heap st1 !! q) as [[al d|s1]|]; try discriminate.
  injection E as <- <-. cbn [heap set_heap].
  split; [apply lookup_delete_eq|reflexivity].
Qed.

(** X2.  [dotprod_crcf_destroy] on a well-formed object returns
    [LIQUID_OK] and releases exactly two blocks, the record and the
    buffer: neither is live afterwards, every other block is as it was, and
    the allocator, the error log and the output are untouched. *)
Theorem destroy_releases {F : Type} {ops : FloatOps F}
    (st : state F) (q hb : positive) (n : Z) (buf : list F) :
  dotprod_at st q n hb buf ->
  exists st',
    dotprod_crcf_destroy (Some q) st = Ok LIQUID_OK st' /\
    heap st' !! q = None /\ heap st' !! hb = None /\
    (forall b, b <> q -> b <> hb -> heap st' !! b = heap st !! b) /\
    oracle st' = oracle st /\ errlog st' = errlog st /\
    console st' = console st.
Proof.
  intros Hq. eexists. split; [apply (destroy_fun st q hb n buf Hq)|].
  cbn [heap set_heap oracle errlog console].
  split; [apply lookup_delete_eq|].
  split.
  - destruct (decide (hb = q)) as [->|Hne]; [apply lookup_delete_eq|].
    rewrite lookup_delete_ne by congruence. apply lookup_delete_eq.
  - split; [|auto]. intros b Hb1 Hb2.
    rewrite !lookup_delete_ne by congruence. reflexivity.
Qed.

Lemma destroy_releases_witness :
  exists st',
    dotprod_crcf_destroy (Some 5%positive) ex_obj_state = Ok LIQUID_OK st' /\
    heap st' !! 5%positive = None /\ heap st' !! 6%positive = None.
Proof.
  destruct (destroy_releases ex_obj_state 5 6 3 (dup ex_h))
    as (st' & E & H5 & H6 & _).
  - repeat split; reflexivity.
  - exists st'. split; [exact E|]. split; [exact H5|exact H6].
Defined.

(** X3.  [dotprod_crcf_destroy] tests nothing.  On the null handle it
    dereferences the null pointer, a fault (where [dotprod_crcf_copy]
    reports an error).  Once a call has returned, the record is gone, so
    that a second call on the same handle faults (double free), and so do
    [dotprod_crcf_print], [dotprod_crcf_execute] and the two kernels (use
    after free), whatever the other arguments. *)
Theorem destroy_unchecked {F : Type} {ops : FloatOps F}
    (_q : ptr) (st : state F) :
  dotprod_crcf_destroy NULL st = Fault /\
  (forall v st',
      dotprod_crcf_destroy _q st = Ok v st' ->
      dotprod_crcf_destroy _q st' = Fault /\
      dotprod_crcf_print _q st' = Fault /\
      (forall _x _y,
          dotprod_crcf_execute _q _x _y st' = Fault /\
          dotprod_crcf_execute_avx512f _q _x _y st' = Fault /\
          dotprod_crcf_execute_avx512f4 _q _x _y st' = Fault)).
Proof.
  split; [reflexivity|].
  intros v st' E. apply destroy_inv in E as (q & s & -> & _ & Hq & _).
  unfold dotprod_crcf_destroy, dotprod_crcf_print, dotprod_crcf_execute,
    dotprod_crcf_execute_avx512f, dotprod_crcf_execute_avx512f4, bind, deref.
  rewrite Hq. auto.
Qed.

Lemma destroy_unchecked_witness :
  exists st',
    dotprod_crcf_destroy (Some 5%positive) ex_obj_state = Ok LIQUID_OK st' /\
    dotprod_crcf_destroy (Some 5%positive) st' = Fault.
Proof.
  eexists. split; [vm_compute; reflexivity|].
  refine (proj1 (proj2 (destroy_unchecked (Some 5%positive) ex_obj_state)
                   LIQUID_OK _ _)).
  vm_compute. reflexivity.
Defined.

(** ** Creation *)

Lemma create_opt_empty {F : Type} {ops : FloatOps F}
    (st : state F) (_h : ptr) (_rev : Z) (o : list bool) :
  oracle st = true :: true :: o ->
  dotprod_crcf_create_opt _h 0 _rev st
  = Ok (Some (new_obj st)) (created st 0 [] o).
Proof.
  intros Ho. destruct (new_buf_fresh st) as [Hbf Hne].
  rewrite create_opt_unfold.
  unfold malloc_obj, alloc. rewrite Ho. fold (new_obj st).
  unfold set_n, update_obj. cbn [heap oracle errlog console set_oracle set_heap].
  rewrite lookup_insert_eq, insert_insert_eq.
  unfold deref. cbn [heap oracle errlog console set_oracle set_heap].
  rewrite lookup_insert_eq. cbn [s_n s_h].
  unfold _mm_malloc, alloc. cbn [heap oracle errlog console set_oracle set_heap].
  rewrite dom_insert_L. fold (new_buf st).
  unfold set_h. unfold update_obj.
  cbn [heap oracle errlog console set_oracle set_heap].
  rewrite lookup_insert_ne, lookup_insert_eq by congruence.
  cbn [s_n s_h].
  rewrite for_loop_empty. f_equal.
  unfold created. f_equal.
  rewrite (insert_insert_ne _ (new_obj st) (new_buf st)) by congruence.
  rewrite insert_insert_eq. reflexivity.
Qed.

(** X4.  With [n = 0] and the two allocations served, creation returns a
    well-formed object whose buffer is empty.  The loop makes no
    iteration, so nothing is read through [_h], which may be null; no live
    block changes and no error is reported. *)
Theorem create_zero_length {F : Type} {ops : FloatOps F}
    (st : state F) (_h : ptr) (_rev : Z) (o : list bool) :
  oracle st = true :: true :: o ->
  exists st',
    dotprod_crcf_create_opt _h 0 _rev st = Ok (Some (new_obj st)) st' /\
    dotprod_at st' (new_obj st) 0 (new_buf st) [] /\
    (forall b blk, heap st !! b = Some blk -> heap st' !! b = Some blk) /\
    errlog st' = errlog st.
Proof.
  intros Ho. exists (created st 0 [] o).
  split; [apply create_opt_empty; exact Ho|].
  split; [apply dotprod_at_created; [reflexivity|lia]|].
  split; [|reflexivity].
  intros b blk Hb. apply heap_created_old. exact Hb.
Qed.

Lemma create_zero_length_witness :
  exists st',
    dotprod_crcf_create NULL 0 (ex_state [true; true])
    = Ok (Some (new_obj (ex_state [true; true]))) st'.
Proof.
  destruct (create_zero_length (ex_state [true; true]) NULL 0 [])
    as (st' & E & _).
  - reflexivity.
  - exists st'. exact E.
Defined.

(** X5.  Whatever [_h], the flag, the state of memory and the answers of
    the allocator are: when [dotprod_crcf_create_opt] returns, for a count
    [n] that is an [unsigned int], the handle is a block that was not live
    before, no error has been reported, and the handle is a well-formed
    object (its record holds [n] and points to a 64-byte aligned buffer of
    exactly [2n] floats, in a block that was not live before, with [2n] an
    [unsigned int]); or else [n = 0] and the record holds a null buffer
    pointer (the buffer allocation was refused). *)
Theorem create_postcondition {F : Type} {ops : FloatOps F}
    (st : state F) (_h : ptr) (_n _rev : Z) (v : ptr) (st' : state F) :
  0 <= _n < 2 ^ 32 ->
  dotprod_crcf_create_opt _h _n _rev st = Ok v st' ->
  exists q, v = Some q /\ heap st !! q = None /\ errlog st' = errlog st /\
    ((exists hb buf, dotprod_at st' q _n hb buf /\ heap st !! hb = None) \/
     (_n = 0 /\ heap st' !! q = Some (BObj {| s_n := 0; s_h := NULL |}))).
Proof.
  intros Hn E.
  destruct (triple_create_opt st _h _n _rev st v st' (keeps_refl NULL st) E)
    as [[_ He] _].
  destruct (create_opt_returns st _h _n _rev v st' Hn E) as [-> Hv].
  exists (new_obj st). split; [reflexivity|].
  split; [apply new_obj_fresh|]. split; [exact He|].
  destruct Hv as [[buf Hq]|Hz]; [left|right; exact Hz].
  exists (new_buf st), buf. split; [exact Hq|apply new_buf_fresh].
Qed.

Lemma create_postcondition_witness :
  exists q st',
    dotprod_crcf_create (Some 1%positive) 3 (ex_state [true; true])
    = Ok (Some q) st' /\ heap (ex_state [true; true]) !! q = None.
Proof.
  destruct (dotprod_crcf_create (Some 1%positive) 3 (ex_state [true; true]))
    as [v st'|] eqn:E; [|exfalso; revert E; vm_compute; discriminate].
  destruct (create_postcondition (ex_state [true; true]) (Some 1%positive) 3 0
              v st') as (q & -> & Hq & _).
  - lia.
  - exact E.
  - exists q, st'. split; [reflexivity|exact Hq].
Defined.

(** X6.  For a count [n >= 2^31] the product [2*q->n], computed in
    [unsigned int], wraps around; the buffer that is asked for is too
    short and the loop, which runs up to [n], leaves it.  Creation has no
    defined outcome for such a count, whatever the other arguments and the
    allocator. *)
Theorem create_count_overflow {F : Type} {ops : FloatOps F}
    (st : state F) (_h : ptr) (_n _rev : Z) :
  2 ^ 31 <= _n < 2 ^ 32 ->
  dotprod_crcf_create_opt _h _n _rev st = Fault /\
  dotprod_crcf_create _h _n st = Fault /\
  dotprod_crcf_create_rev _h _n st = Fault.
Proof.
  intros Hn.
  assert (Hf : forall rev, dotprod_crcf_create_opt _h _n rev st = Fault).
  { intros rev.
    destruct (dotprod_crcf_create_opt _h _n rev st) as [v st'|] eqn:E;
      [|reflexivity].
    exfalso.
    destruct (create_opt_returns st _h _n rev v st' ltac:(lia) E)
      as [_ [[buf (_ & _ & _ & Hr)]|[Hz _]]]; lia. }
  split; [apply Hf|]. split; apply Hf.
Qed.

Lemma create_count_overflow_witness :
  dotprod_crcf_create (Some 1%positive) (2 ^ 31) (ex_state [true; true])
  = Fault.
Proof.
  refine (proj1 (proj2 (create_count_overflow (ex_state [true; true])
                          (Some 1%positive) (2 ^ 31) 0 _))).
  lia.
Defined.

(** X7.  Creation followed by [dotprod_crcf_destroy] gives back all the
    memory: the heap is the one before the creation, for the forward and
    for the reversed creation alike; error log and output are
    unchanged. *)
Theorem create_destroy_round_trip {F : Type} {ops : FloatOps F}
    (st : state F) (bh : positive) (n _rev : Z) (hs : list F)
    (o : list bool) :
  floats_in st bh hs -> Z.of_nat (length hs) = n -> 2 * n < 2 ^ 32 ->
  oracle st = true :: true :: o ->
  exists q st',
    dotprod_crcf_create_opt (Some bh) n _rev st = Ok (Some q) st' /\
    exists st'',
      dotprod_crcf_destroy (Some q) st' = Ok LIQUID_OK st'' /\
      heap st'' = heap st /\ errlog st'' = errlog st /\
      console st'' = console st /\ oracle st'' = o.
Proof.
  intros [al Hh] Hn Hr Ho.
  exists (new_obj st), (created st n (dup (coeff_order _rev hs)) o).
  split; [apply (create_opt_fun st bh al hs n _rev o); assumption|].
  exists (set_oracle o st). split; [apply destroy_created|].
  repeat split.
Qed.

Lemma create_destroy_round_trip_witness :
  exists q st' st'',
    dotprod_crcf_create_rev (Some 1%positive) 3 (ex_state [true; true])
    = Ok (Some q) st' /\
    dotprod_crcf_destroy (Some q) st' = Ok LIQUID_OK st'' /\
    heap st'' = ex_heap.
Proof.
  destruct (create_destroy_round_trip (ex_state [true; true]) 1 3 1 ex_h [])
    as (q & st' & E & st'' & E' & Hh & _).
  - exists 4. reflexivity.
  - reflexivity.
  - lia.
  - reflexivity.
  - exists q, st', st''. split; [exact E|]. split; [exact E'|exact Hh].
Defined.

(** X8.  Creation copies the coefficients and keeps no pointer to the
    caller's array.  The object and its buffer are blocks other than the
    array, creation changes no live block (the array included), and the
    object is as well formed, with the same buffer contents, after the
    caller has overwritten the array with anything or released it. *)
Theorem create_copies_coefficients {F : Type} {ops : FloatOps F}
    (st : state F) (bh : positive) (n _rev : Z) (hs : list F)
    (o : list bool) :
  floats_in st bh hs -> Z.of_nat (length hs) = n -> 2 * n < 2 ^ 32 ->
  oracle st = true :: true :: o ->
  exists q hb st',
    dotprod_crcf_create_opt (Some bh) n _rev st = Ok (Some q) st' /\
    q <> bh /\ hb <> bh /\
    (forall b blk, heap st !! b = Some blk -> heap st' !! b = Some blk) /\
    dotprod_at st' q n hb (dup (coeff_order _rev hs)) /\
    (forall blk,
        dotprod_at (set_heap (<[bh := blk]> (heap st')) st') q n hb
          (dup (coeff_order _rev hs))) /\
    dotprod_at (set_heap (delete bh (heap st')) st') q n hb
      (dup (coeff_order _rev hs)).
Proof.
  intros [al Hh] Hn Hr Ho.
  destruct (live_not_new st bh _ Hh) as [Hb1 Hb2].
  assert (Hq : dotprod_at (created st n (dup (coeff_order _rev hs)) o)
                 (new_obj st) n (new_buf st) (dup (coeff_order _rev hs))).
  { apply dotprod_at_created; [|exact Hr].
    rewrite length_dup, length_coeff_order. lia. }
  exists (new_obj st), (new_buf st),
         (created st n (dup (coeff_order _rev hs)) o).
  split; [apply (create_opt_fun st bh al hs n _rev o); assumption|].
  split; [congruence|]. split; [congruence|].
  split; [intros b blk Hb; apply heap_created_old; exact Hb|].
  split; [exact Hq|].
  destruct Hq as (Hobj & Hbuf & Hlen & _).
  split; [intros blk|]; repeat split; try assumption; cbn [heap set_heap].
  - rewrite lookup_insert_ne by congruence. exact Hobj.
  - rewrite lookup_insert_ne by congruence. exact Hbuf.
  - rewrite lookup_delete_ne by congruence. exact Hobj.
  - rewrite lookup_delete_ne by congruence. exact Hbuf.
Qed.

Lemma create_copies_coefficients_witness :
  exists q hb st',
    dotprod_crcf_create (Some 1%positive) 3 (ex_state [true; true])
    = Ok (Some q) st' /\
    dotprod_at (set_heap (delete 1%positive (heap st')) st') q 3 hb
      (dup ex_h).
Proof.
  destruct (create_copies_coefficients (ex_state [true; true]) 1 3 0 ex_h [])
    as (q & hb & st' & E & _ & _ & _ & _ & _ & Hq).
  - exists 4. reflexivity.
  - reflexivity.
  - lia.
  - reflexivity.
  - exists q, hb, st'. split; [exact E|exact Hq].
Defined.

(** ** Recreate *)

Lemma heap_destroyed {F : Type} (q hb : positive) (st : state F)
    (b : positive) :
  b <> q -> b <> hb -> heap (destroyed q hb st) !! b = heap st !! b.
Proof.
  intros H1 H2. unfold destroyed. cbn [heap set_heap].
  rewrite !lookup_delete_ne by congruence. reflexivity.
Qed.

Lemma recreate_opt_fun {F : Type} {ops : FloatOps F}
    (st : state F) (q hb bh : positive) (n n' rev : Z) (buf hs : list F)
    (o : list bool) :
  dotprod_at st q n hb buf -> floats_in st bh hs -> bh <> hb ->
  Z.of_nat (length hs) = n' -> 2 * n' < 2 ^ 32 ->
  oracle st = true :: true :: o ->
  bind (dotprod_crcf_destroy (Some q))
       (fun _ => dotprod_crcf_create_opt (Some bh) n' rev) st
  = Ok (Some (new_obj (destroyed q hb st)))
       (created (destroyed q hb st) n' (dup (coeff_order rev hs)) o).
Proof.
  intros Hq [al Hh] Hne Hn Hr Ho.
  unfold bind. rewrite (destroy_fun st q hb n buf Hq). fold (destroyed q hb st).
  apply (create_opt_fun (destroyed q hb st) bh al hs n' rev o);
    try assumption.
  rewrite heap_destroyed; [exact Hh| |exact Hne].
  destruct Hq as (Hobj & _). congruence.
Qed.

Lemma recreate_opt_spec {F : Type} {ops : FloatOps F}
    (st : state F) (q hb bh : positive) (n n' rev : Z) (buf hs : list F)
    (o : list bool) :
  dotprod_at st q n hb buf -> floats_in st bh hs -> bh <> hb ->
  Z.of_nat (length hs) = n' -> 2 * n' < 2 ^ 32 ->
  oracle st = true :: true :: o ->
  exists q' hb' st',
    bind (dotprod_crcf_destroy (Some q))
         (fun _ => dotprod_crcf_create_opt (Some bh) n' rev) st
    = Ok (Some q') st' /\
    dotprod_at st' q' n' hb' (dup (coeff_order rev hs)) /\
    q' <> hb' /\
    (forall b, b <> q -> b <> hb -> b <> q' -> b <> hb' ->
               heap st' !! b = heap st !! b) /\
    (forall b blk, b <> q -> b <> hb -> heap st !! b = Some blk ->
                   heap st' !! b = Some blk) /\
    dom (heap st') = {[q'; hb']} ∪ (dom (heap st) ∖ {[q; hb]}) /\
    errlog st' = errlog st /\ console st' = console st.
Proof.
  intros Hq Hh Hne Hn Hr Ho.
  destruct (new_buf_fresh (destroyed q hb st)) as [Hbf Hnb].
  exists (new_obj (destroyed q hb st)), (new_buf (destroyed q hb st)),
         (created (destroyed q hb st) n' (dup (coeff_order rev hs)) o).
  split; [apply (recreate_opt_fun st q hb bh n n' rev buf hs o); assumption|].
  split.
  { apply dotprod_at_created; [|exact Hr].
    rewrite length_dup, length_coeff_order. lia. }
  split; [congruence|].
  split.
  { intros b H1 H2 H3 H4. unfold created. cbn [heap].
    rewrite !lookup_insert_ne by congruence. apply heap_destroyed; assumption. }
  split.
  { intros b blk H1 H2 Hb. apply heap_created_old.
    rewrite heap_destroyed by assumption. exact Hb. }
  split; [|split; reflexivity].
  unfold created, destroyed. cbn [heap set_heap].
  rewrite !dom_insert_L, !dom_delete_L. apply set_eq. intros x.
  rewrite !elem_of_union, !elem_of_difference, !elem_of_union,
    !elem_of_singleton.
  tauto.
Qed.

(** X9.  [dotprod_crcf_recreate] and [dotprod_crcf_recreate_rev], on a
    well-formed object and an array [h'] of [n'] coefficients other than
    the object's own buffer, destroy the object and return a well-formed
    object for [h'] ([n'] may differ from the count before), with the
    forward layout for the first and the reversed layout for the second.
    The live blocks are those from before, less the old record and buffer,
    plus the new record and buffer: nothing leaks; every other block is as
    it was and no error is reported. *)
Theorem recreate_replaces {F : Type} {ops : FloatOps F}
    (st : state F) (q hb bh : positive) (n n' : Z) (buf hs : list F)
    (o : list bool) :
  dotprod_at st q n hb buf -> floats_in st bh hs -> bh <> hb ->
  Z.of_nat (length hs) = n' -> 2 * n' < 2 ^ 32 ->
  oracle st = true :: true :: o ->
  (exists q' hb' st',
      dotprod_crcf_recreate (Some q) (Some bh) n' st = Ok (Some q') st' /\
      dotprod_at st' q' n' hb' (dup hs) /\ layout false hs (dup hs) /\
      q' <> hb' /\
      (forall b blk, b <> q -> b <> hb -> heap st !! b = Some blk ->
                     heap st' !! b = Some blk) /\
      dom (heap st') = {[q'; hb']} ∪ (dom (heap st) ∖ {[q; hb]}) /\
      errlog st' = errlog st /\ console st' = console st) /\
  (exists q' hb' st',
      dotprod_crcf_recreate_rev (Some q) (Some bh) n' st = Ok (Some q') st' /\
      dotprod_at st' q' n' hb' (dup (reverse hs)) /\
      layout true hs (dup (reverse hs)) /\
      q' <> hb' /\
      (forall b blk, b <> q -> b <> hb -> heap st !! b = Some blk ->
                     heap st' !! b = Some blk) /\
      dom (heap st') = {[q'; hb']} ∪ (dom (heap st) ∖ {[q; hb]}) /\
      errlog st' = errlog st /\ console st' = console st).
Proof.
  intros Hq Hh Hne Hn Hr Ho. destruct (layout_dup hs) as [Lf Lr]. split.
  - destruct (recreate_opt_spec st q hb bh n n' 0 buf hs o Hq Hh Hne Hn Hr Ho)
      as (q' & hb' & st' & E & Hq' & Hd & _ & Hold & Hdom & He & Hc).
    exists q', hb', st'. auto 10.
  - destruct (recreate_opt_spec st q hb bh n n' 1 buf hs o Hq Hh Hne Hn Hr Ho)
      as (q' & hb' & st' & E & Hq' & Hd & _ & Hold & Hdom & He & Hc).
    exists q', hb', st'. auto 10.
Qed.

Lemma recreate_replaces_witness :
  exists q' hb' st',
    dotprod_crcf_recreate (Some 5%positive) (Some 4%positive) 3 ex_obj_state
    = Ok (Some q') st' /\
    dotprod_at st' q' 3 hb' (dup (reverse ex_h)).
Proof.
  destruct (recreate_replaces ex_obj_state 5 6 4 3 3 (dup ex_h) (reverse ex_h)
              [])
    as [(q' & hb' & st' & E & Hq' & _) _].
  - repeat split; reflexivity.
  - exists 4. reflexivity.
  - lia.
  - reflexivity.
  - lia.
  - reflexivity.
  - exists q', hb', st'. split; [exact E|exact Hq'].
Defined.

(** X10.  After [dotprod_crcf_recreate] (or [dotprod_crcf_recreate_rev])
    with coefficients [h'], [dotprod_crcf_execute] on the handle that is
    returned gives the dot product of [h'] (of [h'] reversed) with the
    samples, over exact arithmetic: nothing of the old coefficients is
    left. *)
Theorem recreate_then_execute {F : Type} {ops : FloatOps F}
    {exact : ExactArith F}
    (st : state F) (q hb bh bx y : positive) (n n' : Z) (buf hs xs : list F)
    (o : list bool) :
  dotprod_at st q n hb buf -> floats_in st bh hs -> bh <> hb ->
  Z.of_nat (length hs) = n' -> 2 * n' < 2 ^ 32 ->
  oracle st = true :: true :: o ->
  floats_in st bx xs -> bx <> hb -> Z.of_nat (length xs) = 2 * n' ->
  cell_at st y -> y <> hb ->
  (exists q' st',
      dotprod_crcf_recreate (Some q) (Some bh) n' st = Ok (Some q') st' /\
      dotprod_crcf_execute (Some q') (Some bx) (Some y) st'
      = Ok LIQUID_OK (with_result y (dot_seq hs xs) st')) /\
  (exists q' st',
      dotprod_crcf_recreate_rev (Some q) (Some bh) n' st = Ok (Some q') st' /\
      dotprod_crcf_execute (Some q') (Some bx) (Some y) st'
      = Ok LIQUID_OK (with_result y (dot_seq (reverse hs) xs) st')).
Proof.
  intros Hq Hh Hne Hn Hr Ho [alx Hx] Hxne Hxlen Hy Hyne.
  pose proof Hq as (Hobj & _).
  assert (Hrun : forall rev,
    exists q' st',
      bind (dotprod_crcf_destroy (Some q))
           (fun _ => dotprod_crcf_create_opt (Some bh) n' rev) st
      = Ok (Some q') st' /\
      dotprod_crcf_execute (Some q') (Some bx) (Some y) st'
      = Ok LIQUID_OK (with_result y (dot_seq (coeff_order rev hs) xs) st')).
  { intros rev.
    destruct (recreate_opt_spec st q hb bh n n' rev buf hs o Hq Hh Hne Hn Hr Ho)
      as (q' & hb' & st' & E & Hq' & Hd & _ & Hold & _).
    exists q', st'. split; [exact E|].
    assert (Hx' : heap st' !! bx = Some (BFloats alx xs))
      by (apply Hold; [congruence|exact Hxne|exact Hx]).
    assert (Hy' : cell_at st' y).
    { destruct Hy as (al & ys & Hy & Hl). exists al, ys. split; [|exact Hl].
      apply Hold; [congruence|exact Hyne|exact Hy]. }
    rewrite (execute_fun st' q' hb' bx y n' alx _ xs Hq' Hx' Hxlen Hy').
    rewrite kernel_fun_dot_seq; [reflexivity| |].
    - rewrite length_coeff_order. lia.
    - pose proof (blocks_of_le n' ltac:(lia)). lia. }
  split; [apply (Hrun 0)|apply (Hrun 1)].
Qed.

Lemma recreate_then_execute_witness :
  exists q' st',
    dotprod_crcf_recreate (Some 5%positive) (Some 4%positive) 3 ex_obj_state
    = Ok (Some q') st' /\
    dotprod_crcf_execute (Some q') (Some 2%positive) (Some 3%positive) st'
    = Ok LIQUID_OK (with_result 3%positive (dot_seq (reverse ex_h) ex_x) st').
Proof.
  refine (proj1 (recreate_then_execute ex_obj_state 5 6 4 2 3 3 3 (dup ex_h)
                   (reverse ex_h) ex_x [] _ _ _ _ _ _ _ _ _ _ _)).
  - repeat split; reflexivity.
  - exists 4. reflexivity.
  - lia.
  - reflexivity.
  - lia.
  - reflexivity.
  - exists 4. reflexivity.
  - lia.
  - reflexivity.
  - exists 4, [qc 0; qc 0]. split; [reflexivity|simpl; lia].
  - lia.
Defined.

(** ** Copy *)

Lemma copy_no_record {F : Type} {ops : FloatOps F}
    (st : state F) (q : positive) :
  (forall o, oracle st <> true :: o) ->
  dotprod_crcf_copy (Some q) st = Fault.
Proof.
  intros Ho. rewrite copy_unfold. unfold malloc_obj, alloc.
  destruct (oracle st) as [|[|] o].
  - destruct (deref (Some q) st); reflexivity.
  - exfalso. apply (Ho o). reflexivity.
  - destruct (deref (Some q) (set_oracle o st)); reflexivity.
Qed.

Lemma copy_no_buffer {F : Type} {ops : FloatOps F}
    (st : state F) (q hb : positive) (n : Z) (buf : list F)
    (o1 : list bool) :
  dotprod_at st q n hb buf ->
  oracle st = true :: o1 -> (forall o, o1 <> true :: o) ->
  dotprod_crcf_copy (Some q) st = Fault.
Proof.
  intros (Hobj & Hbuf & Hlen & Hr) Ho Ho1.
  destruct (live_not_new st q _ Hobj) as [Hq1 Hq2].
  rewrite copy_unfold.
  unfold malloc_obj, alloc. rewrite Ho. fold (new_obj st).
  unfold deref at 1. cbn [heap oracle errlog console set_oracle set_heap].
  rewrite lookup_insert_ne, Hobj by congruence. cbn [s_n s_h].
  unfold set_n, update_obj. cbn [heap oracle errlog console set_oracle set_heap].
  rewrite lookup_insert_eq, insert_insert_eq.
  unfold deref. cbn [heap oracle errlog console set_oracle set_heap].
  rewrite lookup_insert_eq. cbn [s_n s_h].
  unfold _mm_malloc, alloc. cbn [heap oracle errlog console set_oracle set_heap].
  destruct o1 as [|[|] o1]; [|exfalso; apply (Ho1 o1); reflexivity|].
  - unfold set_h, update_obj.
    cbn [heap oracle errlog console set_oracle set_heap].
    rewrite lookup_insert_eq. reflexivity.
  - unfold set_h, update_obj.
    cbn [heap oracle errlog console set_oracle set_heap].
    rewrite lookup_insert_eq. reflexivity.
Qed.

(** X11.  [dotprod_crcf_copy] does not test what the allocator returns
    either.  On a non-null handle it never reports an error and never
    returns the null handle.  When the allocation of the record is
    refused, the null pointer is dereferenced; when only the allocation of
    the buffer is refused, [memmove] is given a null destination: a fault
    in both cases. *)
Theorem copy_unchecked_allocation {F : Type} {ops : FloatOps F}
    (st : state F) (q : positive) :
  (forall v st',
      dotprod_crcf_copy (Some q) st = Ok v st' ->
      v <> NULL /\ errlog st' = errlog st) /\
  ((forall o, oracle st <> true :: o) ->
   dotprod_crcf_copy (Some q) st = Fault) /\
  (forall n hb buf o1,
      dotprod_at st q n hb buf ->
      oracle st = true :: o1 -> (forall o, o1 <> true :: o) ->
      dotprod_crcf_copy (Some q) st = Fault).
Proof.
  split; [|split].
  - intros v st' E.
    destruct (triple_copy st q st v st' (keeps_refl NULL st) E) as [[_ He] Hv].
    split; assumption.
  - apply copy_no_record.
  - intros n hb buf o1. apply copy_no_buffer.
Qed.

Lemma copy_unchecked_allocation_witness :
  dotprod_crcf_copy (Some 5%positive) ex_empty_state = Fault.
Proof.
  refine (proj1 (proj2 (copy_unchecked_allocation ex_empty_state 5%positive))
            _).
  intros o. discriminate.
Defined.

(** X12.  The copy is independent of the original: after
    [dotprod_crcf_copy], destroying the original succeeds and leaves the
    copy well formed with the same [n] and buffer, and
    [dotprod_crcf_execute] on the copy still succeeds, with the value
    that these coefficients give, for every sample array. *)
Theorem copy_survives_original {F : Type} {ops : FloatOps F}
    (st : state F) (q hb : positive) (n : Z) (buf : list F) (o : list bool) :
  dotprod_at st q n hb buf -> oracle st = true :: true :: o ->
  exists q' hb' st' st'',
    dotprod_crcf_copy (Some q) st = Ok (Some q') st' /\
    dotprod_crcf_destroy (Some q) st' = Ok LIQUID_OK st'' /\
    heap st'' !! q = None /\ heap st'' !! hb = None /\
    dotprod_at st'' q' n hb' buf /\
    (forall bx xs y,
        floats_in st'' bx xs -> Z.of_nat (length xs) = 2 * n ->
        cell_at st'' y ->
        dotprod_crcf_execute (Some q') (Some bx) (Some y) st''
        = Ok LIQUID_OK
             (with_result y (kernel_fun (blocks_of n) buf xs) st'')).
Proof.
  intros Hq Ho. pose proof Hq as (Hobj & Hbuf & Hlen & Hr).
  destruct (live_not_new st q _ Hobj) as [Hq1 Hq2].
  destruct (live_not_new st hb _ Hbuf) as [Hb1 Hb2].
  assert (Hne : q <> hb) by congruence.
  set (st' := created st n buf o).
  assert (Hold : dotprod_at st' q n hb buf)
    by (apply dotprod_at_created_old; exact Hq).
  assert (Hnew : dotprod_at (destroyed q hb st') (new_obj st) n (new_buf st)
                   buf).
  { destruct (dotprod_at_created st n buf o Hlen Hr) as (H1 & H2 & _).
    repeat split; try assumption.
    - rewrite heap_destroyed by congruence. exact H1.
    - rewrite heap_destroyed by congruence. exact H2. }
  exists (new_obj st), (new_buf st), st', (destroyed q hb st').
  split; [apply (copy_fun st q n hb buf o); assumption|].
  split; [apply (destroy_fun st' q hb n buf Hold)|].
  split; [apply lookup_delete_eq|].
  split.
  { unfold destroyed. cbn [heap set_heap].
    rewrite lookup_delete_ne by congruence. apply lookup_delete_eq. }
  split; [exact Hnew|].
  intros bx xs y [alx Hx] Hxlen Hy.
  apply (execute_fun _ _ (new_buf st) bx y n alx buf xs); assumption.
Qed.

Lemma copy_survives_original_witness :
  exists q' hb' st' st'',
    dotprod_crcf_copy (Some 5%positive) ex_obj_state = Ok (Some q') st' /\
    dotprod_crcf_destroy (Some 5%positive) st' = Ok LIQUID_OK st'' /\
    dotprod_at st'' q' 3 hb' (dup ex_h).
Proof.
  destruct (copy_survives_original ex_obj_state 5 6 3 (dup ex_h) [])
    as (q' & hb' & st' & st'' & E1 & E2 & _ & _ & Hq' & _).
  - repeat split; reflexivity.
  - reflexivity.
  - exists q', hb', st', st''. split; [exact E1|]. split; [exact E2|exact Hq'].
Defined.

(** ** Print *)

Lemma print_unfold {F : Type} {ops : FloatOps F} (_q : ptr) (st : state F) :
  dotprod_crcf_print _q st
  = match deref _q st with
    | Ok s st1 =>
        match for_loop 0 (s_n s) 1 (print_body (s_h s)) tt
                (printed [OutHeader (s_n s)] st1) with
        | Ok _ st2 => Ok LIQUID_OK st2
        | Fault => Fault
        end
    | Fault => Fault
    end.
Proof.
  unfold dotprod_crcf_print, bind. destruct (deref _q st) as [s st1|];
    [|reflexivity].
  unfold printf at 1. fold (printed [OutHeader (s_n s)] st1).
  reflexivity.
Qed.

Lemma printed_app {F : Type} (l1 l2 : list (out_line F)) (st : state F) :
  printed l2 (printed l1 st) = printed (l1 ++ l2) st.
Proof. unfold printed. cbn [heap oracle errlog console]. rewrite app_assoc. reflexivity. Qed.





(** X14.  An object with [n = 0]: [dotprod_crcf_print] writes the
    header alone and reads nothing through the buffer pointer, whatever it
    is; and when the buffer pointer is null (which is how creation leaves
    it when the buffer allocation is refused), [dotprod_crcf_destroy]
    succeeds and releases the record, [_mm_free] ignoring the null
    pointer. *)
Theorem zero_length_object {F : Type} {ops : FloatOps F}
    (st : state F) (q : positive) (hp : ptr) :
  heap st !! q = Some (BObj {| s_n := 0; s_h := hp |}) ->
  dotprod_crcf_print (Some q) st
  = Ok LIQUID_OK (printed [OutHeader 0] st) /\
  (hp = NULL ->
   dotprod_crcf_destroy (Some q) st
   = Ok LIQUID_OK (set_heap (delete q (heap st)) st)).
Proof.
  intros Hq. split.
  - rewrite print_unfold, (deref_obj st q _ Hq). cbn [s_n s_h].
    rewrite for_loop_empty. reflexivity.
  - intros ->. unfold dotprod_crcf_destroy, bind.
    rewrite (deref_obj st q _ Hq). cbn [s_h].
    unfold _mm_free, free, NULL. cbv beta iota. rewrite Hq. reflexivity.
Qed.

Lemma zero_length_object_witness :
  dotprod_crcf_print (Some 5%positive) ex_empty_state
  = Ok LIQUID_OK (printed [OutHeader 0] ex_empty_state).
Proof.
  apply (zero_length_object ex_empty_state 5 NULL). reflexivity.
Defined.

(** ** The scalar routines *)


(** X15.  [dotprod_crcf_run] as compiled with [_MSC_VER], for every [n],
    [h] and [x]: it returns [LIQUID_OK] and stores [0 + 0i] when [n = 0]
    and the last product, [_FCmulcr(x[n-1], h[n-1])], when [n > 0]; the
    products before are overwritten, not accumulated. *)
Theorem run_msc_last_product {F : Type} {ops : FloatOps F}
    (st : state F) (bh bx y : positive) (n : Z) (hs xs : list F) :
  floats_in st bh hs -> floats_in st bx xs -> cell_at st y ->
  Z.of_nat (length hs) = n -> length xs = (2 * length hs)%nat ->
  n < 2 ^ 32 ->
  dotprod_crcf_run_msc (Some bh) (Some bx) n (Some y) st
  = Ok LIQUID_OK
       (with_result y
          (if n =? 0 then (f0, f0)
           else _FCmulcr (sample xs (Z.to_nat (n - 1)))
                  (nth (Z.to_nat (n - 1)) hs f0)) st).
Proof.
  intros Hh Hx Hy Hn Hlen Hr. subst n.
  destruct (length hs) as [|k] eqn:Hk.
  - unfold dotprod_crcf_run_msc, bind. cbn [Z.of_nat].
    rewrite for_loop_empty. cbn [Z.eqb]. unfold _FCOMPLEX_.
    rewrite store_complex_cell by exact Hy. reflexivity.
  - rewrite (run_msc_value st bh bx y k hs xs) by (assumption || lia).
    rewrite (proj2 (Z.eqb_neq _ _)) by lia.
    replace (Z.to_nat (Z.of_nat (S k) - 1)) with k by lia. reflexivity.
Qed.

Lemma run_msc_last_product_witness :
  dotprod_crcf_run_msc (Some 1%positive) (Some 2%positive) 3
    (Some 3%positive) (ex_state [])
  = Ok LIQUID_OK
       (with_result 3%positive (_FCmulcr (sample ex_x 2) (nth 2 ex_h f0))
          (ex_state [])).
Proof.
  apply (run_msc_last_product (ex_state []) 1 2 3 3 ex_h ex_x).
  - exists 4. reflexivity.
  - exists 4. reflexivity.
  - exists 4, [qc 0; qc 0]. split; [reflexivity|simpl; lia].
  - reflexivity.
  - reflexivity.
  - lia.
Defined.

(** X16.  With [n = 0], [dotprod_crcf_run] and [dotprod_crcf_run4] make
    no iteration, read nothing through [_h] and [_x] (which may be null),
    store [0 + 0i] and return [LIQUID_OK]. *)
Theorem run_zero_length {F : Type} {ops : FloatOps F}
    (st : state F) (_h _x : ptr) (y : positive) :
  cell_at st y ->
  dotprod_crcf_run _h _x 0 (Some y) st
  = Ok LIQUID_OK (with_result y (f0, f0) st) /\
  dotprod_crcf_run4 _h _x 0 (Some y) st
  = Ok LIQUID_OK (with_result y (f0, f0) st).
Proof.
  intros Hy. split.
  - rewrite run_unfold, for_loop_empty. apply finish_cell. exact Hy.
  - rewrite run4_unfold.
    change (u32 (Z.shiftl (Z.shiftr 0 2) 2)) with 0.
    rewrite for_loop_empty, for_loop_empty. apply finish_cell. exact Hy.
Qed.

Lemma run_zero_length_witness :
  dotprod_crcf_run NULL NULL 0 (Some 3%positive) (ex_state [])
  = Ok LIQUID_OK (with_result 3%positive (f0, f0) (ex_state [])).
Proof.
  apply (run_zero_length (ex_state []) NULL NULL 3).
  exists 4, [qc 0; qc 0]. split; [reflexivity|simpl; lia].
Defined.

Lemma finish_status {F : Type} {ops : FloatOps F}
    (_y : ptr) (r : liquid_float_complex) (st : state F) (v : Z)
    (st' : state F) :
  finish _y r st = Ok v st' -> v = LIQUID_OK.
Proof.
  unfold finish, bind. destruct (store_complex _y r st); [|discriminate].
  intros [= <- _]. reflexivity.
Qed.

Lemma run_status {F : Type} {ops : FloatOps F}
    (_h _x : ptr) (_n : Z) (_y : ptr) (st : state F) (v : Z) (st' : state F) :
  dotprod_crcf_run _h _x _n _y st = Ok v st' -> v = LIQUID_OK.
Proof.
  rewrite run_unfold.
  destruct (for_loop 0 _n 1 (run_body _h _x) (f0, f0) st) as [[i r] st1|];
    [|discriminate].
  apply finish_status.
Qed.

Lemma run4_status {F : Type} {ops : FloatOps F}
    (_h _x : ptr) (_n : Z) (_y : ptr) (st : state F) (v : Z) (st' : state F) :
  dotprod_crcf_run4 _h _x _n _y st = Ok v st' -> v = LIQUID_OK.
Proof.
  rewrite run4_unfold.
  destruct (for_loop 0 _ 4 (run4_body _h _x) (f0, f0) st) as [[i r] st1|];
    [|discriminate].
  destruct (for_loop i _n 1 (run_body _h _x) r st1) as [[i' r'] st2|];
    [|discriminate].
  apply finish_status.
Qed.

(** X17.  [dotprod_crcf_run] and [dotprod_crcf_run4], whatever their
    arguments: when the call returns, the status is [LIQUID_OK], every
    block other than the one [_y] points to has the contents it had
    (coefficients and samples are only read), no object record has
    changed and no error has been reported. *)
Theorem scalar_frame {F : Type} {ops : FloatOps F}
    (f : ptr -> ptr -> Z -> ptr -> M F Z)
    (_h _x : ptr) (_n : Z) (_y : ptr) (st : state F) (v : Z)
    (st' : state F) :
  f = dotprod_crcf_run \/ f = dotprod_crcf_run4 ->
  f _h _x _n _y st = Ok v st' ->
  v = LIQUID_OK /\
  (forall b blk, heap st !! b = Some blk -> Some b <> _y ->
                 heap st' !! b = Some blk) /\
  (forall b s, heap st !! b = Some (BObj s) -> heap st' !! b = Some (BObj s)) /\
  errlog st' = errlog st.
Proof.
  intros Hf E.
  assert (HK : keeps _y st st').
  { destruct Hf as [-> | ->].
    - exact (proj1 (triple_run _y st _h _x _n st v st' (keeps_refl _ st) E)).
    - exact (proj1 (triple_run4 _y st _h _x _n st v st' (keeps_refl _ st) E)). }
  split.
  { destruct Hf as [-> | ->]; [eapply run_status|eapply run4_status];
      exact E. }
  destruct HK as [HK He]. split; [|split; [|exact He]].
  - intros b blk Hb Hne. apply HK; [exact Hb|left; exact Hne].
  - intros b s Hb. apply HK; [exact Hb|right; exists s; reflexivity].
Qed.

Lemma scalar_frame_witness :
  exists st',
    dotprod_crcf_run4 (Some 1%positive) (Some 2%positive) 3 (Some 3%positive)
      (ex_state []) = Ok LIQUID_OK st' /\
    heap st' !! 2%positive = Some (BFloats 4 ex_x).
Proof.
  destruct (dotprod_crcf_run4 (Some 1%positive) (Some 2%positive) 3
              (Some 3%positive) (ex_state [])) as [v st'|] eqn:E;
    [|exfalso; revert E; vm_compute; discriminate].
  destruct (scalar_frame dotprod_crcf_run4 (Some 1%positive) (Some 2%positive)
              3 (Some 3%positive) (ex_state []) v st')
    as (-> & Hk & _).
  - right. reflexivity.
  - exact E.
  - exists st'. split; [reflexivity|].
    apply Hk; [reflexivity|discriminate].
Defined.

(** ** The kernels *)

Lemma with_result_twice {F : Type} {ops : FloatOps F}
    (st : state F) (y : positive) (r r' : liquid_float_complex) :
  with_result y r (with_result y r' st) = with_result y r st.
Proof.
  destruct (heap st !! y) as [[al ys|s]|] eqn:Hy.
  - unfold with_result. rewrite Hy. cbn [heap set_heap].
    rewrite lookup_insert_eq.
    unfold set_heap. cbn [heap oracle errlog console]. f_equal.
    rewrite insert_insert_eq. do 2 f_equal.
    rewrite (list_insert_insert_ne _ 0 1) by lia.
    rewrite !list_insert_insert_eq. reflexivity.
  - unfold with_result. rewrite Hy, Hy. reflexivity.
  - unfold with_result. rewrite Hy, Hy. reflexivity.
Qed.

(** X18.  [dotprod_crcf_execute] can be repeated: with the result cell
    apart from the buffer and from the samples, a second call with the
    same arguments succeeds and leaves the state exactly as the first call
    left it, the same value in the result cell. *)
Theorem execute_repeatable {F : Type} {ops : FloatOps F}
    (st : state F) (q hb bx y : positive) (n : Z) (buf xs : list F) :
  dotprod_at st q n hb buf -> floats_in st bx xs ->
  Z.of_nat (length xs) = 2 * n -> cell_at st y ->
  y <> hb -> y <> bx ->
  exists st1,
    dotprod_crcf_execute (Some q) (Some bx) (Some y) st = Ok LIQUID_OK st1 /\
    dotprod_crcf_execute (Some q) (Some bx) (Some y) st1 = Ok LIQUID_OK st1.
Proof.
  intros Hq [alx Hx] Hxlen Hy Hyh Hyx.
  set (r := kernel_fun (blocks_of n) buf xs).
  assert (Hyq : q <> y).
  { destruct Hy as (al & ys & Hy & _). destruct Hq as (Hobj & _). congruence. }
  exists (with_result y r st).
  split; [apply (execute_fun st q hb bx y n alx buf xs); assumption|].
  assert (Hq1 : dotprod_at (with_result y r st) q n hb buf).
  { destruct Hq as (Hobj & Hbuf & Hlen & Hr). repeat split; try assumption.
    - rewrite heap_with_result_ne by congruence. exact Hobj.
    - rewrite heap_with_result_ne by congruence. exact Hbuf. }
  assert (Hx1 : heap (with_result y r st) !! bx = Some (BFloats alx xs))
    by (rewrite heap_with_result_ne by congruence; exact Hx).
  assert (Hy1 : cell_at (with_result y r st) y).
  { destruct Hy as (al & ys & Hy & Hl). unfold with_result. rewrite Hy.
    eexists al, _. cbn [heap set_heap]. rewrite lookup_insert_eq.
    split; [reflexivity|]. rewrite !length_insert. exact Hl. }
  rewrite (execute_fun _ q hb bx y n alx buf xs Hq1 Hx1 Hxlen Hy1).
  fold r. rewrite with_result_twice. reflexivity.
Qed.

Lemma execute_repeatable_witness :
  exists st1,
    dotprod_crcf_execute (Some 5%positive) (Some 2%positive) (Some 3%positive)
      ex_obj_state = Ok LIQUID_OK st1 /\
    dotprod_crcf_execute (Some 5%positive) (Some 2%positive) (Some 3%positive)
      st1 = Ok LIQUID_OK st1.
Proof.
  apply (execute_repeatable ex_obj_state 5 6 2 3 3 (dup ex_h) ex_x).
  - repeat split; reflexivity.
  - exists 4. reflexivity.
  - reflexivity.
  - exists 4, [qc 0; qc 0]. split; [reflexivity|simpl; lia].
  - lia.
  - lia.
Defined.

(** X19.  With no law of arithmetic assumed: the narrow kernel gives what
    [floor(2n/16)] blocks in the vector loop and the rest in the cleanup
    loop give; the wide kernel adds its four products into the one
    accumulator in the order of the blocks, so that it gives what
    [4*floor(2n/64)] blocks in the vector loop and the rest in the cleanup
    loop give.  When [n mod 32 < 8] the two numbers of blocks are the same
    and the two kernels have the same outcome, additions made in the same
    order. *)
Theorem kernels_same_rounding {F : Type} {ops : FloatOps F}
    (st : state F) (q hb bx y : positive) (n : Z) (buf xs : list F) :
  dotprod_at st q n hb buf -> floats_in st bx xs ->
  Z.of_nat (length xs) = 2 * n -> cell_at st y ->
  dotprod_crcf_execute_avx512f (Some q) (Some bx) (Some y) st
  = Ok LIQUID_OK
       (with_result y (kernel_fun (Z.to_nat (2 * n / 16)) buf xs) st) /\
  dotprod_crcf_execute_avx512f4 (Some q) (Some bx) (Some y) st
  = Ok LIQUID_OK
       (with_result y (kernel_fun (4 * Z.to_nat (2 * n / 64)) buf xs) st) /\
  (n mod 32 < 8 ->
   dotprod_crcf_execute_avx512f (Some q) (Some bx) (Some y) st
   = dotprod_crcf_execute_avx512f4 (Some q) (Some bx) (Some y) st).
Proof.
  intros Hq [alx Hx] Hxlen Hy.
  pose proof (avx512f_fun st q hb bx y n alx buf xs Hq Hx Hxlen Hy) as E1.
  pose proof (avx512f4_fun st q hb bx y n alx buf xs Hq Hx Hxlen Hy) as E2.
  split; [exact E1|]. split; [exact E2|].
  intros Hn. rewrite E1, E2.
  replace (Z.to_nat (2 * n / 16)) with (4 * Z.to_nat (2 * n / 64))%nat;
    [reflexivity|].
  assert (0 <= n) by lia.
  assert (E16 : 2 * n / 16 = 4 * (2 * n / 64))
    by (Z.div_mod_to_equations; lia).
  rewrite E16.
  assert (0 <= 2 * n / 64) by (apply Z.div_pos; lia). lia.
Qed.

Lemma kernels_same_rounding_witness :
  dotprod_crcf_execute_avx512f (Some 5%positive) (Some 2%positive)
    (Some 3%positive) ex_obj_state
  = dotprod_crcf_execute_avx512f4 (Some 5%positive) (Some 2%positive)
      (Some 3%positive) ex_obj_state.
Proof.
  refine (proj2 (proj2 (kernels_same_rounding ex_obj_state 5 6 2 3 3
                          (dup ex_h) ex_x _ _ _ _)) _).
  - repeat split; reflexivity.
  - exists 4. reflexivity.
  - reflexivity.
  - exists 4, [qc 0; qc 0]. split; [reflexivity|simpl; lia].
  - reflexivity.
Defined.

(** X20.  The result is written after the last read: with [_y]
    pointing to the first sample of [x] itself, [dotprod_crcf_run],
    [dotprod_crcf_run4] and [dotprod_crcf_execute] succeed and store the
    value computed from the samples as they were before the call (over
    exact arithmetic, the dot product in the three cases). *)
Theorem output_may_overlap_samples {F : Type} {ops : FloatOps F}
    (st : state F) (q hb bh bx : positive) (n : Z) (hs xs : list F) :
  dotprod_at st q n hb (dup hs) -> floats_in st bh hs ->
  floats_in st bx xs -> Z.of_nat (length xs) = 2 * n -> 0 < n ->
  dotprod_crcf_run (Some bh) (Some bx) n (Some bx) st
  = Ok LIQUID_OK (with_result bx (dot_seq hs xs) st) /\
  dotprod_crcf_run4 (Some bh) (Some bx) n (Some bx) st
  = Ok LIQUID_OK (with_result bx (dot_seq hs xs) st) /\
  dotprod_crcf_execute (Some q) (Some bx) (Some bx) st
  = Ok LIQUID_OK
       (with_result bx (kernel_fun (blocks_of n) (dup hs) xs) st) /\
  (ExactArith F -> kernel_fun (blocks_of n) (dup hs) xs = dot_seq hs xs).
Proof.
  intros Hq Hh Hx Hxlen Hn.
  pose proof Hq as (_ & _ & Hblen & Hr). apply length_of_dup in Hblen.
  assert (Hy : cell_at st bx).
  { destruct Hx as [alx Hx]. exists alx, xs. split; [exact Hx|lia]. }
  assert (Hrun : dotprod_crcf_run (Some bh) (Some bx) n (Some bx) st
                 = Ok LIQUID_OK (with_result bx (dot_seq hs xs) st))
    by (apply run_value; try assumption; lia).
  split; [exact Hrun|]. split; [rewrite run4_run by lia; exact Hrun|].
  split.
  - destruct Hx as [alx Hx].
    apply (execute_fun st q hb bx bx n alx (dup hs) xs); assumption.
  - intros exact. apply kernel_fun_dot_seq; [lia|].
    pose proof (blocks_of_le n ltac:(lia)). lia.
Qed.

Lemma output_may_overlap_samples_witness :
  dotprod_crcf_run (Some 1%positive) (Some 2%positive) 3 (Some 2%positive)
    ex_obj_state
  = Ok LIQUID_OK (with_result 2%positive (dot_seq ex_h ex_x) ex_obj_state).
Proof.
  apply (output_may_overlap_samples ex_obj_state 5 6 1 2 3 ex_h ex_x).
  - repeat split; reflexivity.
  - exists 4. reflexivity.
  - exists 4. reflexivity.
  - reflexivity.
  - lia.
Defined.

(** X21.  From the coefficients to the result: an object made by
    [dotprod_crcf_create] from the array [h], executed on [x], stores the
    dot product of [h] and [x], which is also what [dotprod_crcf_run]
    stores when it is given [h] and [x] directly (over exact
    arithmetic). *)
Theorem create_then_execute {F : Type} {ops : FloatOps F}
    {exact : ExactArith F}
    (st : state F) (bh bx y : positive) (n : Z) (hs xs : list F)
    (o : list bool) :
  floats_in st bh hs -> Z.of_nat (length hs) = n -> 2 * n < 2 ^ 32 ->
  oracle st = true :: true :: o ->
  floats_in st bx xs -> Z.of_nat (length xs) = 2 * n -> cell_at st y ->
  exists q st',
    dotprod_crcf_create (Some bh) n st = Ok (Some q) st' /\
    dotprod_crcf_execute (Some q) (Some bx) (Some y) st'
    = Ok LIQUID_OK (with_result y (dot_seq hs xs) st') /\
    dotprod_crcf_execute (Some q) (Some bx) (Some y) st'
    = dotprod_crcf_run (Some bh) (Some bx) n (Some y) st'.
Proof.
  intros [al Hh] Hn Hr Ho [alx Hx] Hxlen Hy.
  set (st' := created st n (dup hs) o).
  assert (Hq : dotprod_at st' (new_obj st) n (new_buf st) (dup hs))
    by (apply dotprod_at_created; [rewrite length_dup; lia|exact Hr]).
  assert (Hx' : heap st' !! bx = Some (BFloats alx xs))
    by (apply heap_created_old; exact Hx).
  assert (Hh' : heap st' !! bh = Some (BFloats al hs))
    by (apply heap_created_old; exact Hh).
  assert (Hy' : cell_at st' y) by (apply cell_at_created; exact Hy).
  assert (E : dotprod_crcf_execute (Some (new_obj st)) (Some bx) (Some y) st'
              = Ok LIQUID_OK (with_result y (dot_seq hs xs) st')).
  { rewrite (execute_fun st' _ (new_buf st) bx y n alx (dup hs) xs)
      by assumption.
    rewrite kernel_fun_dot_seq; [reflexivity|lia|].
    pose proof (blocks_of_le n ltac:(lia)). lia. }
  exists (new_obj st), st'.
  split; [apply (create_opt_fun st bh al hs n 0 o); assumption|].
  split; [exact E|]. rewrite E. symmetry.
  apply run_value; try lia; [exists al; exact Hh'|exists alx; exact Hx'|
                             exact Hy'].
Qed.

Lemma create_then_execute_witness :
  exists q st',
    dotprod_crcf_create (Some 1%positive) 3 (ex_state [true; true])
    = Ok (Some q) st' /\
    dotprod_crcf_execute (Some q) (Some 2%positive) (Some 3%positive) st'
    = Ok LIQUID_OK (with_result 3%positive (dot_seq ex_h ex_x) st').
Proof.
  destruct (create_then_execute (ex_state [true; true]) 1 2 3 3 ex_h ex_x [])
    as (q & st' & E1 & E2 & _).
  - exists 4. reflexivity.
  - reflexivity.
  - lia.
  - reflexivity.
  - exists 4. reflexivity.
  - reflexivity.
  - exists 4, [qc 0; qc 0]. split; [reflexivity|simpl; lia].
  - exists q, st'. split; [exact E1|exact E2].
Defined.

(** X22.  The loops of the kernels, for every record with [2n] an
    [unsigned int], whatever the pointers: the narrow kernel makes
    [floor(2n/16)] iterations of its vector loop and then
    [(2n mod 16)/2] iterations of the cleanup loop, from where the vector
    loop stopped; the wide kernel makes [floor(2n/64)] iterations of its
    vector loop, the counter going up by 16 while four blocks are
    handled, and then [(2n mod 64)/2] iterations of the cleanup loop, from
    [4*r] with [r = 16*floor(2n/64)]. *)
Theorem kernel_loop_structure {F : Type} {ops : FloatOps F}
    (st : state F) (q : positive) (s : dotprod_crcf_s) (_x _y : ptr) :
  heap st !! q = Some (BObj s) -> 0 <= s_n s -> 2 * s_n s < 2 ^ 32 ->
  dotprod_crcf_execute_avx512f (Some q) _x _y st
  = match iterate (Z.to_nat (2 * s_n s / 16)) 16 (avx_body _x (s_h s)) 0
            _mm512_setzero_ps st with
    | Ok (i, sum) st1 =>
        match iterate (Z.to_nat (2 * s_n s mod 16 / 2)) 2
                (cleanup_body _x (s_h s)) i (reduce_pair sum) st1 with
        | Ok (_, w) st2 => finish _y w st2
        | Fault => Fault
        end
    | Fault => Fault
    end /\
  dotprod_crcf_execute_avx512f4 (Some q) _x _y st
  = match iterate (Z.to_nat (2 * s_n s / 64)) 16 (avx4_body _x (s_h s)) 0
            _mm512_setzero_ps st with
    | Ok (_, sum) st1 =>
        match iterate (Z.to_nat (2 * s_n s mod 64 / 2)) 2
                (cleanup_body _x (s_h s)) (4 * (16 * (2 * s_n s / 64)))
                (reduce_pair sum) st1 with
        | Ok (_, w) st2 => finish _y w st2
        | Fault => Fault
        end
    | Fault => Fault
    end.
Proof.
  intros Hq Hn Hr.
  set (n := 2 * s_n s) in *.
  assert (Hn0 : 0 <= n) by (subst n; lia).
  split.
  - rewrite avx512f_unfold, (deref_obj st q s Hq). cbv zeta. fold n.
    rewrite (u32_small n) by lia.
    rewrite (shift_floor n 4 4) by lia.
    change (2 ^ 4) with 16.
    assert (H16 : 0 <= 16 * (n / 16) <= n) by (Z.div_mod_to_equations; lia).
    rewrite (u32_small (16 * (n / 16))) by lia.
    rewrite (for_loop_iterate _ 0 (16 * (n / 16)) 16 (Z.to_nat (n / 16)))
      by (Z.div_mod_to_equations; lia).
    destruct (iterate (Z.to_nat (n / 16)) 16 (avx_body _x (s_h s)) 0
                _mm512_setzero_ps st) as [[i sum] st1|] eqn:E; [|reflexivity].
    apply iterate_counter in E. subst i.
    rewrite (for_loop_iterate _ _ n 2 (Z.to_nat (n mod 16 / 2)))
      by (subst n; Z.div_mod_to_equations; lia).
    reflexivity.
  - rewrite avx512f4_unfold, (deref_obj st q s Hq). cbv zeta. fold n.
    rewrite (u32_small n) by lia.
    rewrite (shift_floor n 6 4) by lia.
    change (2 ^ 4) with 16. change (2 ^ 6) with 64.
    assert (H64 : 0 <= 64 * (n / 64) <= n) by (Z.div_mod_to_equations; lia).
    rewrite (u32_small (16 * (n / 64))) by lia.
    rewrite (u32_small (4 * (16 * (n / 64)))) by lia.
    rewrite (for_loop_iterate _ 0 (16 * (n / 64)) 16 (Z.to_nat (n / 64)))
      by (Z.div_mod_to_equations; lia).
    destruct (iterate (Z.to_nat (n / 64)) 16 (avx4_body _x (s_h s)) 0
                _mm512_setzero_ps st) as [[i sum] st1|] eqn:E; [|reflexivity].
    rewrite (for_loop_iterate _ _ n 2 (Z.to_nat (n mod 64 / 2)))
      by (subst n; Z.div_mod_to_equations; lia).
    reflexivity.
Qed.

Lemma kernel_loop_structure_witness :
  dotprod_crcf_execute_avx512f (Some 5%positive) (Some 2%positive)
    (Some 3%positive) ex_obj_state
  = match iterate 0 16 (avx_body (Some 2%positive) (Some 6%positive)) 0
            _mm512_setzero_ps ex_obj_state with
    | Ok (i, sum) st1 =>
        match iterate 3 2
                (cleanup_body (Some 2%positive) (Some 6%positive)) i
                (reduce_pair sum) st1 with
        | Ok (_, w) st2 => finish (Some 3%positive) w st2
        | Fault => Fault
        end
    | Fault => Fault
    end.
Proof.
  refine (proj1 (kernel_loop_structure ex_obj_state 5
                   {| s_n := 3; s_h := Some 6%positive |}
                   (Some 2%positive) (Some 3%positive) _ _ _)).
  - reflexivity.
  - simpl. lia.
  - simpl. lia.
Defined.

(** X23.  The two reductions that follow the vector loop, on a register
    of sixteen lanes and over exact arithmetic: the mask [0x5555] gives the
    sum of the lanes at even positions (the real parts), the mask [0xAAAA]
    the sum of the lanes at odd positions (the imaginary parts), and
    between them every lane is counted once. *)
Theorem mask_reduce_even_odd {F : Type} {ops : FloatOps F}
    {exact : ExactArith F} (c : __m512) :
  length c = 16%nat ->
  _mm512_mask_reduce_add_ps 0x5555 c = fst (alt_sum c) /\
  _mm512_mask_reduce_add_ps 0xAAAA c = snd (alt_sum c) /\
  fadd (_mm512_mask_reduce_add_ps 0x5555 c)
       (_mm512_mask_reduce_add_ps 0xAAAA c) = sum_list c.
Proof.
  intros Hlen. pose proof (reduce_pair_alt_sum c Hlen) as E.
  unfold reduce_pair in E.
  pose proof (f_equal fst E) as E1. pose proof (f_equal snd E) as E2.
  cbn [fst snd] in E1, E2.
  split; [exact E1|]. split; [exact E2|]. rewrite E1, E2.
  assert (Hsum : forall l : list F, Nat.even (length l) = true ->
             fadd (fst (alt_sum l)) (snd (alt_sum l)) = sum_list l).
  { induction l as [| |a b l IH] using pairs_ind; intros Hev.
    - cbn. apply fadd_0_l.
    - discriminate.
    - cbn [alt_sum fst snd sum_list foldr]. fold (sum_list l).
      rewrite <- IH by exact Hev. rewrite fadd_swap.
      rewrite <- fadd_assoc. reflexivity. }
  apply Hsum. rewrite Hlen. reflexivity.
Qed.

Lemma mask_reduce_even_odd_witness :
  _mm512_mask_reduce_add_ps 0x5555 ex_lanes = fst (alt_sum ex_lanes) /\
  _mm512_mask_reduce_add_ps 0xAAAA ex_lanes = snd (alt_sum ex_lanes).
Proof.
  destruct (mask_reduce_even_odd ex_lanes) as (E1 & E2 & _).
  - reflexivity.
  - split; [exact E1|exact E2].
Defined.
